(** * ACTS packet sender and hostapd utilities: a shallow embedding

    Source files embedded here:
    - [acts/controllers/packet_sender.py]: the packet generators, the
      [ThreadSendPacket] worker and the [PacketSender] controller;
    - [acts/controllers/ap_lib/hostapd_utils.py]: [generate_random_password]
      and the checks [verify_interface], [verify_security_mode] and
      [verify_cipher].

    Conventions.  Python objects that are shared between the main process
    and the worker ([multiprocessing.Event], [multiprocessing.Process]) live
    in a store and are named by handles.  Calls into scapy, [time] and
    [socket] are external: what each coming call does (return, or raise an
    instance of [Exception]) is read from an oracle carried by the world, and
    every call that returns leaves an observation in the world's trace. *)

From Stdlib Require Import ZArith Ascii String.
From stdpp Require Import base option list gmap strings.

Open Scope string_scope.
Open Scope Z_scope.

(** ** Python values and scapy packets *)

(** What a configuration entry or an optional argument can hold. *)
Inductive value :=
| VNone
| VStr (s : string)
| VInt (n : Z).

#[global] Instance value_eq_dec : EqDecision value.
Proof. solve_decision. Defined.

(** [x if x is not None else d] *)
Definition or_default (x d : value) : value :=
  match x with
  | VNone => d
  | _ => x
  end.

(** One entry of [scapy.DHCP(options=[...])]: a pair, or a bare name. *)
Inductive dhcp_option :=
| Opt (name : string) (v : value)
| OptName (name : string).

(** The scapy layers the generators build, with the fields they set (the
    fields left to scapy's defaults are not listed).  A layer is the record
    of the values it was built from: the checks that scapy's constructors
    make on a field (an EtherType that is no number, a name that does not
    resolve) are not modelled, so what is said of a packet is said of the
    calls that return one. *)
Inductive layer :=
| Ether (src dst : value)
| ARP (op pdst psrc hwdst hwsrc : value)
| DHCP (options : list dhcp_option)
| BOOTP (op : Z) (yiaddr siaddr giaddr chaddr : value) (xid : Z)
| UDP (sport dport : Z)
| IP (src dst : value) (ttl : option Z)
| IPv6 (dst src : value)
| ICMPv6ND_NS (tgt : value)
| ICMPv6NDOptSrcLLAddr (lladdr : value)
| ICMPv6ND_RA (routerlifetime : value)
| ICMPv6NDOptPrefixInfo (prefixlen : Z) (prefix : string)
| ICMPv6NDOptRDNSS (lifetime : value) (dns : list value) (len : Z)
| ICMPv6EchoRequest (data : string)
| ICMP (type : Z)
| DNS (rd : Z) (qd_qname : value) (qd_qtype : string)
| Dot3 (src dst : value) (len : option Z)
| LLC (dsap ssap ctrl : value)
| SNAP (OUI code : value)
| Padding (load : list Z).

(** A packet is its stack of layers, outermost first; scapy's [a / b] puts
    [b] under [a]. *)
Definition Packet : Type := list layer.

Definition stack (a b : Packet) : Packet := (a ++ b)%list.
Infix "//" := stack (at level 40, left associativity).

(** ** Exceptions, results and the state monad *)

Inductive exn :=
| PacketSenderError (msg : string)
| SocketError (errno : Z)
| KeyError (key : string)
| AttributeError (msg : string)
| AssertionError (msg : string)
| ValueError (msg : string)
| OtherException (name : string).

(** [except socket.error] *)
Definition is_socket_error (e : exn) : bool :=
  match e with
  | SocketError _ => true
  | _ => false
  end.

(** [except Exception]: every value of [exn] is an instance of [Exception]. *)
Definition is_Exception (e : exn) : bool := true.

(** How a call ends: it returns, it raises, or it blocks for ever. *)
Inductive result (A : Type) :=
| Ok (a : A)
| Raised (e : exn)
| Hang.
Arguments Ok {A} a.
Arguments Raised {A} e.
Arguments Hang {A}.

Definition M (S A : Type) : Type := S -> result A * S.

Definition ret {S A} (a : A) : M S A := fun s => (Ok a, s).

Definition bind {S A B} (m : M S A) (k : A -> M S B) : M S B :=
  fun s =>
    match m s with
    | (Ok a, s') => k a s'
    | (Raised e, s') => (Raised e, s')
    | (Hang, s') => (Hang, s')
    end.

Definition raise {S A} (e : exn) : M S A := fun s => (Raised e, s).

Definition gets {S A} (f : S -> A) : M S A := fun s => (Ok (f s), s).

Definition modify {S} (f : S -> S) : M S unit := fun s => (Ok tt, f s).

(** [try: body  except <handles>: handler] *)
Definition try_except {S A} (body : M S A) (handles : exn -> bool)
    (handler : exn -> M S A) : M S A :=
  fun s =>
    match body s with
    | (Raised e, s') => if handles e then handler e s' else (Raised e, s')
    | r => r
    end.

Declare Scope py_scope.
Delimit Scope py_scope with py.
Notation "x <- m ;; k" := (bind m (fun x => k))
  (at level 100, m at next level, right associativity) : py_scope.
Notation "m ;; k" := (bind m (fun _ => k))
  (at level 100, right associativity) : py_scope.
Open Scope py_scope.

(** What the body of a [for] loop asks for when it ends. *)
Inductive flow :=
| Continue
| Return.

(** [for _ in range(n): body], where the body may [return]. *)
Fixpoint for_range {S} (n : nat) (body : M S flow) : M S unit :=
  match n with
  | O => ret tt
  | Datatypes.S k =>
      f <- body ;;
      match f with
      | Continue => for_range k body
      | Return => ret tt
      end
  end.

(** ** The world: shared objects, the oracle and the trace *)

Inductive level :=
| INFO
| WARNING
| EXCEPTION.

(** Observations: frames that left on an interface, sleeps, log records. *)
Inductive obs :=
| Sendp (p : Packet) (iface : string)
| Srp1 (p : Packet) (iface : string) (timeout : Z)
| Sleep (interval : Z)
| Log (lv : level) (msg : string) (exc : option exn).

(** Where the [run] method of a worker stands. *)
Inductive pstate :=
| NotStarted
| AtStart
| AtPoll
| AtSend
| AtSleep
| Stopped
| Failed
| Killed.

#[global] Instance pstate_eq_dec : EqDecision pstate.
Proof. solve_decision. Defined.

(** A [ThreadSendPacket] object. *)
Record ThreadSendPacket := mkThread {
  tsp_stop_signal : nat;
  tsp_packet : Packet;
  tsp_interval : Z;
  tsp_interface : string;
  tsp_pc : pstate
}.

(** The world: the events and the workers by handle, the next free
    handles, the outcomes of the coming external calls ([None]: the call
    returns), and what was observed so far, newest first. *)
Record World := mkWorld {
  events : gmap nat bool;
  next_event : nat;
  procs : gmap nat ThreadSendPacket;
  next_pid : nat;
  oracle : list (option exn);
  trace : list obs
}.

Definition emit (o : obs) (w : World) : World :=
  mkWorld (events w) (next_event w) (procs w) (next_pid w) (oracle w)
          (o :: trace w).

Definition set_oracle (os : list (option exn)) (w : World) : World :=
  mkWorld (events w) (next_event w) (procs w) (next_pid w) os (trace w).

Definition set_event (h : nat) (b : bool) (w : World) : World :=
  mkWorld (<[h := b]> (events w)) (next_event w) (procs w) (next_pid w)
          (oracle w) (trace w).

Definition set_proc (pid : nat) (p : ThreadSendPacket) (w : World) : World :=
  mkWorld (events w) (next_event w) (<[pid := p]> (procs w)) (next_pid w)
          (oracle w) (trace w).

(** The outcome of the coming external call; an exhausted oracle lets every
    further call return. *)
Definition next_outcome (w : World) : option exn * World :=
  match oracle w with
  | [] => (None, w)
  | o :: os => (o, set_oracle os w)
  end.

(** An external call: it raises what the oracle says, or returns and leaves
    its observation. *)
Definition external (o : obs) : M World unit :=
  fun w =>
    match next_outcome w with
    | (None, w') => (Ok tt, emit o w')
    | (Some e, w') => (Raised e, w')
    end.

(** [scapy.sendp(packet, iface=interface, verbose=0)] *)
Definition scapy_sendp (p : Packet) (iface : string) : M World unit :=
  external (Sendp p iface).

(** [scapy.srp1(packet, iface=interface, timeout=interval, verbose=0)]; the
    reply is dropped by both callers. *)
Definition scapy_srp1 (p : Packet) (iface : string) (timeout : Z) : M World unit :=
  external (Srp1 p iface timeout).

(** [time.sleep(interval)].  Whether the call returns is the oracle's to
    say, as for every external call: the [ValueError] that [time.sleep]
    raises on a negative interval is one of the outcomes. *)
Definition time_sleep (interval : Z) : M World unit :=
  external (Sleep interval).

(** [log.info], [log.warning], [log.exception] *)
Definition log (lv : level) (msg : string) (exc : option exn) : M World unit :=
  modify (emit (Log lv msg exc)).

(** [multiprocessing.Event]: a new event is clear. *)
Definition Event_new : M World nat :=
  fun w =>
    let h := next_event w in
    (Ok h, mkWorld (<[h := false]> (events w)) (Datatypes.S h) (procs w)
                   (next_pid w) (oracle w) (trace w)).

Definition is_set (h : nat) (w : World) : bool := default false (events w !! h).

Definition Event_is_set (h : nat) : M World bool := gets (is_set h).
Definition Event_set (h : nat) : M World unit := modify (set_event h true).
Definition Event_clear (h : nat) : M World unit := modify (set_event h false).

(** The main process owns one [PacketSender] object; the workers and the
    events live in the world. *)
Record PacketSender := mkSender {
  packet : option Packet;
  thread_active : bool;
  thread_send : option nat;
  stop_signal : nat;
  interface : string
}.

Record Sys := mkSys {
  self : PacketSender;
  world : World
}.

(** A world operation run from a method of the sender. *)
Definition liftW {A} (m : M World A) : M Sys A :=
  fun s =>
    match m (world s) with
    | (r, w') => (r, mkSys (self s) w')
    end.

Definition set_thread_active (b : bool) : M Sys unit :=
  modify (fun s =>
    mkSys (mkSender (packet (self s)) b (thread_send (self s))
                    (stop_signal (self s)) (interface (self s)))
          (world s)).

Definition set_thread_send (t : option nat) : M Sys unit :=
  modify (fun s =>
    mkSys (mkSender (packet (self s)) (thread_active (self s)) t
                    (stop_signal (self s)) (interface (self s)))
          (world s)).

Module packet_sender.

Definition GET_FROM_LOCAL_INTERFACE : string := "get_local".
Definition MAC_BROADCAST : string := "ff:ff:ff:ff:ff:ff".
Definition IPV4_BROADCAST : string := "255.255.255.255".
Definition ARP_DST : string := "00:00:00:00:00:00".
Definition RA_MAC : string := "33:33:00:00:00:01".
Definition RA_IP : string := "ff02::1".
Definition RA_PREFIX : string := "d00d::".
Definition RA_PREFIX_LEN : Z := 64.
Definition DHCP_OFFER_OP : Z := 2.
Definition DHCP_OFFER_SRC_PORT : Z := 67.
Definition DHCP_OFFER_DST_PORT : Z := 68.
Definition DHCP_TRANS_ID : Z := 0x01020304.
Definition DNS_LEN : Z := 3.
Definition PING6_DATA : string := "BEST PING6 EVER".
Definition PING4_TYPE : Z := 8.
Definition MDNS_QTYPE : string := "PTR".
Definition MDNS_UDP_PORT : Z := 5353.
Definition MDNS_V4_IP_DST : string := "224.0.0.251".
Definition MDNS_V4_MAC_DST : string := "01:00:5E:00:00:FB".
Definition MDNS_RECURSIVE : Z := 1.
Definition MDNS_V6_IP_DST : string := "FF02::FB".
Definition MDNS_V6_MAC_DST : string := "33:33:00:00:00:FB".
Definition ETH_TYPE_IP : Z := 2048.
Definition SNAP_OUI : Z := 12.
Definition SNAP_SSAP : Z := 170.
Definition SNAP_DSAP : Z := 170.
Definition SNAP_CTRL : Z := 3.
Definition LLC_XID_CONTROL : Z := 191.
Definition PAD_LEN_BYTES : Z := 128.

(** *** [class ThreadSendPacket(multiprocessing.Process)] *)

(** [ThreadSendPacket.__init__]: a new process object, not yet started. *)
Definition ThreadSendPacket_init (signal : nat) (pkt : Packet) (interval : Z)
    (iface : string) : M World nat :=
  fun w =>
    let pid := next_pid w in
    (Ok pid,
     mkWorld (events w) (next_event w)
             (<[pid := mkThread signal pkt interval iface NotStarted]> (procs w))
             (Datatypes.S pid) (oracle w) (trace w)).

Definition at_pc (pc : pstate) (p : ThreadSendPacket) : ThreadSendPacket :=
  mkThread (tsp_stop_signal p) (tsp_packet p) (tsp_interval p)
           (tsp_interface p) pc.

(** A worker is alive from [start()] until [run] returns or it is killed. *)
Definition alive (pc : pstate) : bool :=
  match pc with
  | AtStart | AtPoll | AtSend | AtSleep => true
  | NotStarted | Stopped | Failed | Killed => false
  end.

(** [except Exception:] of [run]: log and return. *)
Definition run_except (e : exn) : M World pstate :=
  log EXCEPTION "Exception when trying to send packet" (Some e) ;;
  ret Failed.

(** One step of [ThreadSendPacket.run], from the place [pc]:
    - [AtStart]: [self.log.info('Packet Sending Started.')];
    - [AtPoll]: [if self.stop_signal.is_set():] log and [break];
    - [AtSend]: [scapy.sendp(...)] inside the [try];
    - [AtSleep]: [time.sleep(self.interval)] inside the [try]. *)
Definition run_step (p : ThreadSendPacket) : M World pstate :=
  match tsp_pc p with
  | AtStart =>
      log INFO "Packet Sending Started." None ;;
      ret AtPoll
  | AtPoll =>
      b <- Event_is_set (tsp_stop_signal p) ;;
      if b : bool then
        log INFO "Packet Sending Stopped." None ;;
        ret Stopped
      else ret AtSend
  | AtSend =>
      try_except
        (scapy_sendp (tsp_packet p) (tsp_interface p) ;; ret AtSleep)
        is_Exception run_except
  | AtSleep =>
      try_except
        (time_sleep (tsp_interval p) ;; ret AtPoll)
        is_Exception run_except
  | pc => ret pc
  end.

(** The scheduler lets the worker [pid] take one step. *)
Definition worker_step (pid : nat) (w : World) : World :=
  match procs w !! pid with
  | None => w
  | Some p =>
      match run_step p w with
      | (Ok pc, w') => set_proc pid (at_pc pc p) w'
      | (_, w') => w'
      end
  end.

Fixpoint worker_steps (n : nat) (pid : nat) (w : World) : World :=
  match n with
  | O => w
  | Datatypes.S k => worker_steps k pid (worker_step pid w)
  end.

Definition pc_of (pid : nat) (w : World) : option pstate :=
  tsp_pc <$> procs w !! pid.

(** [Process.start()].  A handle names a process made by
    [ThreadSendPacket_init]; on any other number the methods below have
    nothing to run and the call is left unfinished. *)
Definition Process_start (pid : nat) : M World unit :=
  fun w =>
    match procs w !! pid with
    | Some p =>
        match tsp_pc p with
        | NotStarted => (Ok tt, set_proc pid (at_pc AtStart p) w)
        | _ => (Raised (AssertionError "cannot start a process twice"), w)
        end
    | None => (Hang, w)
    end.

(** [Process.is_alive()] *)
Definition Process_is_alive (pid : nat) : M World bool :=
  fun w =>
    match procs w !! pid with
    | Some p => (Ok (alive (tsp_pc p)), w)
    | None => (Hang, w)
    end.

(** [Process.join()]: block until the worker has ended.  The worker runs
    while the caller waits; [fuel] bounds how long the caller is followed,
    and a worker still alive then leaves the call unfinished.  Only the
    joined worker is followed here: what the other workers do in the
    meantime is the scheduler's ([schedule] below), and nothing is concluded
    about them, nor about the trace as a whole, from a run of [join]. *)
Fixpoint Process_join (fuel : nat) (pid : nat) : M World unit :=
  fun w =>
    match procs w !! pid with
    | None => (Hang, w)
    | Some p =>
        match tsp_pc p with
        | NotStarted =>
            (Raised (AssertionError "can only join a started process"), w)
        | Stopped | Failed | Killed => (Ok tt, w)
        | _ =>
            match fuel with
            | O => (Hang, w)
            | Datatypes.S k => Process_join k pid (worker_step pid w)
            end
        end
    end.

(** [Process.terminate()] *)
Definition Process_terminate (pid : nat) : M World unit :=
  fun w =>
    match procs w !! pid with
    | Some p =>
        if alive (tsp_pc p)
        then (Ok tt, set_proc pid (at_pc Killed p) w)
        else (Ok tt, w)
    | None => (Hang, w)
    end.

(** *** [class PacketSender] *)

(** [PacketSender.__init__(ifname)] *)
Definition PacketSender_init (ifname : string) : M World PacketSender :=
  ev <- Event_new ;;
  ret (mkSender None false None ev ifname).

(** [self.thread_send.<method>()]: [None] has no such attribute. *)
Definition on_thread_send {A} (method : string) (m : nat -> M World A) : M Sys A :=
  t <- gets (fun s => thread_send (self s)) ;;
  match t with
  | Some pid => liftW (m pid)
  | None =>
      raise (AttributeError ("'NoneType' object has no attribute '" +:+ method +:+ "'"))
  end.

Definition no_packet : exn :=
  PacketSenderError "There is no packet to send. Create a packet first.".

(** [PacketSender.send_ntimes(packet, ntimes, interval)] *)
Definition send_ntimes (pkt : option Packet) (ntimes : Z) (interval : Z) : M Sys unit :=
  match pkt with
  | None => raise no_packet
  | Some p =>
      iface <- gets (fun s => interface (self s)) ;;
      for_range (Z.to_nat ntimes)
        (try_except
           (liftW (scapy_sendp p iface) ;;
            liftW (time_sleep interval) ;;
            ret Continue)
           is_socket_error
           (fun excpt =>
              liftW (log EXCEPTION "Caught socket exception : %s" (Some excpt)) ;;
              ret Return))
  end.

(** [PacketSender.send_receive_ntimes(packet, ntimes, interval)] *)
Definition send_receive_ntimes (pkt : option Packet) (ntimes : Z) (interval : Z) : M Sys unit :=
  match pkt with
  | None => raise no_packet
  | Some p =>
      iface <- gets (fun s => interface (self s)) ;;
      for_range (Z.to_nat ntimes)
        (try_except
           (liftW (scapy_srp1 p iface interval) ;;
            liftW (time_sleep interval) ;;
            ret Continue)
           is_socket_error
           (fun excpt =>
              liftW (log EXCEPTION "Caught socket exception : %s" (Some excpt)) ;;
              ret Return))
  end.

(** [PacketSender.start_sending(packet, interval)] *)
Definition start_sending (pkt : option Packet) (interval : Z) : M Sys unit :=
  match pkt with
  | None => raise no_packet
  | Some p =>
      active <- gets (fun s => thread_active (self s)) ;;
      if active : bool then
        raise (PacketSenderError
                 "There is already an active thread. Stop itbefore starting another transmission.")
      else
        signal <- gets (fun s => stop_signal (self s)) ;;
        iface <- gets (fun s => interface (self s)) ;;
        pid <- liftW (ThreadSendPacket_init signal p interval iface) ;;
        set_thread_send (Some pid) ;;
        on_thread_send "start" Process_start ;;
        set_thread_active true
  end.

(** [PacketSender.stop_sending(ignore_status=False)]; [fuel] is the bound
    of [Process_join]. *)
Definition stop_sending (fuel : nat) (ignore_status : bool) : M Sys unit :=
  active <- gets (fun s => thread_active (self s)) ;;
  if negb active then
    if ignore_status then ret tt
    else raise (PacketSenderError "Error: There is no acive thread running to stop.")
  else
    signal <- gets (fun s => stop_signal (self s)) ;;
    liftW (Event_set signal) ;;
    on_thread_send "join" (Process_join fuel) ;;
    still <- on_thread_send "is_alive" Process_is_alive ;;
    (if still : bool then
       on_thread_send "terminate" Process_terminate ;;
       liftW (log WARNING "Packet Sending forced to terminate" None)
     else ret tt) ;;
    signal' <- gets (fun s => stop_signal (self s)) ;;
    liftW (Event_clear signal') ;;
    set_thread_send None ;;
    set_thread_active false.


(** *** The packet generators *)

(** The functions of scapy and [socket] that the generators call: reads of
    the host's interfaces and conversions of addresses.  Each is a function
    of its arguments that returns or raises. *)
Record Library := mkLibrary {
  get_if_hwaddr : value -> result value;
  get_if_addr : value -> result value;
  in6_getifaddr : list (value * value * value);
  mac2str : value -> result value;
  inet_pton6 : value -> result value;
  inet_ntop6 : value -> result value;
  in6_getnsma : value -> result value;
  in6_getnsmac : value -> result value
}.

(** [config_params[key]] *)
Definition getitem {S} (cfg : gmap string value) (key : string) : M S value :=
  match cfg !! key with
  | Some v => ret v
  | None => raise (KeyError key)
  end.

(** A call of a library function from a method. *)
Definition call {S} (r : result value) : M S value := fun s => (r, s).

(** [get_if_addr6(intf, address_type)], over the list that
    [scapy.in6_getifaddr()] returned. *)
Fixpoint get_if_addr6_in (l : list (value * value * value)) (intf address_type : value) : value :=
  match l with
  | [] => VNone
  | (addr, ty, ifname) :: rest =>
      if bool_decide (ifname = intf) && bool_decide (ty = address_type)
      then addr
      else get_if_addr6_in rest intf address_type
  end.

Definition get_if_addr6 (lib : Library) (intf address_type : value) : value :=
  get_if_addr6_in (in6_getifaddr lib) intf address_type.

(** [config_params[key]], or what the interface says when the entry is
    ['get_local']. *)
Definition local_or {S} (cfg : gmap string value) (key : string)
    (resolve : M S value) : M S value :=
  v <- getitem cfg key ;;
  if bool_decide (v = VStr GET_FROM_LOCAL_INTERFACE) then resolve
  else getitem cfg key.

(** A constructor runs on no state of its own. *)
Definition construct {A} (m : M unit A) : result A := fst (m tt).

Module ArpGenerator.
Record t := mk {
  packet : option Packet;
  src_mac : value;
  src_ipv4 : value;
  dst_ipv4 : value
}.

Definition init (lib : Library) (config_params : gmap string value) : result t :=
  construct (
    interf <- getitem config_params "interf" ;;
    src_mac <- local_or config_params "src_mac" (call (get_if_hwaddr lib interf)) ;;
    dst_ipv4 <- getitem config_params "dst_ipv4" ;;
    src_ipv4 <- local_or config_params "src_ipv4" (call (get_if_addr lib interf)) ;;
    ret (mk None src_mac src_ipv4 dst_ipv4)).

Definition set_packet (p : Packet) : M t unit :=
  modify (fun g => mk (Some p) (src_mac g) (src_ipv4 g) (dst_ipv4 g)).

Definition generate (op ip_dst ip_src hwsrc hwdst eth_dst : value) : M t Packet :=
  self_src_mac <- gets src_mac ;;
  self_dst_ipv4 <- gets dst_ipv4 ;;
  self_src_ipv4 <- gets src_ipv4 ;;
  let hw_src := or_default hwsrc self_src_mac in
  let hw_dst := or_default hwdst (VStr ARP_DST) in
  let ipv4_dst := or_default ip_dst self_dst_ipv4 in
  let ipv4_src := or_default ip_src self_src_ipv4 in
  let ip4 := [ARP op ipv4_dst ipv4_src hw_dst hw_src] in
  let mac_dst := or_default eth_dst (VStr MAC_BROADCAST) in
  let ethernet := [Ether self_src_mac mac_dst] in
  let pkt := ethernet // ip4 in
  set_packet pkt ;;
  ret pkt.

(** [generate()] *)
Definition generate0 : M t Packet :=
  generate (VStr "who-has") VNone VNone VNone VNone VNone.
End ArpGenerator.

Module DhcpOfferGenerator.
Record t := mk {
  packet : option Packet;
  subnet_mask : value;
  dst_mac : value;
  src_mac : value;
  dst_ipv4 : value;
  src_ipv4 : value;
  gw_ipv4 : value
}.

Definition init (lib : Library) (config_params : gmap string value) : result t :=
  construct (
    interf <- getitem config_params "interf" ;;
    subnet_mask <- getitem config_params "subnet_mask" ;;
    dst_mac <- getitem config_params "dst_mac" ;;
    src_mac <- local_or config_params "src_mac" (call (get_if_hwaddr lib interf)) ;;
    dst_ipv4 <- getitem config_params "dst_ipv4" ;;
    src_ipv4 <- local_or config_params "src_ipv4" (call (get_if_addr lib interf)) ;;
    gw_ipv4 <- getitem config_params "gw_ipv4" ;;
    ret (mk None subnet_mask dst_mac src_mac dst_ipv4 src_ipv4 gw_ipv4)).

Definition set_packet (p : Packet) : M t unit :=
  modify (fun g => mk (Some p) (subnet_mask g) (dst_mac g) (src_mac g)
                      (dst_ipv4 g) (src_ipv4 g) (gw_ipv4 g)).

Definition generate (lib : Library) (cha_mac dst_ip : value) : M t Packet :=
  g <- gets id ;;
  let dhcp := [DHCP [Opt "message-type" (VStr "offer");
                     Opt "subnet_mask" (subnet_mask g);
                     Opt "server_id" (src_ipv4 g);
                     OptName "end"]] in
  let sta_hw := or_default cha_mac (dst_mac g) in
  let sta_ip := or_default dst_ip (dst_ipv4 g) in
  chaddr <- call (mac2str lib sta_hw) ;;
  let bootp := [BOOTP DHCP_OFFER_OP sta_ip (src_ipv4 g) (gw_ipv4 g) chaddr
                      DHCP_TRANS_ID] in
  let udp := [UDP DHCP_OFFER_SRC_PORT DHCP_OFFER_DST_PORT] in
  let ip4 := [IP (src_ipv4 g) (VStr IPV4_BROADCAST) None] in
  let ethernet := [Ether (src_mac g) (VStr MAC_BROADCAST)] in
  let pkt := ethernet // ip4 // udp // bootp // dhcp in
  set_packet pkt ;;
  ret pkt.

Definition generate0 (lib : Library) : M t Packet := generate lib VNone VNone.
End DhcpOfferGenerator.

Module NsGenerator.
Record t := mk {
  packet : option Packet;
  src_mac : value;
  dst_ipv6 : value;
  src_ipv6_type : value;
  src_ipv6 : value
}.

Definition init (lib : Library) (config_params : gmap string value) : result t :=
  construct (
    interf <- getitem config_params "interf" ;;
    src_mac <- local_or config_params "src_mac" (call (get_if_hwaddr lib interf)) ;;
    dst_ipv6 <- getitem config_params "dst_ipv6" ;;
    src_ipv6_type <- getitem config_params "src_ipv6_type" ;;
    src_ipv6 <- local_or config_params "src_ipv6"
                  (ret (get_if_addr6 lib interf src_ipv6_type)) ;;
    ret (mk None src_mac dst_ipv6 src_ipv6_type src_ipv6)).

Definition set_packet (p : Packet) : M t unit :=
  modify (fun g => mk (Some p) (src_mac g) (dst_ipv6 g) (src_ipv6_type g)
                      (src_ipv6 g)).

Definition generate (lib : Library) (ip_dst eth_dst : value) : M t Packet :=
  g <- gets id ;;
  let target_ip6 := or_default ip_dst (dst_ipv6 g) in
  ndst_ip <- call (inet_pton6 lib target_ip6) ;;
  nnode_mcast <- call (in6_getnsma lib ndst_ip) ;;
  node_mcast <- call (inet_ntop6 lib nnode_mcast) ;;
  hw_dst <- match eth_dst with
            | VNone => call (in6_getnsmac lib nnode_mcast)
            | _ => ret eth_dst
            end ;;
  let base := [IPv6 node_mcast (src_ipv6 g)] in
  let neighbor_solicitation := [ICMPv6ND_NS target_ip6] in
  let src_ll_addr := [ICMPv6NDOptSrcLLAddr (src_mac g)] in
  let ip6 := base // neighbor_solicitation // src_ll_addr in
  let ethernet := [Ether (src_mac g) hw_dst] in
  let pkt := ethernet // ip6 in
  set_packet pkt ;;
  ret pkt.

Definition generate0 (lib : Library) : M t Packet := generate lib VNone VNone.
End NsGenerator.

Module RaGenerator.
Record t := mk {
  packet : option Packet;
  src_mac : value;
  src_ipv6_type : value;
  src_ipv6 : value
}.

Definition init (lib : Library) (config_params : gmap string value) : result t :=
  construct (
    interf <- getitem config_params "interf" ;;
    src_mac <- local_or config_params "src_mac" (call (get_if_hwaddr lib interf)) ;;
    src_ipv6_type <- getitem config_params "src_ipv6_type" ;;
    src_ipv6 <- local_or config_params "src_ipv6"
                  (ret (get_if_addr6 lib interf src_ipv6_type)) ;;
    ret (mk None src_mac src_ipv6_type src_ipv6)).

Definition set_packet (p : Packet) : M t unit :=
  modify (fun g => mk (Some p) (src_mac g) (src_ipv6_type g) (src_ipv6 g)).

Definition generate (lifetime : value) (enableDNS : bool) (dns_lifetime : value)
    (ip_dst eth_dst : value) : M t Packet :=
  g <- gets id ;;
  let ip6_dst := or_default ip_dst (VStr RA_IP) in
  let hw_dst := or_default eth_dst (VStr RA_MAC) in
  let base := [IPv6 ip6_dst (src_ipv6 g)] in
  let router_solicitation := [ICMPv6ND_RA lifetime] in
  let src_ll_addr := [ICMPv6NDOptSrcLLAddr (src_mac g)] in
  let prefix := [ICMPv6NDOptPrefixInfo RA_PREFIX_LEN RA_PREFIX] in
  let ip6 :=
    if enableDNS then
      let rndss := [ICMPv6NDOptRDNSS dns_lifetime [src_ipv6 g] DNS_LEN] in
      base // router_solicitation // src_ll_addr // prefix // rndss
    else base // router_solicitation // src_ll_addr // prefix in
  let ethernet := [Ether (src_mac g) hw_dst] in
  let pkt := ethernet // ip6 in
  set_packet pkt ;;
  ret pkt.

(** [generate(lifetime)] *)
Definition generate0 (lifetime : value) : M t Packet :=
  generate lifetime false (VInt 0) VNone VNone.
End RaGenerator.

Module Ping6Generator.
Record t := mk {
  packet : option Packet;
  dst_mac : value;
  src_mac : value;
  dst_ipv6 : value;
  src_ipv6_type : value;
  src_ipv6 : value
}.

Definition init (lib : Library) (config_params : gmap string value) : result t :=
  construct (
    interf <- getitem config_params "interf" ;;
    dst_mac <- getitem config_params "dst_mac" ;;
    src_mac <- local_or config_params "src_mac" (call (get_if_hwaddr lib interf)) ;;
    dst_ipv6 <- getitem config_params "dst_ipv6" ;;
    src_ipv6_type <- getitem config_params "src_ipv6_type" ;;
    src_ipv6 <- local_or config_params "src_ipv6"
                  (ret (get_if_addr6 lib interf src_ipv6_type)) ;;
    ret (mk None dst_mac src_mac dst_ipv6 src_ipv6_type src_ipv6)).

Definition set_packet (p : Packet) : M t unit :=
  modify (fun g => mk (Some p) (dst_mac g) (src_mac g) (dst_ipv6 g)
                      (src_ipv6_type g) (src_ipv6 g)).

Definition generate (ip_dst eth_dst : value) : M t Packet :=
  g <- gets id ;;
  let ip6_dst := or_default ip_dst (dst_ipv6 g) in
  let hw_dst := or_default eth_dst (dst_mac g) in
  let base := [IPv6 ip6_dst (src_ipv6 g)] in
  let echo_request := [ICMPv6EchoRequest PING6_DATA] in
  let ip6 := base // echo_request in
  let ethernet := [Ether (src_mac g) hw_dst] in
  let pkt := ethernet // ip6 in
  set_packet pkt ;;
  ret pkt.

Definition generate0 : M t Packet := generate VNone VNone.
End Ping6Generator.

Module Ping4Generator.
Record t := mk {
  packet : option Packet;
  dst_mac : value;
  src_mac : value;
  dst_ipv4 : value;
  src_ipv4 : value
}.

Definition init (lib : Library) (config_params : gmap string value) : result t :=
  construct (
    interf <- getitem config_params "interf" ;;
    dst_mac <- getitem config_params "dst_mac" ;;
    src_mac <- local_or config_params "src_mac" (call (get_if_hwaddr lib interf)) ;;
    dst_ipv4 <- getitem config_params "dst_ipv4" ;;
    src_ipv4 <- local_or config_params "src_ipv4" (call (get_if_addr lib interf)) ;;
    ret (mk None dst_mac src_mac dst_ipv4 src_ipv4)).

Definition set_packet (p : Packet) : M t unit :=
  modify (fun g => mk (Some p) (dst_mac g) (src_mac g) (dst_ipv4 g) (src_ipv4 g)).

Definition generate (ip_dst eth_dst : value) : M t Packet :=
  g <- gets id ;;
  let sta_ip := or_default ip_dst (dst_ipv4 g) in
  let sta_hw := or_default eth_dst (dst_mac g) in
  let base := [IP (src_ipv4 g) sta_ip None] in
  let echo_request := [ICMP PING4_TYPE] in
  let ip4 := base // echo_request in
  let ethernet := [Ether (src_mac g) sta_hw] in
  let pkt := ethernet // ip4 in
  set_packet pkt ;;
  ret pkt.

Definition generate0 : M t Packet := generate VNone VNone.
End Ping4Generator.

Module Mdns6Generator.
Record t := mk {
  packet : option Packet;
  src_mac : value;
  src_ipv6_type : value;
  src_ipv6 : value
}.

Definition init (lib : Library) (config_params : gmap string value) : result t :=
  construct (
    interf <- getitem config_params "interf" ;;
    src_mac <- local_or config_params "src_mac" (call (get_if_hwaddr lib interf)) ;;
    src_ipv6_type <- getitem config_params "src_ipv6_type" ;;
    src_ipv6 <- local_or config_params "src_ipv6"
                  (ret (get_if_addr6 lib interf src_ipv6_type)) ;;
    ret (mk None src_mac src_ipv6_type src_ipv6)).

Definition set_packet (p : Packet) : M t unit :=
  modify (fun g => mk (Some p) (src_mac g) (src_ipv6_type g) (src_ipv6 g)).

Definition generate (ip_dst eth_dst : value) : M t Packet :=
  g <- gets id ;;
  let sta_ip := or_default ip_dst (VStr MDNS_V6_IP_DST) in
  let sta_hw := or_default eth_dst (VStr MDNS_V6_MAC_DST) in
  let mDNS := [DNS MDNS_RECURSIVE (src_ipv6 g) MDNS_QTYPE] in
  let udp := [UDP MDNS_UDP_PORT MDNS_UDP_PORT] in
  let ip6 := [IPv6 sta_ip (src_ipv6 g)] in
  let ethernet := [Ether (src_mac g) sta_hw] in
  let pkt := ethernet // ip6 // udp // mDNS in
  set_packet pkt ;;
  ret pkt.

Definition generate0 : M t Packet := generate VNone VNone.
End Mdns6Generator.

Module Mdns4Generator.
Record t := mk {
  packet : option Packet;
  src_mac : value;
  src_ipv4 : value
}.

Definition init (lib : Library) (config_params : gmap string value) : result t :=
  construct (
    interf <- getitem config_params "interf" ;;
    src_mac <- local_or config_params "src_mac" (call (get_if_hwaddr lib interf)) ;;
    src_ipv4 <- local_or config_params "src_ipv4" (call (get_if_addr lib interf)) ;;
    ret (mk None src_mac src_ipv4)).

Definition set_packet (p : Packet) : M t unit :=
  modify (fun g => mk (Some p) (src_mac g) (src_ipv4 g)).

Definition generate (ip_dst eth_dst : value) : M t Packet :=
  g <- gets id ;;
  let sta_ip := or_default ip_dst (VStr MDNS_V4_IP_DST) in
  let sta_hw := or_default eth_dst (VStr MDNS_V4_MAC_DST) in
  let mDNS := [DNS MDNS_RECURSIVE (src_ipv4 g) MDNS_QTYPE] in
  let udp := [UDP MDNS_UDP_PORT MDNS_UDP_PORT] in
  let ip4 := [IP (src_ipv4 g) sta_ip (Some 255)] in
  let ethernet := [Ether (src_mac g) sta_hw] in
  let pkt := ethernet // ip4 // udp // mDNS in
  set_packet pkt ;;
  ret pkt.

Definition generate0 : M t Packet := generate VNone VNone.
End Mdns4Generator.

Module Dot3Generator.
Record t := mk {
  packet : option Packet;
  dst_mac : value;
  src_mac : value
}.

Definition init (lib : Library) (config_params : gmap string value) : result t :=
  construct (
    interf <- getitem config_params "interf" ;;
    dst_mac <- getitem config_params "dst_mac" ;;
    src_mac <- local_or config_params "src_mac" (call (get_if_hwaddr lib interf)) ;;
    ret (mk None dst_mac src_mac)).

Definition set_packet (p : Packet) : M t unit :=
  modify (fun g => mk (Some p) (dst_mac g) (src_mac g)).

(** [_build_ether(eth_dst)] *)
Definition _build_ether (eth_dst : value) : M t Packet :=
  g <- gets id ;;
  let sta_hw := or_default eth_dst (dst_mac g) in
  let dot3_base := [Dot3 (src_mac g) sta_hw None] in
  ret dot3_base.

(** [frame.len = n]: the frames padded here start with the [Dot3] layer
    of [_build_ether], which owns the field. *)
Definition set_len (n : Z) (frame : Packet) : Packet :=
  match frame with
  | Dot3 s d _ :: rest => Dot3 s d (Some n) :: rest
  | _ => frame
  end.

(** [_pad_frame(frame)] *)
Definition _pad_frame (frame : Packet) : M t Packet :=
  let frame := set_len PAD_LEN_BYTES frame in
  let pad := [Padding (replicate (Z.to_nat PAD_LEN_BYTES) 0)] in
  ret (frame // pad).

Definition generate (eth_dst : value) : M t Packet :=
  ethernet <- _build_ether eth_dst ;;
  pkt <- _pad_frame ethernet ;;
  set_packet pkt ;;
  ret pkt.

Definition generate_llc (eth_dst dsap ssap ctrl : value) : M t Packet :=
  ethernet <- _build_ether eth_dst ;;
  let llc := [LLC dsap ssap ctrl] in
  pkt <- _pad_frame (ethernet // llc) ;;
  set_packet pkt ;;
  ret pkt.

Definition generate_snap (eth_dst dsap ssap ctrl oui code : value) : M t Packet :=
  ethernet <- _build_ether eth_dst ;;
  let llc := [LLC dsap ssap ctrl] in
  let snap := [SNAP oui code] in
  pkt <- _pad_frame (ethernet // llc // snap) ;;
  set_packet pkt ;;
  ret pkt.

Definition generate0 : M t Packet := generate VNone.
Definition generate_llc0 : M t Packet :=
  generate_llc VNone (VInt 2) (VInt 3) (VInt LLC_XID_CONTROL).
Definition generate_snap0 : M t Packet :=
  generate_snap VNone (VInt SNAP_DSAP) (VInt SNAP_SSAP) (VInt SNAP_CTRL)
                (VInt SNAP_OUI) (VInt ETH_TYPE_IP).
End Dot3Generator.

(** *** The family of generators *)

Inductive generator_class :=
| CArp | CDhcpOffer | CNs | CRa | CPing6 | CPing4 | CMdns6 | CMdns4 | CDot3.

Inductive generator :=
| GArp (g : ArpGenerator.t)
| GDhcpOffer (g : DhcpOfferGenerator.t)
| GNs (g : NsGenerator.t)
| GRa (g : RaGenerator.t)
| GPing6 (g : Ping6Generator.t)
| GPing4 (g : Ping4Generator.t)
| GMdns6 (g : Mdns6Generator.t)
| GMdns4 (g : Mdns4Generator.t)
| GDot3 (g : Dot3Generator.t).

Definition map_result {A B} (f : A -> B) (r : result A) : result B :=
  match r with
  | Ok a => Ok (f a)
  | Raised e => Raised e
  | Hang => Hang
  end.

(** The constructor of the class [c] on the keyword arguments [cfg]. *)
Definition new (lib : Library) (c : generator_class) (cfg : gmap string value) : result generator :=
  match c with
  | CArp => map_result GArp (ArpGenerator.init lib cfg)
  | CDhcpOffer => map_result GDhcpOffer (DhcpOfferGenerator.init lib cfg)
  | CNs => map_result GNs (NsGenerator.init lib cfg)
  | CRa => map_result GRa (RaGenerator.init lib cfg)
  | CPing6 => map_result GPing6 (Ping6Generator.init lib cfg)
  | CPing4 => map_result GPing4 (Ping4Generator.init lib cfg)
  | CMdns6 => map_result GMdns6 (Mdns6Generator.init lib cfg)
  | CMdns4 => map_result GMdns4 (Mdns4Generator.init lib cfg)
  | CDot3 => map_result GDot3 (Dot3Generator.init lib cfg)
  end.

(** The generating methods of the 802.3 generator. *)
Inductive dot3_method :=
| Plain
| Llc
| Snap.

(** A method of one class run on the family. *)
Definition on {G} (inj : G -> generator) (m : M G Packet) (g : G) : result Packet * generator :=
  match m g with
  | (r, g') => (r, inj g')
  end.

(** The call with no override: [generate()], [generate(lifetime)] for a
    router advertisement, and the chosen method for 802.3. *)
Definition generate0 (lib : Library) (lifetime : value) (meth : dot3_method) : M generator Packet :=
  fun g =>
    match g with
    | GArp a => on GArp ArpGenerator.generate0 a
    | GDhcpOffer a => on GDhcpOffer (DhcpOfferGenerator.generate0 lib) a
    | GNs a => on GNs (NsGenerator.generate0 lib) a
    | GRa a => on GRa (RaGenerator.generate0 lifetime) a
    | GPing6 a => on GPing6 Ping6Generator.generate0 a
    | GPing4 a => on GPing4 Ping4Generator.generate0 a
    | GMdns6 a => on GMdns6 Mdns6Generator.generate0 a
    | GMdns4 a => on GMdns4 Mdns4Generator.generate0 a
    | GDot3 a =>
        match meth with
        | Plain => on GDot3 Dot3Generator.generate0 a
        | Llc => on GDot3 Dot3Generator.generate_llc0 a
        | Snap => on GDot3 Dot3Generator.generate_snap0 a
        end
    end.

(** The cached packet of a generator, and the generator with another one. *)
Definition cached (g : generator) : option Packet :=
  match g with
  | GArp a => ArpGenerator.packet a
  | GDhcpOffer a => DhcpOfferGenerator.packet a
  | GNs a => NsGenerator.packet a
  | GRa a => RaGenerator.packet a
  | GPing6 a => Ping6Generator.packet a
  | GPing4 a => Ping4Generator.packet a
  | GMdns6 a => Mdns6Generator.packet a
  | GMdns4 a => Mdns4Generator.packet a
  | GDot3 a => Dot3Generator.packet a
  end.

Definition with_cached (p : option Packet) (g : generator) : generator :=
  match g with
  | GArp a => GArp (ArpGenerator.mk p (ArpGenerator.src_mac a)
                      (ArpGenerator.src_ipv4 a) (ArpGenerator.dst_ipv4 a))
  | GDhcpOffer a =>
      GDhcpOffer (DhcpOfferGenerator.mk p (DhcpOfferGenerator.subnet_mask a)
                    (DhcpOfferGenerator.dst_mac a) (DhcpOfferGenerator.src_mac a)
                    (DhcpOfferGenerator.dst_ipv4 a) (DhcpOfferGenerator.src_ipv4 a)
                    (DhcpOfferGenerator.gw_ipv4 a))
  | GNs a => GNs (NsGenerator.mk p (NsGenerator.src_mac a) (NsGenerator.dst_ipv6 a)
                    (NsGenerator.src_ipv6_type a) (NsGenerator.src_ipv6 a))
  | GRa a => GRa (RaGenerator.mk p (RaGenerator.src_mac a)
                    (RaGenerator.src_ipv6_type a) (RaGenerator.src_ipv6 a))
  | GPing6 a => GPing6 (Ping6Generator.mk p (Ping6Generator.dst_mac a)
                    (Ping6Generator.src_mac a) (Ping6Generator.dst_ipv6 a)
                    (Ping6Generator.src_ipv6_type a) (Ping6Generator.src_ipv6 a))
  | GPing4 a => GPing4 (Ping4Generator.mk p (Ping4Generator.dst_mac a)
                    (Ping4Generator.src_mac a) (Ping4Generator.dst_ipv4 a)
                    (Ping4Generator.src_ipv4 a))
  | GMdns6 a => GMdns6 (Mdns6Generator.mk p (Mdns6Generator.src_mac a)
                    (Mdns6Generator.src_ipv6_type a) (Mdns6Generator.src_ipv6 a))
  | GMdns4 a => GMdns4 (Mdns4Generator.mk p (Mdns4Generator.src_mac a)
                    (Mdns4Generator.src_ipv4 a))
  | GDot3 a => GDot3 (Dot3Generator.mk p (Dot3Generator.dst_mac a)
                    (Dot3Generator.src_mac a))
  end.

(** No entry of the configuration asks for a value of the local interface. *)
Definition explicit (cfg : gmap string value) : Prop :=
  forall k, cfg !! k <> Some (VStr GET_FROM_LOCAL_INTERFACE).

(** *** The controller functions of the module *)

(** [create(configs)]: [[PacketSender(c) for c in configs]]. *)
Fixpoint create (configs : list string) : M World (list PacketSender) :=
  match configs with
  | [] => ret []
  | c :: rest =>
      sender <- PacketSender_init c ;;
      senders <- create rest ;;
      ret (sender :: senders)
  end.

(** [destroy(objs)]: [for pkt_sender in objs: pkt_sender.stop_sending(True)].
    The list holds distinct objects, as [create] returns them; the objects
    are handed back as the calls left them, also when a call does not
    return.  [fuel] is the bound of each [join]; as there, only the worker
    that is joined is followed. *)
Fixpoint destroy (fuel : nat) (objs : list PacketSender) (w : World)
    : result unit * (list PacketSender * World) :=
  match objs with
  | [] => (Ok tt, ([], w))
  | pkt_sender :: rest =>
      match stop_sending fuel true (mkSys pkt_sender w) with
      | (Ok _, s') =>
          match destroy fuel rest (world s') with
          | (r, (rest', w')) => (r, (self s' :: rest', w'))
          end
      | (Raised e, s') => (Raised e, (self s' :: rest, world s'))
      | (Hang, s') => (Hang, (self s' :: rest, world s'))
      end
  end.

(** [get_info(objs)]: [[pkt_sender.interface for pkt_sender in objs]]. *)
Definition get_info (objs : list PacketSender) : list string :=
  map interface objs.

End packet_sender.

(** ** [hostapd_utils.py] *)

Module hostapd_constants.
(** Modelled from the spec: the module [hostapd_constants] is not among
    the sources.  The spec has [security_mode="WEP"] select the WEP
    default length after [generate_random_password] lowers it, and the
    docstring of [generate_random_password] gives the two lengths: 8, and
    13 for WEP. *)
Definition WEP_STRING : string := "wep".
Definition WEP_DEFAULT_STR_LENGTH : Z := 13.
Definition MIN_WPA_PSK_LENGTH : Z := 8.
End hostapd_constants.

Module hostapd_utils.

(** [str.lower()] on the ASCII letters. *)
Definition lower_ascii (c : ascii) : ascii :=
  let n := nat_of_ascii c in
  if ((65 <=? n) && (n <=? 90))%nat then ascii_of_nat (n + 32) else c.

Fixpoint lower (s : string) : string :=
  match s with
  | EmptyString => EmptyString
  | String c rest => String (lower_ascii c) (lower rest)
  end.

(** Truth of an optional integer: [None] and [0] are false. *)
Definition truthy_int (x : option Z) : bool :=
  match x with
  | Some n => negb (n =? 0)
  | None => false
  end.

(** Truth of an optional string: [None] and [''] are false. *)
Definition truthy_str (x : option string) : bool :=
  match x with
  | Some EmptyString => false
  | Some _ => true
  | None => false
  end.

Section generate_random_password.
(** The state of Python's random number generator, and the two string
    generators of [acts.utils], which are not among the sources: each
    takes the length asked for and draws from the generator. *)
Context {Rng : Type}.
Variable rand_ascii_str : Z -> Rng -> string * Rng.
Variable rand_hex_str : Z -> Rng -> string * Rng.

(** [generate_random_password(security_mode=None, length=None, hex=None)] *)
Definition generate_random_password (security_mode : option string)
    (length : option Z) (hex : option Z) : Rng -> string * Rng :=
  let generator_func := if truthy_int hex then rand_hex_str else rand_ascii_str in
  if truthy_int length then generator_func (default 0 length)
  else if truthy_str security_mode
          && bool_decide (lower (default "" security_mode) = hostapd_constants.WEP_STRING)
  then generator_func hostapd_constants.WEP_DEFAULT_STR_LENGTH
  else generator_func hostapd_constants.MIN_WPA_PSK_LENGTH.
End generate_random_password.

(** What the spec asks of a random-string generator: a string of the
    length it was asked for. *)
Definition returns_length {Rng} (f : Z -> Rng -> string * Rng) : Prop :=
  forall n r, String.length (fst (f n r)) = Z.to_nat n.

(** A generator that repeats one character; it stands for [rand_ascii_str]
    and [rand_hex_str] where a concrete one is needed. *)
Fixpoint repeat_char (c : ascii) (n : nat) : string :=
  match n with
  | O => EmptyString
  | Datatypes.S k => String c (repeat_char c k)
  end.

Definition const_str (c : ascii) (n : Z) (r : unit) : string * unit :=
  (repeat_char c (Z.to_nat n), r).

(** What a [verify_*] function does: it returns, or it raises [ValueError]
    with a message made of a template and the values put into it. *)
Inductive fmt_arg :=
| FVal (v : value)
| FList (l : list value).

Inductive verdict :=
| Passes
| RaisesValueError (template : string) (args : list fmt_arg).

(** [verify_interface(interface, valid_interfaces)] *)
Definition verify_interface (interface : option string)
    (valid_interfaces : list string) : verdict :=
  if negb (truthy_str interface) then
    RaisesValueError "Required wlan interface is missing." []
  else if negb (bool_decide (default "" interface ∈ valid_interfaces)) then
    RaisesValueError "Invalid interface name was passed: %s"
                     [FVal (VStr (default "" interface))]
  else Passes.

(** The attributes of a [hostapd_security.Security] object that the checks
    read. *)
Record Security := mkSecurity {
  security_mode : value;
  wpa_cipher : value;
  wpa2_cipher : value
}.

(** [verify_security_mode(security_profile, valid_security_modes)] *)
Definition verify_security_mode (security_profile : option Security)
    (valid_security_modes : list value) : verdict :=
  match security_profile with
  | None =>
      if negb (bool_decide (VNone ∈ valid_security_modes)) then
        RaisesValueError "Open security is not allowed for this profile." []
      else Passes
  | Some profile =>
      if negb (bool_decide (security_mode profile ∈ valid_security_modes)) then
        RaisesValueError
          "Invalid Security Mode: %s. Valid Security Modes for this profile: %s."
          [FVal (security_mode profile); FList valid_security_modes]
      else Passes
  end.

Section verify_cipher.
(** The constants [hostapd_constants.WPA1] and [hostapd_constants.WPA2],
    which are not among the sources. *)
Variable WPA1 WPA2 : value.

(** [verify_cipher(security_profile, valid_ciphers)] *)
Definition verify_cipher (security_profile : option Security)
    (valid_ciphers : list value) : verdict :=
  match security_profile with
  | None => RaisesValueError "Security mode is open." []
  | Some profile =>
      if bool_decide (security_mode profile = WPA1) then
        if negb (bool_decide (wpa_cipher profile ∈ valid_ciphers)) then
          RaisesValueError
            "Invalid WPA Cipher: %s. Valid WPA Ciphers for this profile: %s"
            [FVal (wpa_cipher profile); FList valid_ciphers]
        else Passes
      else if bool_decide (security_mode profile = WPA2) then
        if negb (bool_decide (wpa2_cipher profile ∈ valid_ciphers)) then
          RaisesValueError
            "Invalid WPA2 Cipher: %s. Valid WPA2 Ciphers for this profile: %s"
            [FVal (wpa2_cipher profile); FList valid_ciphers]
        else Passes
      else
        RaisesValueError "Invalid Security Mode: %s" [FVal (security_mode profile)]
  end.
End verify_cipher.

End hostapd_utils.

(** * Vocabulary of the statements *)

Import packet_sender.

(** The outcome of the [j]-th coming external call. *)
Definition outcome (w : World) (j : nat) : option exn := mjoin (oracle w !! j).

(** The coming [m] external calls all return. *)
Definition calm (w : World) (m : nat) : Prop :=
  forall j, (j < m)%nat -> outcome w j = None.

(** The world after [m] more external calls that left the observations
    [tr] (newest first). *)
Definition advance (m : nat) (tr : list obs) (w : World) : World :=
  mkWorld (events w) (next_event w) (procs w) (next_pid w)
          (drop m (oracle w)) (tr ++ trace w).

(** What [m] returning calls of a sending loop leave: the transmission
    [tx] and the sleep, in turn (newest first). *)
Fixpoint calls (tx : obs) (interval : Z) (m : nat) : list obs :=
  match m with
  | O => []
  | Datatypes.S O => [tx]
  | Datatypes.S (Datatypes.S k) => calls tx interval k ++ [Sleep interval; tx]
  end.

Definition is_transmission (o : obs) : bool :=
  match o with
  | Sendp _ _ | Srp1 _ _ _ => true
  | _ => false
  end.

(** The number of frames sent in a trace. *)
Definition transmissions (tr : list obs) : nat :=
  length (filter (fun o => is_transmission o = true) tr).

(** The record that the [except socket.error] clause logs. *)
Definition caught (e : exn) : obs :=
  Log EXCEPTION "Caught socket exception : %s" (Some e).

(** One turn of the loop of [send_ntimes] and [send_receive_ntimes]. *)
Definition tx_iteration (tx : obs) (interval : Z) : M Sys flow :=
  try_except
    (liftW (external tx) ;; liftW (time_sleep interval) ;; ret Continue)
    is_socket_error
    (fun excpt =>
       liftW (log EXCEPTION "Caught socket exception : %s" (Some excpt)) ;;
       ret Return).

(** The step relation of the [run] loop: what a live worker [q] does next
    in the world [w], the place it comes to and the world it leaves. *)
Inductive transition (q : ThreadSendPacket) (w : World) : pstate -> World -> Prop :=
| t_started :
    tsp_pc q = AtStart ->
    transition q w AtPoll (advance 0 [Log INFO "Packet Sending Started." None] w)
| t_signaled :
    tsp_pc q = AtPoll -> is_set (tsp_stop_signal q) w = true ->
    transition q w Stopped (advance 0 [Log INFO "Packet Sending Stopped." None] w)
| t_polled :
    tsp_pc q = AtPoll -> is_set (tsp_stop_signal q) w = false ->
    transition q w AtSend w
| t_sent :
    tsp_pc q = AtSend -> outcome w 0 = None ->
    transition q w AtSleep (advance 1 [Sendp (tsp_packet q) (tsp_interface q)] w)
| t_send_raised (e : exn) :
    tsp_pc q = AtSend -> outcome w 0 = Some e ->
    transition q w Failed
      (advance 1 [Log EXCEPTION "Exception when trying to send packet" (Some e)] w)
| t_slept :
    tsp_pc q = AtSleep -> outcome w 0 = None ->
    transition q w AtPoll (advance 1 [Sleep (tsp_interval q)] w)
| t_sleep_raised (e : exn) :
    tsp_pc q = AtSleep -> outcome w 0 = Some e ->
    transition q w Failed
      (advance 1 [Log EXCEPTION "Exception when trying to send packet" (Some e)] w).

(** The scheduler runs the workers named in [l], one step each, in turn. *)
Definition schedule (l : list nat) (w : World) : World :=
  foldl (fun w pid => worker_step pid w) w l.

(** The worker was started and was not killed: it runs, or [run] returned. *)
Definition launched (pc : pstate) : bool :=
  match pc with
  | NotStarted | Killed => false
  | _ => true
  end.

(** The steps a worker has left once its stop signal is set. *)
Definition remaining (pc : pstate) : nat :=
  match pc with
  | AtSend => 3
  | AtSleep | AtStart => 2
  | AtPoll => 1
  | _ => 0
  end.

(** The sender and the world that [start_sending] leaves when it made a
    worker. *)
Definition started (p : Packet) (interval : Z) (s : Sys) : Sys :=
  let me := self s in
  let w := world s in
  mkSys (mkSender (packet me) true (Some (next_pid w)) (stop_signal me) (interface me))
        (mkWorld (events w) (next_event w)
                 (<[next_pid w := mkThread (stop_signal me) p interval (interface me)
                                           AtStart]> (procs w))
                 (Datatypes.S (next_pid w)) (oracle w) (trace w)).

(** The sender object that [stop_sending] leaves. *)
Definition stopped (me : PacketSender) : PacketSender :=
  mkSender (packet me) false None (stop_signal me) (interface me).

(** ** Sample inputs *)

Definition sample_packet : Packet :=
  [Ether (VStr "aa:bb:cc:dd:ee:ff") (VStr MAC_BROADCAST)].

Definition empty_world : World := mkWorld ∅ 0 ∅ 0 [] [].

(** A sender made by the constructor on the interface [eth0]. *)
Definition fresh_sys : Sys :=
  mkSys (mkSender None false None 0 "eth0")
        (mkWorld {[ 0%nat := false ]} 1 ∅ 0 [] []).

(** The same sender once [start_sending] has run. *)
Definition sending_sys : Sys := snd (start_sending (Some sample_packet) 1 fresh_sys).

(** The worker of [sending_sys], as [start_sending] made it. *)
Definition sample_worker : ThreadSendPacket :=
  mkThread 0 sample_packet 1 "eth0" AtStart.

(** The configuration of the ARP scenario: the three addressing entries. *)
Definition arp_scenario_config : gmap string value :=
  <["src_mac" := VStr "aa:bb:cc:dd:ee:ff"]>
    (<["src_ipv4" := VStr "10.0.0.1"]>
       (<["dst_ipv4" := VStr "10.0.0.2"]> ∅)).

(** The packet of the ARP scenario: Ethernet from the source MAC to the
    broadcast address, over ARP with [op], [pdst], [psrc], [hwdst], [hwsrc]. *)
Definition arp_scenario_packet : Packet :=
  [Ether (VStr "aa:bb:cc:dd:ee:ff") (VStr "ff:ff:ff:ff:ff:ff");
   ARP (VStr "who-has") (VStr "10.0.0.2") (VStr "10.0.0.1")
       (VStr "00:00:00:00:00:00") (VStr "aa:bb:cc:dd:ee:ff")].

(** A host with no interface to ask, and conversions that hand their
    argument back. *)
Definition bare_library : Library :=
  mkLibrary (fun _ => Raised (OtherException "no such interface"))
            (fun _ => Raised (OtherException "no such interface"))
            [] Ok Ok Ok Ok Ok.

(** A configuration of a DHCP offer with every address spelled out. *)
Definition dhcp_config : gmap string value :=
  <["interf" := VStr "eth0"]>
    (<["subnet_mask" := VStr "255.255.255.0"]>
       (<["dst_mac" := VStr "11:22:33:44:55:66"]>
          (<["src_mac" := VStr "aa:bb:cc:dd:ee:ff"]>
             (<["dst_ipv4" := VStr "10.0.0.2"]>
                (<["src_ipv4" := VStr "10.0.0.1"]>
                   (<["gw_ipv4" := VStr "10.0.0.254"]> ∅)))))).

(** The generator the constructor builds from it. *)
Definition dhcp_generator : generator :=
  GDhcpOffer
    (DhcpOfferGenerator.mk None (VStr "255.255.255.0") (VStr "11:22:33:44:55:66")
       (VStr "aa:bb:cc:dd:ee:ff") (VStr "10.0.0.2") (VStr "10.0.0.1")
       (VStr "10.0.0.254")).

(** The sender facing an oracle [os]. *)
Definition facing (os : list (option exn)) (s : Sys) : Sys :=
  mkSys (self s) (set_oracle os (world s)).

(** ** Vocabulary of the further properties *)

(** The sender agrees with the world: its stop signal is clear, and either
    it is idle with no handle, or it is active and its handle names a
    launched worker that polls the sender's own stop signal. *)
Definition sender_ok (s : Sys) : Prop :=
  is_set (stop_signal (self s)) (world s) = false /\
  match thread_active (self s), thread_send (self s) with
  | false, None => True
  | true, Some pid =>
      exists q, procs (world s) !! pid = Some q /\ launched (tsp_pc q) = true /\
                tsp_stop_signal q = stop_signal (self s)
  | _, _ => False
  end.

(** What can happen to a sender: a call of one of its methods, or a step
    of some worker while the main process does something else. *)
Inductive action :=
| send_ntimes_call (pkt : option Packet) (ntimes interval : Z)
| send_receive_ntimes_call (pkt : option Packet) (ntimes interval : Z)
| start_sending_call (pkt : option Packet) (interval : Z)
| stop_sending_call (ignore_status : bool)
| worker_turn (pid : nat).

Definition run_action (fuel : nat) (c : action) : M Sys unit :=
  match c with
  | send_ntimes_call pkt ntimes interval => send_ntimes pkt ntimes interval
  | send_receive_ntimes_call pkt ntimes interval =>
      send_receive_ntimes pkt ntimes interval
  | start_sending_call pkt interval => start_sending pkt interval
  | stop_sending_call ignore_status => stop_sending fuel ignore_status
  | worker_turn pid => liftW (modify (worker_step pid))
  end.

(** A caller that makes the calls one after the other, going on after an
    exception; the results are listed in the order of the calls. *)
Fixpoint run_actions (fuel : nat) (cs : list action) (s : Sys) : list (result unit) * Sys :=
  match cs with
  | [] => ([], s)
  | c :: rest =>
      match run_action fuel c s with
      | (r, s1) =>
          match run_actions fuel rest s1 with
          | (rs, s2) => (r :: rs, s2)
          end
      end
  end.

(** The frames a worker may still send once its stop signal is set. *)
Definition sends_left (pc : pstate) : nat :=
  match pc with
  | AtSend => 1
  | _ => 0
  end.

(** The turns the scheduler gives to the worker [pid] in [l]. *)
Definition turns (pid : nat) (l : list nat) : nat :=
  length (filter (fun x => x = pid) l).

(** The frames that the steps of the worker [pid] add to the trace while
    the scheduler runs [l] from the world [w]; the steps of the other
    workers are taken, and not counted. *)
Fixpoint sent_by (pid : nat) (l : list nat) (w : World) : nat :=
  match l with
  | [] => 0
  | x :: rest =>
      ((if decide (x = pid)
        then transmissions (trace (worker_step x w)) - transmissions (trace w)
        else 0)
       + sent_by pid rest (worker_step x w))%nat
  end.

(** A call of a generating method: the generator and the arguments. *)
Inductive invocation :=
| ArpGenerate (g : ArpGenerator.t) (op ip_dst ip_src hwsrc hwdst eth_dst : value)
| DhcpOfferGenerate (g : DhcpOfferGenerator.t) (cha_mac dst_ip : value)
| NsGenerate (g : NsGenerator.t) (ip_dst eth_dst : value)
| RaGenerate (g : RaGenerator.t) (lifetime : value) (enableDNS : bool)
             (dns_lifetime ip_dst eth_dst : value)
| Ping6Generate (g : Ping6Generator.t) (ip_dst eth_dst : value)
| Ping4Generate (g : Ping4Generator.t) (ip_dst eth_dst : value)
| Mdns6Generate (g : Mdns6Generator.t) (ip_dst eth_dst : value)
| Mdns4Generate (g : Mdns4Generator.t) (ip_dst eth_dst : value)
| Dot3Generate (g : Dot3Generator.t) (eth_dst : value)
| Dot3GenerateLlc (g : Dot3Generator.t) (eth_dst dsap ssap ctrl : value)
| Dot3GenerateSnap (g : Dot3Generator.t) (eth_dst dsap ssap ctrl oui code : value).

Definition receiver (i : invocation) : generator :=
  match i with
  | ArpGenerate g _ _ _ _ _ _ => GArp g
  | DhcpOfferGenerate g _ _ => GDhcpOffer g
  | NsGenerate g _ _ => GNs g
  | RaGenerate g _ _ _ _ _ => GRa g
  | Ping6Generate g _ _ => GPing6 g
  | Ping4Generate g _ _ => GPing4 g
  | Mdns6Generate g _ _ => GMdns6 g
  | Mdns4Generate g _ _ => GMdns4 g
  | Dot3Generate g _ | Dot3GenerateLlc g _ _ _ _
  | Dot3GenerateSnap g _ _ _ _ _ _ => GDot3 g
  end.

Definition invoke (lib : Library) (i : invocation) : result Packet * generator :=
  match i with
  | ArpGenerate g op ip_dst ip_src hwsrc hwdst eth_dst =>
      on GArp (ArpGenerator.generate op ip_dst ip_src hwsrc hwdst eth_dst) g
  | DhcpOfferGenerate g cha_mac dst_ip =>
      on GDhcpOffer (DhcpOfferGenerator.generate lib cha_mac dst_ip) g
  | NsGenerate g ip_dst eth_dst => on GNs (NsGenerator.generate lib ip_dst eth_dst) g
  | RaGenerate g lifetime enableDNS dns_lifetime ip_dst eth_dst =>
      on GRa (RaGenerator.generate lifetime enableDNS dns_lifetime ip_dst eth_dst) g
  | Ping6Generate g ip_dst eth_dst => on GPing6 (Ping6Generator.generate ip_dst eth_dst) g
  | Ping4Generate g ip_dst eth_dst => on GPing4 (Ping4Generator.generate ip_dst eth_dst) g
  | Mdns6Generate g ip_dst eth_dst => on GMdns6 (Mdns6Generator.generate ip_dst eth_dst) g
  | Mdns4Generate g ip_dst eth_dst => on GMdns4 (Mdns4Generator.generate ip_dst eth_dst) g
  | Dot3Generate g eth_dst => on GDot3 (Dot3Generator.generate eth_dst) g
  | Dot3GenerateLlc g eth_dst dsap ssap ctrl =>
      on GDot3 (Dot3Generator.generate_llc eth_dst dsap ssap ctrl) g
  | Dot3GenerateSnap g eth_dst dsap ssap ctrl oui code =>
      on GDot3 (Dot3Generator.generate_snap eth_dst dsap ssap ctrl oui code) g
  end.

(** The source MAC address a generator holds. *)
Definition src_mac_of (g : generator) : value :=
  match g with
  | GArp a => ArpGenerator.src_mac a
  | GDhcpOffer a => DhcpOfferGenerator.src_mac a
  | GNs a => NsGenerator.src_mac a
  | GRa a => RaGenerator.src_mac a
  | GPing6 a => Ping6Generator.src_mac a
  | GPing4 a => Ping4Generator.src_mac a
  | GMdns6 a => Mdns6Generator.src_mac a
  | GMdns4 a => Mdns4Generator.src_mac a
  | GDot3 a => Dot3Generator.src_mac a
  end.

(** The source IPv6 address a generator holds, when its class has one. *)
Definition src_ipv6_of (g : generator) : option value :=
  match g with
  | GNs a => Some (NsGenerator.src_ipv6 a)
  | GRa a => Some (RaGenerator.src_ipv6 a)
  | GPing6 a => Some (Ping6Generator.src_ipv6 a)
  | GMdns6 a => Some (Mdns6Generator.src_ipv6 a)
  | _ => None
  end.

(** The library with another [in6_getnsmac]. *)
Definition with_in6_getnsmac (f : value -> result value) (lib : Library) : Library :=
  mkLibrary (get_if_hwaddr lib) (get_if_addr lib) (in6_getifaddr lib)
            (mac2str lib) (inet_pton6 lib) (inet_ntop6 lib) (in6_getnsma lib) f.

(** The calls of the three methods of the 802.3 generator. *)
Definition is_dot3_call (i : invocation) : bool :=
  match i with
  | Dot3Generate _ _ | Dot3GenerateLlc _ _ _ _ _
  | Dot3GenerateSnap _ _ _ _ _ _ _ => true
  | _ => false
  end.

(** The source address of a link layer. *)
Definition link_source (l : layer) : option value :=
  match l with
  | Ether src _ => Some src
  | Dot3 src _ _ => Some src
  | _ => None
  end.

(** The keys a constructor reads, in the order it reads them. *)
Definition required_keys (c : generator_class) : list string :=
  match c with
  | CArp => ["interf"; "src_mac"; "dst_ipv4"; "src_ipv4"]
  | CDhcpOffer =>
      ["interf"; "subnet_mask"; "dst_mac"; "src_mac"; "dst_ipv4"; "src_ipv4"; "gw_ipv4"]
  | CNs => ["interf"; "src_mac"; "dst_ipv6"; "src_ipv6_type"; "src_ipv6"]
  | CRa => ["interf"; "src_mac"; "src_ipv6_type"; "src_ipv6"]
  | CPing6 => ["interf"; "dst_mac"; "src_mac"; "dst_ipv6"; "src_ipv6_type"; "src_ipv6"]
  | CPing4 => ["interf"; "dst_mac"; "src_mac"; "dst_ipv4"; "src_ipv4"]
  | CMdns6 => ["interf"; "src_mac"; "src_ipv6_type"; "src_ipv6"]
  | CMdns4 => ["interf"; "src_mac"; "src_ipv4"]
  | CDot3 => ["interf"; "dst_mac"; "src_mac"]
  end.

(** The first of the keys that the configuration lacks. *)
Fixpoint first_missing (cfg : gmap string value) (keys : list string) : option string :=
  match keys with
  | [] => None
  | k :: rest =>
      match cfg !! k with
      | Some _ => first_missing cfg rest
      | None => Some k
      end
  end.

(** The entries of [scapy.in6_getifaddr()] for an interface and a type. *)
Definition matching (intf address_type : value) (entry : value * value * value) : Prop :=
  entry.2 = intf /\ entry.1.2 = address_type.

(** The security mode that [verify_security_mode] looks up: [None] for an
    open network. *)
Definition mode_of (security_profile : option hostapd_utils.Security) : value :=
  match security_profile with
  | None => VNone
  | Some profile => hostapd_utils.security_mode profile
  end.

(** ** Further sample inputs *)

(** A configuration of a neighbour solicitation that asks the interface
    for the source IPv6 address. *)
Definition ns_local_config : gmap string value :=
  <["interf" := VStr "eth0"]>
    (<["src_mac" := VStr "aa:bb:cc:dd:ee:ff"]>
       (<["dst_ipv6" := VStr "fe80::2"]>
          (<["src_ipv6_type" := VInt 32]>
             (<["src_ipv6" := VStr "get_local"]> ∅)))).

(** An ARP configuration that asks the interface for the source MAC. *)
Definition arp_local_config : gmap string value :=
  <["interf" := VStr "eth0"]>
    (<["src_mac" := VStr "get_local"]>
       (<["src_ipv4" := VStr "10.0.0.1"]>
          (<["dst_ipv4" := VStr "10.0.0.2"]> ∅))).

(** A host whose interface [eth0] has the hardware address
    [02:00:00:00:00:01] and no IPv6 address. *)
Definition eth0_library : Library :=
  mkLibrary (fun _ => Ok (VStr "02:00:00:00:00:01"))
            (fun _ => Ok (VStr "192.168.1.1"))
            [] Ok Ok Ok Ok Ok.

(** A host whose interface [eth0] has a global and two link-local IPv6
    addresses (type 32), and [wlan0] a link-local one. *)
Definition ipv6_library : Library :=
  mkLibrary (fun _ => Ok (VStr "02:00:00:00:00:01"))
            (fun _ => Ok (VStr "192.168.1.1"))
            [(VStr "2001:db8::1", VInt 0, VStr "eth0");
             (VStr "fe80::9", VInt 32, VStr "wlan0");
             (VStr "fe80::1", VInt 32, VStr "eth0");
             (VStr "fe80::2", VInt 32, VStr "eth0")]
            Ok Ok Ok Ok Ok.

(** ** Proof steps *)

(** Reads the entries of a configuration one by one; [getitem_only] is the
    lemma that turns [local_or] into [getitem] on an explicit configuration. *)
Ltac read_config getitem_only Hexp :=
  unfold construct; f_equal; unfold bind;
  repeat (rewrite !(getitem_only _ _ _ _ _ Hexp)
          || match goal with
             | |- context [match getitem ?c ?k ?s with _ => _ end] =>
                 destruct (getitem c k s) as [[?| |] ?]
             end);
  reflexivity.

(** Runs the generating methods that call the library. *)
Ltac run_generate :=
  repeat (progress
            (unfold generate0, on, DhcpOfferGenerator.generate0,
               DhcpOfferGenerator.generate, NsGenerator.generate0,
               NsGenerator.generate, bind, gets, call;
             cbn)).

(** Replays the library calls whose results are known. *)
Ltac replay :=
  repeat match goal with
         | H : ?l = _ |- context [match ?l with _ => _ end] =>
             rewrite H; run_generate
         end.

(** Reads the keys of a configuration in the order of the constructor,
    splitting on each key being there or not. *)
Ltac read_keys getitem_only Hexp cfg :=
  repeat first
    [ rewrite !(getitem_only _ _ _ _ _ Hexp)
    | progress (unfold getitem, ret, raise; cbn [fst snd map_result])
    | match goal with
      | |- context [cfg !! ?k] => destruct (cfg !! k) eqn:?
      end ].

(** Runs a call of a generating method with its arguments. *)
Ltac run_invoke :=
  repeat (progress
            (unfold invoke, on, DhcpOfferGenerator.generate, NsGenerator.generate,
               bind, gets, call;
             cbn)).

(** * Properties *)

(** ** The sender refuses what its state does not allow *)

Lemma fresh_sys_constructed :
  PacketSender_init "eth0" empty_world = (Ok (self fresh_sys), world fresh_sys).
Proof. reflexivity. Qed.

(** C1. On a sender whose worker is active, [start_sending] with a packet
    raises [PacketSenderError] and changes nothing: the sender object
    ([thread_send], [thread_active], [stop_signal]) and the world (the table
    of workers, the events, the trace) are what they were, so no second
    worker was made. *)
Theorem start_sending_active_raises (s : Sys) (p : Packet) (interval : Z) :
  thread_active (self s) = true ->
  start_sending (Some p) interval s =
    (Raised (PacketSenderError
       "There is already an active thread. Stop itbefore starting another transmission."),
     s).
Proof.
  intros Hactive.
  unfold start_sending, bind, gets, raise.
  now rewrite Hactive.
Qed.

Lemma start_sending_active_raises_witness :
  thread_active (self sending_sys) = true /\
  start_sending (Some sample_packet) 5 sending_sys =
    (Raised (PacketSenderError
       "There is already an active thread. Stop itbefore starting another transmission."),
     sending_sys).
Proof.
  split; [reflexivity |].
  apply (start_sending_active_raises sending_sys sample_packet 5).
  reflexivity.
Defined.

(** C3. On an idle sender, [stop_sending(ignore_status=False)] raises
    [PacketSenderError] and [stop_sending(ignore_status=True)] returns; both
    leave the sender and the world as they were. *)
Theorem stop_sending_idle (s : Sys) (fuel : nat) :
  thread_active (self s) = false ->
  stop_sending fuel false s =
    (Raised (PacketSenderError "Error: There is no acive thread running to stop."), s)
  /\ stop_sending fuel true s = (Ok tt, s).
Proof.
  intros Hidle.
  unfold stop_sending, bind, gets, raise, ret.
  now rewrite Hidle.
Qed.

Lemma stop_sending_idle_witness :
  thread_active (self fresh_sys) = false /\
  stop_sending 0 false fresh_sys =
    (Raised (PacketSenderError "Error: There is no acive thread running to stop."),
     fresh_sys)
  /\ stop_sending 0 true fresh_sys = (Ok tt, fresh_sys).
Proof.
  split; [reflexivity |].
  apply (stop_sending_idle fresh_sys 0).
  reflexivity.
Defined.

(** C4. Without a packet, [send_ntimes] and [send_receive_ntimes] raise
    [PacketSenderError] for every count and every interval, in every state,
    and before anything is sent: the world, with its trace and its oracle,
    is untouched. *)
Theorem send_without_packet_raises (s : Sys) (ntimes interval : Z) :
  send_ntimes None ntimes interval s =
    (Raised (PacketSenderError "There is no packet to send. Create a packet first."), s)
  /\ send_receive_ntimes None ntimes interval s =
    (Raised (PacketSenderError "There is no packet to send. Create a packet first."), s).
Proof. split; reflexivity. Qed.

(** ** The sending loops *)

Lemma outcome_advance (w : World) (k j : nat) (tr : list obs) :
  outcome (advance k tr w) j = outcome w (k + j).
Proof. unfold outcome, advance. simpl. now rewrite lookup_drop. Qed.

Lemma advance_advance (a b : nat) (t1 t2 : list obs) (w : World) :
  advance a t1 (advance b t2 w) = advance (b + a) (t1 ++ t2) w.
Proof.
  unfold advance. simpl. rewrite drop_drop. now rewrite (assoc_L (++)).
Qed.

Lemma external_returns (o : obs) (w : World) :
  outcome w 0 = None -> external o w = (Ok tt, advance 1 [o] w).
Proof.
  unfold external, next_outcome, outcome, advance, emit, set_oracle.
  destruct w as [ev ne pr np os tr]. simpl.
  destruct os as [|[e|] os]; simpl; intros H; try discriminate; reflexivity.
Qed.

Lemma external_raises (o : obs) (w : World) (e : exn) :
  outcome w 0 = Some e -> external o w = (Raised e, advance 1 [] w).
Proof.
  unfold external, next_outcome, outcome, advance, emit, set_oracle.
  destruct w as [ev ne pr np os tr]. simpl.
  destruct os as [|[e'|] os]; simpl; intros H; try discriminate.
  now injection H as ->.
Qed.

(** The turn where both calls return. *)
Lemma tx_iteration_returns (tx : obs) (interval : Z) (s : Sys) :
  outcome (world s) 0 = None -> outcome (world s) 1 = None ->
  tx_iteration tx interval s =
    (Ok Continue, mkSys (self s) (advance 2 [Sleep interval; tx] (world s))).
Proof.
  intros H0 H1.
  unfold tx_iteration, try_except, bind, liftW, time_sleep, ret.
  rewrite (external_returns tx _ H0). simpl.
  rewrite external_returns by (now rewrite outcome_advance).
  now rewrite advance_advance.
Qed.

(** The turn where the transmission raises. *)
Lemma tx_iteration_tx_raises (tx : obs) (interval : Z) (s : Sys) (e : exn) :
  outcome (world s) 0 = Some e ->
  tx_iteration tx interval s =
    if is_socket_error e
    then (Ok Return, mkSys (self s) (advance 1 [caught e] (world s)))
    else (Raised e, mkSys (self s) (advance 1 [] (world s))).
Proof.
  intros H0.
  unfold tx_iteration, try_except, bind, liftW, time_sleep, ret, log, modify.
  rewrite (external_raises tx _ e H0). simpl.
  destruct (is_socket_error e); reflexivity.
Qed.

(** The turn where the sleep raises. *)
Lemma tx_iteration_sleep_raises (tx : obs) (interval : Z) (s : Sys) (e : exn) :
  outcome (world s) 0 = None -> outcome (world s) 1 = Some e ->
  tx_iteration tx interval s =
    if is_socket_error e
    then (Ok Return, mkSys (self s) (advance 2 [caught e; tx] (world s)))
    else (Raised e, mkSys (self s) (advance 2 [tx] (world s))).
Proof.
  intros H0 H1.
  unfold tx_iteration, try_except, bind, liftW, time_sleep, ret, log, modify.
  rewrite (external_returns tx _ H0). simpl.
  rewrite (external_raises _ _ e) by (now rewrite outcome_advance).
  rewrite advance_advance. simpl.
  destruct (is_socket_error e); reflexivity.
Qed.

Lemma calm_advance (w : World) (k m : nat) (tr : list obs) :
  calm w (k + m) -> calm (advance k tr w) m.
Proof.
  intros H j Hj. rewrite outcome_advance. apply H. lia.
Qed.

(** A loop of [n] turns whose [2 * n] calls all return. *)
Lemma for_range_calm (tx : obs) (interval : Z) (n : nat) (s : Sys) :
  calm (world s) (2 * n) ->
  for_range n (tx_iteration tx interval) s =
    (Ok tt, mkSys (self s) (advance (2 * n) (calls tx interval (2 * n)) (world s))).
Proof.
  revert s. induction n as [|n IH]; intros s Hcalm.
  - destruct s as [me w]. destruct w. reflexivity.
  - cbn [for_range]. unfold bind at 1.
    rewrite tx_iteration_returns by (apply Hcalm; lia).
    rewrite IH by (apply (calm_advance _ 2); eapply eq_ind; [exact Hcalm | lia]).
    cbn [self world]. rewrite advance_advance.
    replace (2 * Datatypes.S n)%nat with (Datatypes.S (Datatypes.S (2 * n))) by lia.
    reflexivity.
Qed.

(** A loop whose call number [m] is the first to raise: a socket error is
    logged and ends the loop, any other exception leaves the loop as it is. *)
Lemma for_range_raises (tx : obs) (interval : Z) (e : exn) (n m : nat) (s : Sys) :
  (m < 2 * n)%nat -> calm (world s) m -> outcome (world s) m = Some e ->
  for_range n (tx_iteration tx interval) s =
    if is_socket_error e
    then (Ok tt, mkSys (self s)
                   (advance (Datatypes.S m) (caught e :: calls tx interval m) (world s)))
    else (Raised e, mkSys (self s)
                   (advance (Datatypes.S m) (calls tx interval m) (world s))).
Proof.
  revert m s. induction n as [|n IH]; intros m s Hm Hcalm He; [lia |].
  cbn [for_range]. unfold bind at 1.
  destruct m as [|[|m]].
  - rewrite (tx_iteration_tx_raises _ _ _ e He).
    destruct (is_socket_error e); reflexivity.
  - rewrite (tx_iteration_sleep_raises _ _ _ e) by (try apply Hcalm; auto).
    destruct (is_socket_error e); reflexivity.
  - rewrite tx_iteration_returns by (apply Hcalm; lia).
    rewrite (IH m); cbn [self world].
    + rewrite !advance_advance.
      destruct (is_socket_error e); reflexivity.
    + lia.
    + apply (calm_advance _ 2). intros j Hj. apply Hcalm. lia.
    + now rewrite outcome_advance.
Qed.

Lemma transmissions_app (t1 t2 : list obs) :
  transmissions (t1 ++ t2) = (transmissions t1 + transmissions t2)%nat.
Proof. unfold transmissions. now rewrite filter_app, length_app. Qed.

Lemma transmissions_calls (tx : obs) (interval : Z) (k : nat) :
  is_transmission tx = true ->
  transmissions (calls tx interval (2 * k)) = k.
Proof.
  intros Htx. induction k as [|k IH]; [reflexivity |].
  replace (2 * Datatypes.S k)%nat with (Datatypes.S (Datatypes.S (2 * k))) by lia.
  cbn [calls]. rewrite transmissions_app, IH.
  unfold transmissions. cbn [filter].
  rewrite filter_cons_False by (simpl; discriminate).
  rewrite filter_cons_True by assumption.
  simpl. lia.
Qed.

Lemma send_ntimes_loop (p : Packet) (ntimes interval : Z) (s : Sys) :
  send_ntimes (Some p) ntimes interval s =
    for_range (Z.to_nat ntimes)
      (tx_iteration (Sendp p (interface (self s))) interval) s.
Proof. reflexivity. Qed.

Lemma send_receive_ntimes_loop (p : Packet) (ntimes interval : Z) (s : Sys) :
  send_receive_ntimes (Some p) ntimes interval s =
    for_range (Z.to_nat ntimes)
      (tx_iteration (Srp1 p (interface (self s)) interval) interval) s.
Proof. reflexivity. Qed.

(** C5, as stated: no transport error occurs, and yet the loops asked for
    three frames send one.  The interval is negative: the first
    transmission returns, [time.sleep] refuses the interval with a
    [ValueError], which [except socket.error] does not catch, and the
    exception reaches the caller. *)
Lemma sending_loops_negative_interval :
  let refused := ValueError "sleep length must be non-negative" in
  let s := facing [None; Some refused] fresh_sys in
  is_socket_error refused = false
  /\ fst (send_ntimes (Some sample_packet) 3 (-1) s) = Raised refused
  /\ transmissions (trace (world (snd (send_ntimes (Some sample_packet) 3 (-1) s))))
     = 1%nat
  /\ fst (send_receive_ntimes (Some sample_packet) 3 (-1) s) = Raised refused
  /\ transmissions
       (trace (world (snd (send_receive_ntimes (Some sample_packet) 3 (-1) s))))
     = 1%nat.
Proof. repeat split. Qed.

(** C5, amended.  With a packet, [send_ntimes] and [send_receive_ntimes]
    send it exactly [n] times when every call of the loop returns, the
    transmissions and the sleeps.  When the transmission of
    turn [k] (counted from 0) raises a socket error, the [k] frames sent
    before it are all that is sent: the error is logged, no further call is
    made, the method returns without an exception, and the sender object
    ([thread_active], [thread_send], [stop_signal], [interface]) is the one
    it was, as are the events and the workers of the world. *)
Theorem sending_loops_send_n_or_abort (s : Sys) (p : Packet) (interval : Z) (n : nat) :
  let iface := interface (self s) in
  (calm (world s) (2 * n) ->
     send_ntimes (Some p) (Z.of_nat n) interval s =
       (Ok tt, mkSys (self s)
                 (advance (2 * n) (calls (Sendp p iface) interval (2 * n)) (world s)))
     /\ transmissions (calls (Sendp p iface) interval (2 * n)) = n
     /\ send_receive_ntimes (Some p) (Z.of_nat n) interval s =
       (Ok tt, mkSys (self s)
                 (advance (2 * n) (calls (Srp1 p iface interval) interval (2 * n))
                    (world s)))
     /\ transmissions (calls (Srp1 p iface interval) interval (2 * n)) = n)
  /\ (forall (k : nat) (e : exn),
        (k < n)%nat -> calm (world s) (2 * k) ->
        outcome (world s) (2 * k) = Some e -> is_socket_error e = true ->
        send_ntimes (Some p) (Z.of_nat n) interval s =
          (Ok tt, mkSys (self s)
                    (advance (Datatypes.S (2 * k))
                       (caught e :: calls (Sendp p iface) interval (2 * k)) (world s)))
        /\ transmissions (caught e :: calls (Sendp p iface) interval (2 * k)) = k
        /\ send_receive_ntimes (Some p) (Z.of_nat n) interval s =
          (Ok tt, mkSys (self s)
                    (advance (Datatypes.S (2 * k))
                       (caught e :: calls (Srp1 p iface interval) interval (2 * k))
                       (world s)))
        /\ transmissions (caught e :: calls (Srp1 p iface interval) interval (2 * k)) = k).
Proof.
  intros iface. split.
  - intros Hcalm.
    rewrite send_ntimes_loop, send_receive_ntimes_loop, Nat2Z.id.
    rewrite !for_range_calm by assumption.
    rewrite !transmissions_calls by reflexivity.
    repeat split.
  - intros k e Hk Hcalm He Hsock.
    rewrite send_ntimes_loop, send_receive_ntimes_loop, Nat2Z.id.
    rewrite !(for_range_raises _ _ e n (2 * k)) by (assumption || lia).
    rewrite Hsock.
    change (caught e :: ?l) with ([caught e] ++ l)%list.
    rewrite !transmissions_app, !transmissions_calls by reflexivity.
    repeat split.
Qed.

Lemma sending_loops_send_n_or_abort_witness :
  (transmissions
     (trace (world (snd (send_ntimes (Some sample_packet) 3 1 fresh_sys)))) = 3%nat
   /\ fst (send_ntimes (Some sample_packet) 3 1 fresh_sys) = Ok tt)
  /\ (let s := facing [None; None; None; None; Some (SocketError 101)] fresh_sys in
      fst (send_receive_ntimes (Some sample_packet) 5 1 s) = Ok tt
      /\ transmissions
           (trace (world (snd (send_receive_ntimes (Some sample_packet) 5 1 s)))) = 2%nat
      /\ self (snd (send_receive_ntimes (Some sample_packet) 5 1 s)) = self fresh_sys).
Proof.
  split.
  - destruct (sending_loops_send_n_or_abort fresh_sys sample_packet 1 3) as [Hall _].
    destruct Hall as (Hsend & Hcount & _).
    + intros j _. reflexivity.
    + change (Z.of_nat 3) with 3 in Hsend. rewrite Hsend. split; reflexivity.
  - intros s.
    destruct (sending_loops_send_n_or_abort s sample_packet 1 5) as [_ Habort].
    destruct (Habort 2%nat (SocketError 101)) as (_ & _ & Hrecv & Hcount).
    + lia.
    + intros j Hj. destruct j as [|[|[|[|j]]]]; try reflexivity; lia.
    + reflexivity.
    + reflexivity.
    + change (Z.of_nat 5) with 5 in Hrecv. rewrite Hrecv.
      repeat split; reflexivity.
Defined.


(** ** The worker *)

Lemma advance_0_nil (w : World) : advance 0 [] w = w.
Proof. now destruct w. Qed.

(** A worker that is not alive does not move. *)
Lemma run_step_ended (q : ThreadSendPacket) (w : World) :
  alive (tsp_pc q) = false -> run_step q w = (Ok (tsp_pc q), w).
Proof. unfold run_step. destruct (tsp_pc q); simpl; intros H; now try discriminate. Qed.

(** A live worker takes exactly the step of the relation. *)
Lemma run_step_transition (q : ThreadSendPacket) (w : World) :
  alive (tsp_pc q) = true ->
  exists pc' w', run_step q w = (Ok pc', w') /\ transition q w pc' w'.
Proof.
  intros Halive. unfold run_step.
  destruct (tsp_pc q) eqn:Hpc; try discriminate.
  - eexists _, _. split; [reflexivity |]. now apply t_started.
  - unfold bind, Event_is_set, gets.
    destruct (is_set (tsp_stop_signal q) w) eqn:Hset.
    + eexists _, _. split; [reflexivity |]. now apply t_signaled.
    + eexists _, _. split; [reflexivity |]. now apply t_polled.
  - unfold try_except, bind, scapy_sendp.
    destruct (outcome w 0) as [e|] eqn:He.
    + rewrite (external_raises _ _ e He).
      eexists _, _. split; [reflexivity |].
      exact (t_send_raised q w e Hpc He).
    + rewrite (external_returns _ _ He).
      eexists _, _. split; [reflexivity |]. now apply t_sent.
  - unfold try_except, bind, time_sleep.
    destruct (outcome w 0) as [e|] eqn:He.
    + rewrite (external_raises _ _ e He).
      eexists _, _. split; [reflexivity |].
      exact (t_sleep_raised q w e Hpc He).
    + rewrite (external_returns _ _ He).
      eexists _, _. split; [reflexivity |]. now apply t_slept.
Qed.

(** A step of the relation starts at a live worker, ends at a started one,
    and touches the oracle and the trace only. *)
Lemma transition_frame (q : ThreadSendPacket) (w w' : World) (pc' : pstate) :
  transition q w pc' w' ->
  alive (tsp_pc q) = true /\ launched pc' = true /\
  events w' = events w /\ procs w' = procs w /\
  next_pid w' = next_pid w /\ next_event w' = next_event w.
Proof.
  intros Ht. inversion Ht as [H|H ?|H ?|H ?|? H ?|H ?|? H ?]; subst; rewrite H;
    repeat split.
Qed.

(** Once the stop signal is set, every step brings the end nearer. *)
Lemma transition_remaining (q : ThreadSendPacket) (w w' : World) (pc' : pstate) :
  transition q w pc' w' ->
  is_set (tsp_stop_signal q) w = true ->
  (remaining pc' < remaining (tsp_pc q))%nat.
Proof.
  intros Ht Hset.
  inversion Ht as [H|H ?|H Hclear|H ?|? H ?|H ?|? H ?]; subst; rewrite H; simpl;
    try lia.
  congruence.
Qed.

Lemma at_pc_same (q : ThreadSendPacket) : at_pc (tsp_pc q) q = q.
Proof. now destruct q. Qed.

Lemma set_proc_same (pid : nat) (q : ThreadSendPacket) (w : World) :
  procs w !! pid = Some q -> set_proc pid q w = w.
Proof.
  intros H. unfold set_proc. rewrite (insert_id _ _ _ H). now destruct w.
Qed.

Lemma worker_step_ended (pid : nat) (q : ThreadSendPacket) (w : World) :
  procs w !! pid = Some q -> alive (tsp_pc q) = false -> worker_step pid w = w.
Proof.
  intros Hq Hdead. unfold worker_step. rewrite Hq, run_step_ended by assumption.
  rewrite at_pc_same. now apply set_proc_same.
Qed.

Lemma worker_step_alive (pid : nat) (q : ThreadSendPacket) (w : World) :
  procs w !! pid = Some q -> alive (tsp_pc q) = true ->
  exists pc' w', transition q w pc' w' /\
                 worker_step pid w = set_proc pid (at_pc pc' q) w'.
Proof.
  intros Hq Halive.
  destruct (run_step_transition q w Halive) as (pc' & w' & Hrun & Ht).
  exists pc', w'. split; [assumption |].
  unfold worker_step. now rewrite Hq, Hrun.
Qed.

Lemma worker_step_unknown (pid : nat) (w : World) :
  procs w !! pid = None -> worker_step pid w = w.
Proof. intros H. unfold worker_step. now rewrite H. Qed.

(** No step of any worker changes an event. *)
Lemma worker_step_events (pid : nat) (w : World) :
  events (worker_step pid w) = events w.
Proof.
  destruct (procs w !! pid) as [q|] eqn:Hq.
  - destruct (alive (tsp_pc q)) eqn:Halive.
    + destruct (worker_step_alive pid q w Hq Halive) as (pc' & w' & Ht & ->).
      apply transition_frame in Ht. simpl. tauto.
    + now rewrite (worker_step_ended pid q w).
  - now rewrite worker_step_unknown.
Qed.

Lemma worker_step_next_pid (pid : nat) (w : World) :
  next_pid (worker_step pid w) = next_pid w.
Proof.
  destruct (procs w !! pid) as [q|] eqn:Hq.
  - destruct (alive (tsp_pc q)) eqn:Halive.
    + destruct (worker_step_alive pid q w Hq Halive) as (pc' & w' & Ht & ->).
      apply transition_frame in Ht. simpl. tauto.
    + now rewrite (worker_step_ended pid q w).
  - now rewrite worker_step_unknown.
Qed.

(** A step of any worker keeps every worker in the table, with the packet,
    the interval, the interface and the stop signal it was made with. *)
Lemma worker_step_lookup (pid pid0 : nat) (q : ThreadSendPacket) (w : World) :
  procs w !! pid0 = Some q ->
  exists pc', procs (worker_step pid w) !! pid0 = Some (at_pc pc' q) /\
              (launched (tsp_pc q) = true -> launched pc' = true).
Proof.
  intros Hq0.
  assert (Hkeep : procs w !! pid0 = Some (at_pc (tsp_pc q) q))
    by now rewrite at_pc_same.
  destruct (procs w !! pid) as [q1|] eqn:Hq.
  - destruct (alive (tsp_pc q1)) eqn:Halive.
    + destruct (worker_step_alive pid q1 w Hq Halive) as (pc' & w' & Ht & ->).
      apply transition_frame in Ht. destruct Ht as (_ & Hpc' & _ & Hprocs & _).
      simpl. rewrite Hprocs.
      destruct (decide (pid = pid0)) as [->|Hne].
      * rewrite lookup_insert_eq. assert (q1 = q) as -> by congruence.
        exists pc'. now split.
      * rewrite lookup_insert_ne by assumption. exists (tsp_pc q). now split.
    + rewrite (worker_step_ended pid q1 w) by assumption.
      exists (tsp_pc q). now split.
  - rewrite worker_step_unknown by assumption. exists (tsp_pc q). now split.
Qed.

Lemma at_pc_at_pc (a b : pstate) (q : ThreadSendPacket) :
  at_pc a (at_pc b q) = at_pc a q.
Proof. reflexivity. Qed.

(** The same, for a whole schedule. *)
Lemma schedule_frame (l : list nat) (pid0 : nat) (q : ThreadSendPacket) (w : World) :
  procs w !! pid0 = Some q ->
  events (schedule l w) = events w /\
  next_pid (schedule l w) = next_pid w /\
  exists pc', procs (schedule l w) !! pid0 = Some (at_pc pc' q) /\
              (launched (tsp_pc q) = true -> launched pc' = true).
Proof.
  revert q w. induction l as [|pid l IH]; intros q w Hq.
  - repeat split. exists (tsp_pc q). now rewrite at_pc_same.
  - destruct (worker_step_lookup pid pid0 q w Hq) as (pc1 & Hq1 & Hstarted1).
    destruct (IH _ _ Hq1) as (Hev & Hnp & pc2 & Hq2 & Hstarted2).
    cbn [schedule foldl] in *. fold (schedule l (worker_step pid w)) in *.
    rewrite Hev, Hnp, worker_step_events, worker_step_next_pid.
    repeat split. exists pc2. rewrite Hq2, at_pc_at_pc. split; [reflexivity |].
    intros Hs. apply Hstarted2. simpl. now apply Hstarted1.
Qed.

Lemma launched_ended (pc : pstate) :
  launched pc = true -> alive pc = false -> pc = Stopped \/ pc = Failed.
Proof. destruct pc; simpl; intros; try discriminate; auto. Qed.

Lemma Process_join_unfold (fuel pid : nat) (w : World) :
  Process_join fuel pid w =
    match procs w !! pid with
    | None => (Hang, w)
    | Some p =>
        match tsp_pc p with
        | NotStarted =>
            (Raised (AssertionError "can only join a started process"), w)
        | Stopped | Failed | Killed => (Ok tt, w)
        | _ =>
            match fuel with
            | O => (Hang, w)
            | Datatypes.S k => Process_join k pid (worker_step pid w)
            end
        end
    end.
Proof. destruct fuel; reflexivity. Qed.

(** [join] returns: a launched worker whose stop signal is set ends within
    three steps, at [Stopped] or at [Failed], and no event changes while the
    caller waits. *)
Lemma Process_join_returns (fuel pid : nat) (q : ThreadSendPacket) (w : World) :
  procs w !! pid = Some q -> launched (tsp_pc q) = true ->
  is_set (tsp_stop_signal q) w = true ->
  (remaining (tsp_pc q) <= fuel)%nat ->
  exists pc' w',
    Process_join fuel pid w = (Ok tt, w') /\
    procs w' !! pid = Some (at_pc pc' q) /\
    (pc' = Stopped \/ pc' = Failed) /\
    events w' = events w /\ next_pid w' = next_pid w.
Proof.
  revert q w. induction fuel as [|fuel IH]; intros q w Hq Hlaunched Hset Hfuel.
  - assert (Hdead : alive (tsp_pc q) = false)
      by (destruct (tsp_pc q); simpl in *; try reflexivity; lia).
    destruct (launched_ended _ Hlaunched Hdead) as [Hpc|Hpc];
      exists (tsp_pc q), w; rewrite Process_join_unfold, Hq, Hpc;
      rewrite <- Hpc, at_pc_same; auto.
  - destruct (alive (tsp_pc q)) eqn:Halive.
    + destruct (worker_step_alive pid q w Hq Halive) as (pc1 & w1 & Ht & Hstep).
      pose proof (transition_remaining _ _ _ _ Ht Hset) as Hless.
      destruct (transition_frame _ _ _ _ Ht) as (_ & Hl1 & Hev1 & Hpr1 & Hnp1 & _).
      destruct (IH (at_pc pc1 q) (worker_step pid w)) as (pc2 & w2 & Hjoin & Hq2 & Hend & Hev2 & Hnp2).
      * rewrite Hstep. simpl. now rewrite lookup_insert_eq.
      * exact Hl1.
      * rewrite Hstep. unfold is_set in *. simpl. now rewrite Hev1.
      * simpl. lia.
      * exists pc2, w2. rewrite Process_join_unfold, Hq.
        rewrite Hev2, Hnp2, Hq2, worker_step_events, worker_step_next_pid.
        destruct (tsp_pc q); try discriminate; auto.
    + destruct (launched_ended _ Hlaunched Halive) as [Hpc|Hpc];
        exists (tsp_pc q), w; rewrite Process_join_unfold, Hq, Hpc;
        rewrite <- Hpc, at_pc_same; auto.
Qed.

(** ** Starting and stopping *)

Lemma start_sending_idle (s : Sys) (p : Packet) (interval : Z) :
  thread_active (self s) = false ->
  start_sending (Some p) interval s = (Ok tt, started p interval s).
Proof.
  intros Hidle.
  unfold start_sending, bind, gets. rewrite Hidle.
  unfold liftW, ThreadSendPacket_init, set_thread_send, modify, on_thread_send,
    bind, gets, liftW, Process_start, set_thread_active, modify.
  cbn [self world thread_send procs fst snd tsp_pc packet thread_active
       stop_signal interface events next_event next_pid oracle trace].
  rewrite lookup_insert_eq.
  cbn [tsp_pc self world thread_send procs packet thread_active
       stop_signal interface events next_event next_pid oracle trace set_proc at_pc
       tsp_stop_signal tsp_packet tsp_interval tsp_interface].
  unfold set_proc, at_pc, started. cbn.
  rewrite insert_insert_eq. reflexivity.
Qed.

Lemma is_set_set_event (h : nat) (b : bool) (w : World) :
  is_set h (set_event h b w) = b.
Proof. unfold is_set, set_event. simpl. now rewrite lookup_insert_eq. Qed.

(** With a launched worker behind [thread_send] that polls the sender's own
    stop signal, [stop_sending] returns once [join] is followed for three
    steps or more. *)
Lemma stop_sending_active (s : Sys) (fuel pid : nat) (q : ThreadSendPacket)
    (ignore_status : bool) :
  thread_active (self s) = true -> thread_send (self s) = Some pid ->
  procs (world s) !! pid = Some q -> launched (tsp_pc q) = true ->
  tsp_stop_signal q = stop_signal (self s) -> (3 <= fuel)%nat ->
  exists pc' w',
    stop_sending fuel ignore_status s = (Ok tt, mkSys (stopped (self s)) w') /\
    is_set (stop_signal (self s)) w' = false /\
    procs w' !! pid = Some (at_pc pc' q) /\
    (pc' = Stopped \/ pc' = Failed) /\
    next_pid w' = next_pid (world s).
Proof.
  intros Hactive Hthread Hq Hlaunched Hsignal Hfuel.
  destruct (Process_join_returns fuel pid q
              (set_event (stop_signal (self s)) true (world s)))
    as (pc' & w1 & Hjoin & Hq1 & Hend & Hev1 & Hnp1).
  - exact Hq.
  - exact Hlaunched.
  - rewrite Hsignal. apply is_set_set_event.
  - destruct (tsp_pc q); simpl; lia.
  - exists pc', (set_event (stop_signal (self s)) false w1).
    split; [| split; [| split; [| split]]].
    + unfold stop_sending, bind at 1, gets at 1. rewrite Hactive. cbn [negb].
      unfold bind at 1, gets at 1.
      unfold bind at 1, liftW at 1, Event_set, modify. cbn [self world].
      unfold bind at 1, on_thread_send at 1, bind at 1, gets at 1. cbn [self world].
      rewrite Hthread. unfold liftW at 1. cbn [self world]. rewrite Hjoin.
      unfold bind at 1, on_thread_send at 1, bind at 1, gets at 1. cbn [self world].
      rewrite Hthread. unfold liftW at 1, Process_is_alive. cbn [self world].
      rewrite Hq1.
      assert (Hdead : alive (tsp_pc (at_pc pc' q)) = false)
        by (destruct Hend as [-> | ->]; reflexivity).
      rewrite Hdead.
      reflexivity.
    + apply is_set_set_event.
    + exact Hq1.
    + exact Hend.
    + exact Hnp1.
Qed.

(** C2. From an idle sender, [start_sending(p, i)] makes a worker; however
    the workers are scheduled in between, [stop_sending()] then returns
    (given three steps of the worker or more to wait for) and leaves
    [thread_active] false, no worker handle, the worker ended, and the stop
    signal of the sender clear.  From there [start_sending] succeeds again,
    and the new worker starts with the signal clear. *)
Theorem start_stop_restart (s : Sys) (p p' : Packet) (interval interval' : Z)
    (sched : list nat) (fuel : nat) :
  thread_active (self s) = false -> (3 <= fuel)%nat ->
  let s1 := started p interval s in
  start_sending (Some p) interval s = (Ok tt, s1) /\
  exists w2,
    let s2 := mkSys (stopped (self s1)) w2 in
    let s3 := started p' interval' s2 in
    stop_sending fuel false (mkSys (self s1) (schedule sched (world s1))) = (Ok tt, s2) /\
    thread_active (self s2) = false /\
    thread_send (self s2) = None /\
    stop_signal (self s2) = stop_signal (self s) /\
    is_set (stop_signal (self s2)) w2 = false /\
    (pc_of (next_pid (world s)) w2 = Some Stopped \/
     pc_of (next_pid (world s)) w2 = Some Failed) /\
    start_sending (Some p') interval' s2 = (Ok tt, s3) /\
    thread_active (self s3) = true /\
    thread_send (self s3) = Some (next_pid w2) /\
    pc_of (next_pid w2) (world s3) = Some AtStart /\
    is_set (stop_signal (self s3)) (world s3) = false.
Proof.
  intros Hidle Hfuel s1.
  split; [now apply start_sending_idle |].
  set (pid := next_pid (world s)).
  set (q := mkThread (stop_signal (self s)) p interval (interface (self s)) AtStart).
  assert (Hq : procs (world s1) !! pid = Some q)
    by (unfold s1, started; simpl; apply lookup_insert_eq).
  destruct (schedule_frame sched pid q (world s1) Hq)
    as (Hev & Hnp & pc1 & Hq1 & Hlaunched).
  destruct (stop_sending_active
              (mkSys (self s1) (schedule sched (world s1))) fuel pid
              (at_pc pc1 q) false)
    as (pc2 & w2 & Hstop & Hclear & Hq2 & Hend & Hnp2);
    try reflexivity; try assumption.
  - now apply Hlaunched.
  - exists w2. cbn zeta.
    split; [exact Hstop |].
    split; [reflexivity |]. split; [reflexivity |]. split; [reflexivity |].
    split; [exact Hclear |].
    split.
    { unfold pc_of. fold pid. rewrite Hq2. simpl.
      destruct Hend as [-> | ->]; auto. }
    split; [now apply start_sending_idle |].
    split; [reflexivity |]. split; [reflexivity |].
    split.
    { unfold pc_of, started. simpl. now rewrite lookup_insert_eq. }
    exact Hclear.
Qed.

Lemma start_stop_restart_witness :
  thread_active (self fresh_sys) = false /\
  exists w2,
    stop_sending 3 false
      (mkSys (self (started sample_packet 1 fresh_sys))
             (schedule [0; 0; 0; 0; 0]%nat (world (started sample_packet 1 fresh_sys))))
    = (Ok tt, mkSys (stopped (self (started sample_packet 1 fresh_sys))) w2) /\
    is_set 0 w2 = false /\
    fst (start_sending (Some sample_packet) 2
           (mkSys (stopped (self (started sample_packet 1 fresh_sys))) w2)) = Ok tt.
Proof.
  split; [reflexivity |].
  destruct (start_stop_restart fresh_sys sample_packet sample_packet 1 2
              [0; 0; 0; 0; 0]%nat 3)
    as (_ & w2 & Hstop & _ & _ & _ & Hclear & _ & Hstart & _).
  - reflexivity.
  - lia.
  - exists w2. split; [exact Hstop |]. split; [exact Hclear |].
    now rewrite Hstart.
Defined.

(** ** The discipline of the [run] loop *)

(** The relation is a function of the worker and the world. *)
Lemma transition_deterministic (q : ThreadSendPacket) (w w1 w2 : World) (a b : pstate) :
  transition q w a w1 -> transition q w b w2 -> a = b /\ w1 = w2.
Proof.
  intros Ha Hb.
  inversion Ha; subst; inversion Hb; subst; try congruence; split; congruence.
Qed.

Lemma worker_step_of_transition (pid : nat) (q : ThreadSendPacket) (w w' : World)
    (pc' : pstate) :
  procs w !! pid = Some q -> transition q w pc' w' ->
  worker_step pid w = set_proc pid (at_pc pc' q) w'.
Proof.
  intros Hq Ht.
  destruct (transition_frame _ _ _ _ Ht) as (Halive & _).
  destruct (worker_step_alive pid q w Hq Halive) as (pc'' & w'' & Ht' & ->).
  destruct (transition_deterministic _ _ _ _ _ _ Ht Ht') as [-> ->].
  reflexivity.
Qed.

(** A worker that has ended stays where it is, and the world with it. *)
Lemma worker_steps_ended (n pid : nat) (q : ThreadSendPacket) (w : World) :
  procs w !! pid = Some q -> alive (tsp_pc q) = false -> worker_steps n pid w = w.
Proof.
  intros Hq Hdead. induction n as [|n IH]; [reflexivity |].
  cbn [worker_steps]. now rewrite (worker_step_ended pid q w).
Qed.

(** A step that ends the worker is the last one that changes anything. *)
Lemma worker_steps_last (n pid : nat) (q : ThreadSendPacket) (w w' : World)
    (pc' : pstate) :
  procs w !! pid = Some q -> transition q w pc' w' -> alive pc' = false ->
  (1 <= n)%nat ->
  worker_steps n pid w = set_proc pid (at_pc pc' q) w'.
Proof.
  intros Hq Ht Hdead Hn. destruct n as [|n]; [lia |].
  cbn [worker_steps]. rewrite (worker_step_of_transition pid q w w' pc' Hq Ht).
  apply (worker_steps_ended n pid (at_pc pc' q)); [| exact Hdead].
  simpl. apply lookup_insert_eq.
Qed.

Lemma worker_steps_launched (n pid : nat) (q : ThreadSendPacket) (w : World) :
  procs w !! pid = Some q -> launched (tsp_pc q) = true ->
  exists pc', procs (worker_steps n pid w) !! pid = Some (at_pc pc' q) /\
              launched pc' = true.
Proof.
  revert q w. induction n as [|n IH]; intros q w Hq Hl.
  - exists (tsp_pc q). now rewrite at_pc_same.
  - destruct (worker_step_lookup pid pid q w Hq) as (pc1 & Hq1 & Hl1).
    destruct (IH _ _ Hq1 (Hl1 Hl)) as (pc2 & Hq2 & Hl2).
    exists pc2. cbn [worker_steps]. now rewrite Hq2.
Qed.

(** C6. The [run] loop as a step relation.  For a worker [q] of the table:
    - a live worker takes exactly the step of [transition];
    - at the poll with the stop signal set, it logs and ends at [Stopped],
      and whatever more it is scheduled, nothing is sent again;
    - at the poll with the signal clear, and the two calls returning, it
      sends its packet once, sleeps, and is back at the poll;
    - when the transmission or the sleep raises, the exception is logged,
      the worker ends at [Failed], and no further call is made;
    - a frame leaves only from the place [AtSend], which is entered only
      from a poll that found the signal clear;
    - a worker that [start()] launched and that is no longer alive is at
      [Stopped] or at [Failed]. *)
Theorem run_loop_discipline (pid : nat) (q : ThreadSendPacket) (w : World) :
  procs w !! pid = Some q ->
  (alive (tsp_pc q) = true ->
     exists pc' w', transition q w pc' w' /\
                    worker_step pid w = set_proc pid (at_pc pc' q) w')
  /\ (tsp_pc q = AtPoll -> is_set (tsp_stop_signal q) w = true ->
      forall n, (1 <= n)%nat ->
        worker_steps n pid w =
          set_proc pid (at_pc Stopped q)
            (advance 0 [Log INFO "Packet Sending Stopped." None] w))
  /\ (tsp_pc q = AtPoll -> is_set (tsp_stop_signal q) w = false -> calm w 2 ->
      worker_steps 3 pid w =
        set_proc pid (at_pc AtPoll q)
          (advance 2 [Sleep (tsp_interval q); Sendp (tsp_packet q) (tsp_interface q)] w))
  /\ (forall e, tsp_pc q = AtSend \/ tsp_pc q = AtSleep -> outcome w 0 = Some e ->
      forall n, (1 <= n)%nat ->
        worker_steps n pid w =
          set_proc pid (at_pc Failed q)
            (advance 1 [Log EXCEPTION "Exception when trying to send packet" (Some e)] w))
  /\ (forall pc' w', transition q w pc' w' ->
        (pc' = AtSend -> tsp_pc q = AtPoll /\ is_set (tsp_stop_signal q) w = false)
        /\ (transmissions (trace w') <> transmissions (trace w) -> tsp_pc q = AtSend))
  /\ (tsp_pc q = AtStart ->
      forall n, exists pc',
        procs (worker_steps n pid w) !! pid = Some (at_pc pc' q) /\
        (alive pc' = false -> pc' = Stopped \/ pc' = Failed)).
Proof.
  intros Hq. split; [| split; [| split; [| split; [| split]]]].
  - intros Halive. now apply worker_step_alive.
  - intros Hpc Hset n Hn.
    apply (worker_steps_last n pid q w); auto. now apply t_signaled.
  - intros Hpc Hclear Hcalm.
    cbn [worker_steps].
    rewrite (worker_step_of_transition pid q w w AtSend Hq) by now apply t_polled.
    set (w1 := set_proc pid (at_pc AtSend q) w).
    set (sent := Sendp (tsp_packet q) (tsp_interface q)).
    rewrite (worker_step_of_transition pid (at_pc AtSend q) w1
               (advance 1 [sent] w1) AtSleep).
    + set (w2 := set_proc pid (at_pc AtSleep (at_pc AtSend q)) (advance 1 [sent] w1)).
      rewrite (worker_step_of_transition pid (at_pc AtSleep q) w2
                 (advance 1 [Sleep (tsp_interval q)] w2) AtPoll).
      * unfold w2, w1, set_proc, advance, at_pc. simpl.
        rewrite !insert_insert_eq, drop_drop. reflexivity.
      * simpl. apply lookup_insert_eq.
      * assert (H1 : outcome w2 0 = None).
        { unfold outcome. simpl. rewrite lookup_drop. apply (Hcalm 1%nat). lia. }
        exact (t_slept (at_pc AtSleep q) w2 eq_refl H1).
    + simpl. apply lookup_insert_eq.
    + assert (H0 : outcome w1 0 = None) by (apply (Hcalm 0%nat); lia).
      exact (t_sent (at_pc AtSend q) w1 eq_refl H0).
  - intros e Hpc He n Hn.
    apply (worker_steps_last n pid q w); auto.
    destruct Hpc as [Hpc|Hpc]; [now apply t_send_raised | now apply t_sleep_raised].
  - intros pc' w' Ht. split.
    + intros ->. inversion Ht; subst; try congruence. now split.
    + intros Hsent. inversion Ht as [H|H ?|H ?|H ?|? H ?|H ?|? H ?]; subst;
        try assumption; exfalso; apply Hsent; reflexivity.
  - intros Hpc n.
    destruct (worker_steps_launched n pid q w Hq) as (pc' & Hq' & Hl).
    + now rewrite Hpc.
    + exists pc'. split; [exact Hq' |]. intros Hdead. now apply launched_ended.
Qed.

Lemma run_loop_discipline_witness :
  procs (world sending_sys) !! 0%nat = Some sample_worker /\
  (exists pc' w',
     transition sample_worker (world sending_sys) pc' w' /\
     worker_step 0 (world sending_sys) = set_proc 0 (at_pc pc' sample_worker) w')
  /\ (forall n, exists pc',
        procs (worker_steps n 0 (world sending_sys)) !! 0%nat
          = Some (at_pc pc' sample_worker) /\
        (alive pc' = false -> pc' = Stopped \/ pc' = Failed)).
Proof.
  split; [reflexivity |].
  destruct (run_loop_discipline 0 sample_worker (world sending_sys))
    as (Hstep & _ & _ & _ & _ & Hend).
  - reflexivity.
  - split; [apply Hstep | apply Hend]; reflexivity.
Defined.

(** Whatever the transmission or the sleep raises, [run] logs it and returns. *)
Lemma run_step_raises (q : ThreadSendPacket) (w : World) (e : exn) :
  tsp_pc q = AtSend \/ tsp_pc q = AtSleep -> outcome w 0 = Some e ->
  run_step q w =
    (Ok Failed,
     advance 1 [Log EXCEPTION "Exception when trying to send packet" (Some e)] w).
Proof.
  intros Hpc He.
  assert (Ht : transition q w Failed
                 (advance 1 [Log EXCEPTION "Exception when trying to send packet"
                                 (Some e)] w))
    by (destruct Hpc; [now apply t_send_raised | now apply t_sleep_raised]).
  destruct (transition_frame _ _ _ _ Ht) as (Halive & _).
  destruct (run_step_transition q w Halive) as (pc' & w' & -> & Ht').
  now destruct (transition_deterministic _ _ _ _ _ _ Ht Ht') as [<- <-].
Qed.

(** C10. In [send_ntimes] and [send_receive_ntimes] the [except] clause
    takes socket errors only: when the transmission of turn [k] raises [e],
    the method returns if [e] is a socket error and raises the same [e] to
    its caller if it is not.  The [run] loop of the worker takes every
    exception: whatever is raised by the transmission or by the sleep is
    logged and [run] returns.  None of these touches the sender object, and
    a step of a worker leaves the events as they are. *)
Theorem only_socket_errors_are_caught (s : Sys) (p : Packet) (interval : Z)
    (n k : nat) (e : exn) :
  (k < n)%nat -> calm (world s) (2 * k) -> outcome (world s) (2 * k) = Some e ->
  let iface := interface (self s) in
  (send_ntimes (Some p) (Z.of_nat n) interval s =
     if is_socket_error e
     then (Ok tt, mkSys (self s)
                    (advance (Datatypes.S (2 * k))
                       (caught e :: calls (Sendp p iface) interval (2 * k)) (world s)))
     else (Raised e, mkSys (self s)
                    (advance (Datatypes.S (2 * k))
                       (calls (Sendp p iface) interval (2 * k)) (world s))))
  /\ (send_receive_ntimes (Some p) (Z.of_nat n) interval s =
     if is_socket_error e
     then (Ok tt, mkSys (self s)
                    (advance (Datatypes.S (2 * k))
                       (caught e :: calls (Srp1 p iface interval) interval (2 * k))
                       (world s)))
     else (Raised e, mkSys (self s)
                    (advance (Datatypes.S (2 * k))
                       (calls (Srp1 p iface interval) interval (2 * k)) (world s))))
  /\ (forall (q : ThreadSendPacket) (w : World) (e' : exn),
        tsp_pc q = AtSend \/ tsp_pc q = AtSleep ->
        outcome w 0 = Some e' ->
        run_step q w =
          (Ok Failed,
           advance 1 [Log EXCEPTION "Exception when trying to send packet" (Some e')] w))
  /\ (forall (pid : nat) (w : World), events (worker_step pid w) = events w).
Proof.
  intros Hk Hcalm He iface.
  split; [| split; [| split]].
  - rewrite send_ntimes_loop, Nat2Z.id.
    now rewrite (for_range_raises _ _ e n (2 * k)) by (assumption || lia).
  - rewrite send_receive_ntimes_loop, Nat2Z.id.
    now rewrite (for_range_raises _ _ e n (2 * k)) by (assumption || lia).
  - intros q w e' Hpc He'. apply run_step_raises; assumption.
  - intros pid w. apply worker_step_events.
Qed.

Lemma only_socket_errors_are_caught_witness :
  let s := facing [None; None; Some (ValueError "sleep length must be non-negative")] fresh_sys in
  fst (send_ntimes (Some sample_packet) 4 1 s)
    = Raised (ValueError "sleep length must be non-negative")
  /\ self (snd (send_ntimes (Some sample_packet) 4 1 s)) = self fresh_sys
  /\ fst (send_receive_ntimes (Some sample_packet) 4 1
            (facing [None; None; Some (SocketError 100)] fresh_sys)) = Ok tt.
Proof.
  intros s. split; [| split].
  - destruct (only_socket_errors_are_caught s sample_packet 1 4 1
                (ValueError "sleep length must be non-negative")) as (Hsend & _).
    + lia.
    + intros j Hj. destruct j as [|[|j]]; try reflexivity; lia.
    + reflexivity.
    + change (Z.of_nat 4) with 4 in Hsend. now rewrite Hsend.
  - destruct (only_socket_errors_are_caught s sample_packet 1 4 1
                (ValueError "sleep length must be non-negative")) as (Hsend & _).
    + lia.
    + intros j Hj. destruct j as [|[|j]]; try reflexivity; lia.
    + reflexivity.
    + change (Z.of_nat 4) with 4 in Hsend. now rewrite Hsend.
  - destruct (only_socket_errors_are_caught
                (facing [None; None; Some (SocketError 100)] fresh_sys)
                sample_packet 1 4 1 (SocketError 100)) as (_ & Hrecv & _).
    + lia.
    + intros j Hj. destruct j as [|[|j]]; try reflexivity; lia.
    + reflexivity.
    + change (Z.of_nat 4) with 4 in Hrecv. now rewrite Hrecv.
Defined.

(** ** The packet generators *)

(** The constructor reads ['interf'] before anything else. *)
Lemma ArpGenerator_init_needs_interf (lib : Library) (cfg : gmap string value) :
  cfg !! "interf" = None ->
  ArpGenerator.init lib cfg = Raised (KeyError "interf").
Proof.
  intros H. unfold ArpGenerator.init, construct, bind, getitem. now rewrite H.
Qed.

(** C7, as stated: built from the three addressing entries alone, the
    constructor raises [KeyError] on ['interf'], so there is no generator to
    call [generate()] on. *)
Lemma arp_scenario_without_interf :
  ArpGenerator.init bare_library arp_scenario_config = Raised (KeyError "interf").
Proof. reflexivity. Qed.

(** C7, amended.  For an [ArpGenerator] built from a configuration that
    holds the three addressing entries of the scenario and an ['interf']
    entry, [generate()] returns Ethernet over ARP with [op="who-has"],
    [hwsrc="aa:bb:cc:dd:ee:ff"], [psrc="10.0.0.1"], [pdst="10.0.0.2"],
    [hwdst="00:00:00:00:00:00"], Ethernet source the source MAC and Ethernet
    destination broadcast, and caches it. *)
Theorem arp_scenario (lib : Library) (cfg : gmap string value) (interf : value) :
  cfg !! "interf" = Some interf ->
  cfg !! "src_mac" = Some (VStr "aa:bb:cc:dd:ee:ff") ->
  cfg !! "src_ipv4" = Some (VStr "10.0.0.1") ->
  cfg !! "dst_ipv4" = Some (VStr "10.0.0.2") ->
  exists g,
    ArpGenerator.init lib cfg = Ok g /\
    ArpGenerator.packet g = None /\
    fst (ArpGenerator.generate0 g) = Ok arp_scenario_packet /\
    ArpGenerator.packet (snd (ArpGenerator.generate0 g)) = Some arp_scenario_packet.
Proof.
  intros Hif Hmac Hsrc Hdst.
  eexists. split.
  - unfold ArpGenerator.init, construct, bind, local_or, bind, getitem.
    rewrite Hif. simpl. rewrite Hmac. simpl.
    rewrite Hdst. simpl. rewrite Hsrc. reflexivity.
  - repeat split.
Qed.

Lemma arp_scenario_witness :
  exists g,
    ArpGenerator.init bare_library (<["interf" := VStr "eth0"]> arp_scenario_config)
      = Ok g /\
    fst (ArpGenerator.generate0 g) = Ok arp_scenario_packet.
Proof.
  destruct (arp_scenario bare_library
              (<["interf" := VStr "eth0"]> arp_scenario_config) (VStr "eth0"))
    as (g & Hinit & _ & Hgen & _); try reflexivity.
  exists g. split; assumption.
Defined.

(** With no ['get_local'] entry the interface is never asked. *)
Lemma local_or_getitem {S} (cfg : gmap string value) (key : string)
    (resolve : M S value) (s : S) :
  explicit cfg -> local_or cfg key resolve s = getitem cfg key s.
Proof.
  intros Hexp. unfold local_or, bind, getitem.
  destruct (cfg !! key) as [v|] eqn:Hv; [| reflexivity].
  simpl. rewrite bool_decide_eq_false_2; [reflexivity |].
  intros ->. now apply (Hexp key).
Qed.

(** A constructor on an explicit configuration does not depend on the host. *)
Lemma new_explicit (lib lib' : Library) (c : generator_class) (cfg : gmap string value) :
  explicit cfg -> new lib c cfg = new lib' c cfg.
Proof.
  intros Hexp. destruct c; unfold new; f_equal.
  - unfold ArpGenerator.init. read_config @local_or_getitem Hexp.
  - unfold DhcpOfferGenerator.init. read_config @local_or_getitem Hexp.
  - unfold NsGenerator.init. read_config @local_or_getitem Hexp.
  - unfold RaGenerator.init. read_config @local_or_getitem Hexp.
  - unfold Ping6Generator.init. read_config @local_or_getitem Hexp.
  - unfold Ping4Generator.init. read_config @local_or_getitem Hexp.
  - unfold Mdns6Generator.init. read_config @local_or_getitem Hexp.
  - unfold Mdns4Generator.init. read_config @local_or_getitem Hexp.
  - unfold Dot3Generator.init. read_config @local_or_getitem Hexp.
Qed.

(** Two calls in a row on any generator: the second returns what the first
    returned and finds nothing left to change; the first changed the cached
    packet and nothing else. *)
Lemma generate0_twice (lib : Library) (lifetime : value) (meth : dot3_method)
    (g : generator) :
  let first := generate0 lib lifetime meth g in
  let second := generate0 lib lifetime meth (snd first) in
  fst second = fst first
  /\ snd second = snd first
  /\ match fst first with
     | Ok p => snd first = with_cached (Some p) g /\ cached (snd first) = Some p
     | _ => snd first = g
     end.
Proof.
  cbv zeta.
  destruct g as [a|a|a|a|a|a|a|a|a]; destruct a;
    try solve [cbn; repeat split | destruct meth; cbn; repeat split].
  - run_generate.
    destruct (mac2str lib dst_mac) eqn:E; run_generate; replay; repeat split.
  - run_generate.
    destruct (inet_pton6 lib dst_ipv6) as [v1| |] eqn:E1; run_generate; replay;
      try solve [repeat split].
    destruct (in6_getnsma lib v1) as [v2| |] eqn:E2; run_generate; replay;
      try solve [repeat split].
    destruct (inet_ntop6 lib v2) as [v3| |] eqn:E3; run_generate; replay;
      try solve [repeat split].
    destruct (in6_getnsmac lib v2) as [v4| |] eqn:E4; run_generate; replay;
      repeat split.
Qed.

(** C8. For a generator of any class built from a configuration with no
    ['get_local'] entry (so that the host is never asked), two calls of
    [generate()] with no override on the same instance end alike: the
    second returns the packet the first returned, hence the same bytes under
    any serialisation, and the instance changes only by the first call
    caching the packet. *)
Theorem generate_is_deterministic (lib : Library) (c : generator_class)
    (cfg : gmap string value) (g : generator) (lifetime : value)
    (meth : dot3_method) :
  explicit cfg -> new lib c cfg = Ok g ->
  let first := generate0 lib lifetime meth g in
  let second := generate0 lib lifetime meth (snd first) in
  (forall lib', new lib' c cfg = Ok g)
  /\ fst second = fst first
  /\ (forall raw : Packet -> list Z,
        map_result raw (fst second) = map_result raw (fst first))
  /\ snd second = snd first
  /\ match fst first with
     | Ok p => snd first = with_cached (Some p) g /\ cached (snd first) = Some p
     | _ => snd first = g
     end.
Proof.
  intros Hexp Hnew first second.
  destruct (generate0_twice lib lifetime meth g) as (Hres & Hsame & Hcache).
  fold first in Hres, Hsame, Hcache. fold second in Hres, Hsame.
  split; [| split; [| split; [| split]]].
  - intros lib'. now rewrite (new_explicit lib' lib c cfg Hexp).
  - exact Hres.
  - intros raw. now rewrite Hres.
  - exact Hsame.
  - exact Hcache.
Qed.

Lemma explicit_map_Forall (cfg : gmap string value) :
  map_Forall (fun _ v => v <> VStr GET_FROM_LOCAL_INTERFACE) cfg -> explicit cfg.
Proof. intros H k Hk. exact (H k _ Hk eq_refl). Qed.

Lemma dhcp_config_explicit : explicit dhcp_config.
Proof.
  apply explicit_map_Forall.
  unfold dhcp_config.
  repeat (apply map_Forall_insert_2; [discriminate |]).
  apply map_Forall_empty.
Defined.

Lemma generate_is_deterministic_witness :
  explicit dhcp_config /\
  new bare_library CDhcpOffer dhcp_config = Ok dhcp_generator /\
  fst (generate0 bare_library VNone Plain
         (snd (generate0 bare_library VNone Plain dhcp_generator)))
    = fst (generate0 bare_library VNone Plain dhcp_generator).
Proof.
  split; [exact dhcp_config_explicit |].
  split; [reflexivity |].
  destruct (generate_is_deterministic bare_library CDhcpOffer dhcp_config
              dhcp_generator VNone Plain dhcp_config_explicit eq_refl)
    as (_ & Hsame & _).
  exact Hsame.
Defined.

(** ** [generate_random_password] *)

Import hostapd_utils.

Lemma repeat_char_length (c : ascii) (n : nat) :
  String.length (repeat_char c n) = n.
Proof. induction n as [|n IH]; simpl; congruence. Qed.

Lemma const_str_returns_length (c : ascii) : returns_length (const_str c).
Proof. intros n r. apply repeat_char_length. Qed.

(** A length of [0] counts as no length: the default length is used,
    whatever the string generators are. *)
Lemma generate_random_password_zero {Rng}
    (rand_ascii_str rand_hex_str : Z -> Rng -> string * Rng)
    (security_mode : option string) (hex : option Z) :
  generate_random_password rand_ascii_str rand_hex_str security_mode (Some 0) hex =
  generate_random_password rand_ascii_str rand_hex_str security_mode None hex.
Proof. reflexivity. Qed.

(** C9, as stated: with the explicit length 0 the password has 8
    characters, not 0. *)
Lemma generate_random_password_length_zero :
  String.length
    (fst (generate_random_password (const_str "a") (const_str "f")
            None (Some 0) None tt)) = 8%nat.
Proof. reflexivity. Qed.

(** C9, amended.  Given string generators that return a string of the
    length asked for: with a security mode that lowers to ["wep"] and no
    length, the password has the WEP default length; with an explicit
    length [N > 0] it has length [N] whatever the security mode; with
    neither it has the minimum WPA-PSK length. *)
Theorem generate_random_password_length {Rng}
    (rand_ascii_str rand_hex_str : Z -> Rng -> string * Rng) :
  returns_length rand_ascii_str -> returns_length rand_hex_str ->
  (forall (security_mode : string) (hex : option Z) (r : Rng),
     lower security_mode = "wep" ->
     String.length
       (fst (generate_random_password rand_ascii_str rand_hex_str
               (Some security_mode) None hex r))
     = Z.to_nat hostapd_constants.WEP_DEFAULT_STR_LENGTH)
  /\ (forall (security_mode : option string) (N : Z) (hex : option Z) (r : Rng),
        0 < N ->
        Z.of_nat (String.length
          (fst (generate_random_password rand_ascii_str rand_hex_str
                  security_mode (Some N) hex r))) = N)
  /\ (forall (hex : option Z) (r : Rng),
        String.length
          (fst (generate_random_password rand_ascii_str rand_hex_str
                  None None hex r))
        = Z.to_nat hostapd_constants.MIN_WPA_PSK_LENGTH).
Proof.
  intros Hascii Hhex. split; [| split].
  - intros security_mode hex r Hwep.
    unfold generate_random_password. cbn [truthy_int default].
    assert (Hsm : truthy_str (Some security_mode) = true)
      by (destruct security_mode; [discriminate | reflexivity]).
    rewrite Hsm. cbn [default andb].
    rewrite bool_decide_eq_true_2 by exact Hwep.
    destruct (truthy_int hex); [apply Hhex | apply Hascii].
  - intros security_mode N hex r HN.
    unfold generate_random_password.
    assert (Hlen : truthy_int (Some N) = true)
      by (simpl; apply negb_true_iff, Z.eqb_neq; lia).
    rewrite Hlen. change (default 0 (Some N)) with N.
    destruct (truthy_int hex); [rewrite Hhex | rewrite Hascii]; lia.
  - intros hex r. unfold generate_random_password. cbn.
    destruct (truthy_int hex); [apply Hhex | apply Hascii].
Qed.

Lemma generate_random_password_length_witness :
  returns_length (const_str "a") /\ returns_length (const_str "f") /\
  String.length
    (fst (generate_random_password (const_str "a") (const_str "f")
            (Some "WeP") None None tt)) = 13%nat
  /\ Z.of_nat (String.length
       (fst (generate_random_password (const_str "a") (const_str "f")
               (Some "wep") (Some 20) (Some 1) tt))) = 20
  /\ String.length
       (fst (generate_random_password (const_str "a") (const_str "f")
               None None None tt)) = 8%nat.
Proof.
  split; [apply const_str_returns_length |].
  split; [apply const_str_returns_length |].
  destruct (generate_random_password_length (const_str "a") (const_str "f")
              (const_str_returns_length "a") (const_str_returns_length "f"))
    as (Hwep & Hlen & Hdefault).
  split; [| split].
  - apply (Hwep "WeP" None tt). reflexivity.
  - apply (Hlen (Some "wep") 20 (Some 1) tt). lia.
  - apply (Hdefault None tt).
Defined.

(** * Further properties *)

(** ** The sending loops under any outcome *)

Lemma transmissions_cons (o : obs) (t : list obs) :
  transmissions (o :: t) =
    ((if is_transmission o then 1 else 0) + transmissions t)%nat.
Proof.
  unfold transmissions. rewrite filter_cons.
  destruct (decide (is_transmission o = true)) as [H|H].
  - rewrite H. reflexivity.
  - destruct (is_transmission o); [congruence | reflexivity].
Qed.

Lemma transmissions_nil : transmissions [] = 0%nat.
Proof. reflexivity. Qed.

Lemma transmissions_le_1 (o : obs) : (transmissions [o] <= 1)%nat.
Proof.
  rewrite transmissions_cons, transmissions_nil.
  destruct (is_transmission o); simpl; lia.
Qed.

Lemma sys_eta (s : Sys) : mkSys (self s) (advance 0 [] (world s)) = s.
Proof. rewrite advance_0_nil. now destruct s. Qed.

(** Whatever the calls do, a sending loop of [n] turns ends: it makes at
    most [2 * n] calls, leaves at most [n] transmissions, and raises only
    what is not a socket error. *)
Lemma for_range_frame (tx : obs) (interval : Z) (n : nat) (s : Sys) :
  exists (m : nat) (tr : list obs) (r : result unit),
    for_range n (tx_iteration tx interval) s =
      (r, mkSys (self s) (advance m tr (world s))) /\
    r <> Hang /\ (m <= 2 * n)%nat /\ (transmissions tr <= n)%nat /\
    (forall e, r = Raised e -> is_socket_error e = false).
Proof.
  revert s. induction n as [|n IH]; intros s.
  - exists 0%nat, [], (Ok tt). cbn [for_range]. unfold ret. rewrite sys_eta.
    rewrite transmissions_nil.
    split; [reflexivity |]. split; [discriminate |]. split; [lia |].
    split; [lia |]. intros e He. discriminate He.
  - pose proof (transmissions_le_1 tx) as Htx.
    cbn [for_range]. unfold bind at 1.
    destruct (outcome (world s) 0) as [e|] eqn:H0.
    + rewrite (tx_iteration_tx_raises _ _ _ e H0).
      destruct (is_socket_error e) eqn:Hsock.
      * exists 1%nat, [caught e], (Ok tt).
        rewrite transmissions_cons, transmissions_nil.
        split; [reflexivity |]. split; [discriminate |]. split; [lia |].
        split; [simpl; lia |]. intros e' He'. discriminate He'.
      * exists 1%nat, [], (Raised e).
        rewrite transmissions_nil.
        split; [reflexivity |]. split; [discriminate |]. split; [lia |].
        split; [lia |]. intros e' [= <-]. exact Hsock.
    + destruct (outcome (world s) 1) as [e|] eqn:H1.
      * rewrite (tx_iteration_sleep_raises _ _ _ e H0 H1).
        destruct (is_socket_error e) eqn:Hsock.
        -- exists 2%nat, [caught e; tx], (Ok tt).
           rewrite transmissions_cons.
           split; [reflexivity |]. split; [discriminate |]. split; [lia |].
           split; [simpl; lia |]. intros e' He'. discriminate He'.
        -- exists 2%nat, [tx], (Raised e).
           split; [reflexivity |]. split; [discriminate |]. split; [lia |].
           split; [lia |]. intros e' [= <-]. exact Hsock.
      * rewrite (tx_iteration_returns _ _ _ H0 H1).
        destruct (IH (mkSys (self s) (advance 2 [Sleep interval; tx] (world s))))
          as (m & tr & r & Hrun & Hr & Hm & Htr & Hexc).
        exists (2 + m)%nat, (tr ++ [Sleep interval; tx])%list, r.
        rewrite Hrun. cbn [self world]. rewrite advance_advance.
        rewrite transmissions_app, (transmissions_cons (Sleep interval)).
        split; [reflexivity |]. split; [assumption |]. split; [lia |].
        split; [simpl; lia |]. assumption.
Qed.

(** X1. For every state, packet, count and interval, and whatever the
    external calls do, [send_ntimes] and [send_receive_ntimes] end without
    blocking, leave the sender object, the events and the workers as they
    were, send at most [ntimes] frames in at most [2 * ntimes] calls, and
    raise only what is not a socket error. *)
Theorem sending_loops_frame (s : Sys) (p : Packet) (ntimes interval : Z) :
  (exists (m : nat) (tr : list obs) (r : result unit),
     send_ntimes (Some p) ntimes interval s =
       (r, mkSys (self s) (advance m tr (world s))) /\
     r <> Hang /\ (m <= 2 * Z.to_nat ntimes)%nat /\
     (transmissions tr <= Z.to_nat ntimes)%nat /\
     (forall e, r = Raised e -> is_socket_error e = false))
  /\ (exists (m : nat) (tr : list obs) (r : result unit),
     send_receive_ntimes (Some p) ntimes interval s =
       (r, mkSys (self s) (advance m tr (world s))) /\
     r <> Hang /\ (m <= 2 * Z.to_nat ntimes)%nat /\
     (transmissions tr <= Z.to_nat ntimes)%nat /\
     (forall e, r = Raised e -> is_socket_error e = false)).
Proof.
  split.
  - rewrite send_ntimes_loop. apply for_range_frame.
  - rewrite send_receive_ntimes_loop. apply for_range_frame.
Qed.

(** X2. A count of zero or less is accepted: nothing is sent, no call is
    made and the state is what it was. *)
Theorem sending_loops_nonpositive (s : Sys) (p : Packet) (ntimes interval : Z) :
  ntimes <= 0 ->
  send_ntimes (Some p) ntimes interval s = (Ok tt, s)
  /\ send_receive_ntimes (Some p) ntimes interval s = (Ok tt, s).
Proof.
  intros Hle. rewrite send_ntimes_loop, send_receive_ntimes_loop.
  replace (Z.to_nat ntimes) with 0%nat by lia.
  split; reflexivity.
Qed.

Lemma sending_loops_nonpositive_witness :
  -3 <= 0 /\
  send_ntimes (Some sample_packet) (-3) 1
    (facing [Some (SocketError 1)] fresh_sys)
    = (Ok tt, facing [Some (SocketError 1)] fresh_sys).
Proof.
  split; [lia |].
  apply (sending_loops_nonpositive (facing [Some (SocketError 1)] fresh_sys)
           sample_packet (-3) 1).
  lia.
Defined.

Lemma transmissions_calls_odd (tx : obs) (interval : Z) (k : nat) :
  is_transmission tx = true ->
  transmissions (calls tx interval (Datatypes.S (2 * k))) = Datatypes.S k.
Proof.
  intros Htx. induction k as [|k IH].
  - change (2 * 0)%nat with 0%nat. cbn [calls].
    rewrite transmissions_cons, transmissions_nil, Htx. reflexivity.
  - replace (Datatypes.S (2 * Datatypes.S k))
      with (Datatypes.S (Datatypes.S (Datatypes.S (2 * k)))) by lia.
    change (calls tx interval (Datatypes.S (Datatypes.S (Datatypes.S (2 * k)))))
      with (calls tx interval (Datatypes.S (2 * k)) ++ [Sleep interval; tx])%list.
    rewrite transmissions_app, IH, !transmissions_cons, transmissions_nil, Htx.
    simpl. lia.
Qed.

(** X3. The sleep is inside the [try] as well.  When the sleep of turn [k]
    raises, the frame of that turn has left: [k + 1] frames were sent.  A
    socket error is logged and ends the loop with a normal return; any other
    exception, such as the [ValueError] of a negative interval, reaches the
    caller.  The sender object is unchanged. *)
Theorem sleep_raises_after_send (s : Sys) (p : Packet) (interval : Z)
    (n k : nat) (e : exn) :
  (k < n)%nat -> calm (world s) (Datatypes.S (2 * k)) ->
  outcome (world s) (Datatypes.S (2 * k)) = Some e ->
  let iface := interface (self s) in
  let after tr := mkSys (self s) (advance (2 * k + 2) tr (world s)) in
  (send_ntimes (Some p) (Z.of_nat n) interval s =
     if is_socket_error e
     then (Ok tt, after (caught e :: calls (Sendp p iface) interval (Datatypes.S (2 * k))))
     else (Raised e, after (calls (Sendp p iface) interval (Datatypes.S (2 * k)))))
  /\ transmissions (calls (Sendp p iface) interval (Datatypes.S (2 * k))) = Datatypes.S k
  /\ (send_receive_ntimes (Some p) (Z.of_nat n) interval s =
     if is_socket_error e
     then (Ok tt, after (caught e :: calls (Srp1 p iface interval) interval
                                       (Datatypes.S (2 * k))))
     else (Raised e, after (calls (Srp1 p iface interval) interval (Datatypes.S (2 * k)))))
  /\ transmissions (calls (Srp1 p iface interval) interval (Datatypes.S (2 * k)))
     = Datatypes.S k.
Proof.
  intros Hk Hcalm He iface after. unfold after.
  replace (2 * k + 2)%nat with (Datatypes.S (Datatypes.S (2 * k))) by lia.
  rewrite send_ntimes_loop, send_receive_ntimes_loop, Nat2Z.id.
  rewrite !(for_range_raises _ _ e n (Datatypes.S (2 * k))) by (assumption || lia).
  rewrite !transmissions_calls_odd by reflexivity.
  repeat split.
Qed.

Lemma sleep_raises_after_send_witness :
  let s := facing [None; Some (ValueError "sleep length must be non-negative")]
             fresh_sys in
  fst (send_ntimes (Some sample_packet) 3 (-1) s)
    = Raised (ValueError "sleep length must be non-negative")
  /\ transmissions (trace (world (snd (send_ntimes (Some sample_packet) 3 (-1) s))))
     = 1%nat.
Proof.
  intros s.
  destruct (sleep_raises_after_send s sample_packet (-1) 3 0
              (ValueError "sleep length must be non-negative")) as (Hsend & _).
  - lia.
  - intros j Hj. destruct j as [|j]; [reflexivity | lia].
  - reflexivity.
  - change (Z.of_nat 3) with 3 in Hsend. rewrite Hsend. split; reflexivity.
Defined.

(** ** Stopping is prompt *)

(** With the stop signal set, a step does not add to the frames sent plus
    the frames still to be sent. *)
Lemma transition_sends_left (q : ThreadSendPacket) (w w' : World) (pc' : pstate) :
  transition q w pc' w' ->
  is_set (tsp_stop_signal q) w = true ->
  (transmissions (trace w') + sends_left pc'
   <= transmissions (trace w) + sends_left (tsp_pc q))%nat.
Proof.
  intros Ht Hset.
  inversion Ht as [H|H ?|H Hclear|H ?|? H ?|H ?|? H ?]; subst; rewrite H;
    try congruence; cbn [advance trace app sends_left];
    try rewrite transmissions_cons; simpl; lia.
Qed.

(** A run of [join] on a launched worker whose stop signal is set, the
    joined worker alone being followed: it returns, the worker has ended,
    no event has changed, and the steps of the run have touched no other
    entry of the table of workers and left at most the frame that was
    about to leave. *)
Lemma Process_join_frame (fuel pid : nat) (q : ThreadSendPacket) (w : World) :
  procs w !! pid = Some q -> launched (tsp_pc q) = true ->
  is_set (tsp_stop_signal q) w = true ->
  (remaining (tsp_pc q) <= fuel)%nat ->
  exists pc' w',
    Process_join fuel pid w = (Ok tt, w') /\
    procs w' = <[pid := at_pc pc' q]> (procs w) /\
    (pc' = Stopped \/ pc' = Failed) /\
    events w' = events w /\ next_pid w' = next_pid w /\
    next_event w' = next_event w /\
    (transmissions (trace w') <= transmissions (trace w) + sends_left (tsp_pc q))%nat.
Proof.
  revert q w. induction fuel as [|fuel IH]; intros q w Hq Hlaunched Hset Hfuel.
  - assert (Hdead : alive (tsp_pc q) = false)
      by (destruct (tsp_pc q); simpl in *; try reflexivity; lia).
    exists (tsp_pc q), w. rewrite Process_join_unfold, Hq, at_pc_same.
    rewrite (insert_id _ _ _ Hq).
    destruct (launched_ended _ Hlaunched Hdead) as [Hpc|Hpc]; rewrite Hpc;
      repeat split; auto; lia.
  - destruct (alive (tsp_pc q)) eqn:Halive.
    + destruct (worker_step_alive pid q w Hq Halive) as (pc1 & w1 & Ht & Hstep).
      pose proof (transition_remaining _ _ _ _ Ht Hset) as Hless.
      pose proof (transition_sends_left _ _ _ _ Ht Hset) as Hsends.
      destruct (transition_frame _ _ _ _ Ht) as (_ & Hl1 & Hev1 & Hpr1 & Hnp1 & Hne1).
      destruct (IH (at_pc pc1 q) (worker_step pid w))
        as (pc2 & w2 & Hjoin & Hpr2 & Hend & Hev2 & Hnp2 & Hne2 & Htr2).
      * rewrite Hstep. simpl. now rewrite lookup_insert_eq.
      * exact Hl1.
      * rewrite Hstep. unfold is_set in *. simpl. now rewrite Hev1.
      * simpl. lia.
      * rewrite Hstep in Hpr2, Hne2, Htr2.
        cbn [set_proc procs next_event trace at_pc tsp_pc] in Hpr2, Hne2, Htr2.
        rewrite Hpr1, insert_insert_eq in Hpr2. rewrite Hne1 in Hne2.
        exists pc2, w2. rewrite Process_join_unfold, Hq.
        rewrite Hev2, Hnp2, worker_step_events, worker_step_next_pid.
        destruct (tsp_pc q); try discriminate; repeat split; auto; lia.
    + exists (tsp_pc q), w. rewrite Process_join_unfold, Hq, at_pc_same.
      rewrite (insert_id _ _ _ Hq).
      destruct (launched_ended _ Hlaunched Halive) as [Hpc|Hpc]; rewrite Hpc;
        repeat split; auto; lia.
Qed.

(** [stop_sending] on an active sender, once [join] is known to return with
    the worker ended. *)
Lemma stop_sending_unfold (s : Sys) (fuel pid : nat) (q1 : ThreadSendPacket)
    (w1 : World) (ignore_status : bool) :
  thread_active (self s) = true -> thread_send (self s) = Some pid ->
  Process_join fuel pid (set_event (stop_signal (self s)) true (world s)) = (Ok tt, w1) ->
  procs w1 !! pid = Some q1 -> alive (tsp_pc q1) = false ->
  stop_sending fuel ignore_status s =
    (Ok tt, mkSys (stopped (self s)) (set_event (stop_signal (self s)) false w1)).
Proof.
  intros Hactive Hthread Hjoin Hq1 Hdead.
  unfold stop_sending, bind at 1, gets at 1. rewrite Hactive. cbn [negb].
  unfold bind at 1, gets at 1.
  unfold bind at 1, liftW at 1, Event_set, modify. cbn [self world].
  unfold bind at 1, on_thread_send at 1, bind at 1, gets at 1. cbn [self world].
  rewrite Hthread. unfold liftW at 1. cbn [self world]. rewrite Hjoin.
  unfold bind at 1, on_thread_send at 1, bind at 1, gets at 1. cbn [self world].
  rewrite Hthread. unfold liftW at 1, Process_is_alive. cbn [self world].
  rewrite Hq1, Hdead.
  reflexivity.
Qed.

(** What a run of [stop_sending] does to an active sender and to the
    world, its worker alone being followed during [join]. *)
Lemma stop_sending_active_world (s : Sys) (fuel pid : nat)
    (q : ThreadSendPacket) (ignore_status : bool) :
  thread_active (self s) = true -> thread_send (self s) = Some pid ->
  procs (world s) !! pid = Some q -> launched (tsp_pc q) = true ->
  tsp_stop_signal q = stop_signal (self s) -> (3 <= fuel)%nat ->
  exists pc' w',
    stop_sending fuel ignore_status s = (Ok tt, mkSys (stopped (self s)) w') /\
    (transmissions (trace w')
     <= transmissions (trace (world s)) + sends_left (tsp_pc q))%nat /\
    procs w' = <[pid := at_pc pc' q]> (procs (world s)) /\
    (pc' = Stopped \/ pc' = Failed) /\
    events w' = <[stop_signal (self s) := false]> (events (world s)) /\
    next_pid w' = next_pid (world s) /\ next_event w' = next_event (world s).
Proof.
  intros Hactive Hthread Hq Hlaunched Hsignal Hfuel.
  destruct (Process_join_frame fuel pid q
              (set_event (stop_signal (self s)) true (world s)))
    as (pc' & w1 & Hjoin & Hpr & Hend & Hev & Hnp & Hne & Htr).
  - exact Hq.
  - exact Hlaunched.
  - rewrite Hsignal. apply is_set_set_event.
  - destruct (tsp_pc q); simpl; lia.
  - exists pc', (set_event (stop_signal (self s)) false w1).
    split.
    { apply (stop_sending_unfold s fuel pid (at_pc pc' q)); auto.
      - rewrite Hpr. apply lookup_insert_eq.
      - destruct Hend as [-> | ->]; reflexivity. }
    cbn [set_event trace procs events next_pid next_event] in *.
    rewrite Hev, insert_insert_eq.
    repeat split; auto.
Qed.

(** A step of another worker leaves the worker [pid] where it is. *)
Lemma worker_step_other (x pid : nat) (w : World) :
  x <> pid -> procs (worker_step x w) !! pid = procs w !! pid.
Proof.
  intros Hne. destruct (procs w !! x) as [q1|] eqn:Hq.
  - destruct (alive (tsp_pc q1)) eqn:Halive.
    + destruct (worker_step_alive x q1 w Hq Halive) as (pc' & w' & Ht & ->).
      apply transition_frame in Ht. destruct Ht as (_ & _ & _ & Hprocs & _).
      simpl. rewrite Hprocs. now rewrite lookup_insert_ne.
    + now rewrite (worker_step_ended x q1 w).
  - now rewrite worker_step_unknown.
Qed.

(** No step takes a frame back. *)
Lemma transition_sent_grows (q : ThreadSendPacket) (w w' : World) (pc' : pstate) :
  transition q w pc' w' ->
  (transmissions (trace w) <= transmissions (trace w'))%nat.
Proof.
  intros Ht.
  inversion Ht as [H|H ?|H ?|H ?|? H ?|H ?|? H ?]; subst;
    cbn [advance trace app]; try rewrite transmissions_cons; lia.
Qed.

Lemma remaining_ended (pc : pstate) : alive pc = false -> remaining pc = 0%nat.
Proof. destruct pc; simpl; intros H; now try discriminate. Qed.

Lemma launched_remaining (pc : pstate) :
  launched pc = true -> remaining pc = 0%nat -> pc = Stopped \/ pc = Failed.
Proof. destruct pc; simpl; intros; try discriminate; auto. Qed.

Lemma turns_cons (pid x : nat) (l : list nat) :
  turns pid (x :: l) = ((if decide (x = pid) then 1 else 0) + turns pid l)%nat.
Proof. unfold turns. rewrite filter_cons. now destruct (decide (x = pid)). Qed.

(** A launched worker whose stop signal is set, under any schedule of the
    workers: its own steps bring it nearer to the end and send no more than
    the frame that was about to leave, and the steps of the others neither
    move it nor clear the signal. *)
Lemma signalled_under_schedule (l : list nat) (pid : nat) (q : ThreadSendPacket)
    (w : World) :
  procs w !! pid = Some q -> launched (tsp_pc q) = true ->
  is_set (tsp_stop_signal q) w = true ->
  exists pc',
    procs (schedule l w) !! pid = Some (at_pc pc' q) /\ launched pc' = true /\
    (sent_by pid l w + sends_left pc' <= sends_left (tsp_pc q))%nat /\
    (remaining pc' <= remaining (tsp_pc q) - turns pid l)%nat.
Proof.
  revert q w. induction l as [|x l IH]; intros q w Hq Hlaunched Hset.
  - exists (tsp_pc q). rewrite at_pc_same. cbn. repeat split; auto; lia.
  - change (schedule (x :: l) w) with (schedule l (worker_step x w)).
    cbn [sent_by]. rewrite turns_cons.
    destruct (decide (x = pid)) as [->|Hne].
    + destruct (alive (tsp_pc q)) eqn:Halive.
      * destruct (worker_step_alive pid q w Hq Halive) as (pc1 & w1 & Ht & Hstep).
        pose proof (transition_remaining _ _ _ _ Ht Hset) as Hless.
        pose proof (transition_sends_left _ _ _ _ Ht Hset) as Hsends.
        pose proof (transition_sent_grows _ _ _ _ Ht) as Hgrows.
        destruct (transition_frame _ _ _ _ Ht) as (_ & Hl1 & Hev1 & _).
        destruct (IH (at_pc pc1 q) (worker_step pid w))
          as (pc2 & Hq2 & Hl2 & Hsent & Hrem).
        { rewrite Hstep. simpl. now rewrite lookup_insert_eq. }
        { exact Hl1. }
        { rewrite Hstep. unfold is_set in *. simpl. now rewrite Hev1. }
        exists pc2. rewrite Hq2, at_pc_at_pc.
        assert (Htr : trace (worker_step pid w) = trace w1) by now rewrite Hstep.
        rewrite Htr. cbn [at_pc tsp_pc] in Hsent, Hrem.
        repeat split; auto; lia.
      * rewrite (worker_step_ended pid q w Hq Halive).
        destruct (IH q w Hq Hlaunched Hset) as (pc2 & Hq2 & Hl2 & Hsent & Hrem).
        pose proof (remaining_ended _ Halive) as Hzero.
        exists pc2. repeat split; auto; lia.
    + destruct (IH q (worker_step x w)) as (pc2 & Hq2 & Hl2 & Hsent & Hrem).
      { now rewrite worker_step_other. }
      { exact Hlaunched. }
      { unfold is_set in *. now rewrite worker_step_events. }
      exists pc2. repeat split; auto; lia.
Qed.

(** No schedule of the workers changes an event. *)
Lemma schedule_events (l : list nat) (w : World) :
  events (schedule l w) = events w.
Proof.
  revert w. induction l as [|x l IH]; intros w; [reflexivity |].
  change (schedule (x :: l) w) with (schedule l (worker_step x w)).
  now rewrite IH, worker_step_events.
Qed.

(** X4. Stopping is prompt.  [stop_sending] on an active sender whose
    worker was launched and polls the sender's own stop signal (also a
    worker that has already ended), with either value of [ignore_status]
    and [join] followed for three steps or more: it returns, the sender is
    idle with no handle, its worker has ended at [Stopped] or [Failed], and
    its stop signal is clear again while every other event is what it was.
    And from the moment the signal is set, whatever the scheduler does with
    this worker and with the others, in any order [l]: the steps of this
    worker send at most one more frame, and only when it was about to send;
    no event changes; and once the worker has had three turns it has ended,
    at [Stopped] or at [Failed]. *)
Theorem stop_sending_is_prompt (s : Sys) (fuel pid : nat)
    (q : ThreadSendPacket) (ignore_status : bool) (l : list nat) :
  thread_active (self s) = true -> thread_send (self s) = Some pid ->
  procs (world s) !! pid = Some q -> launched (tsp_pc q) = true ->
  tsp_stop_signal q = stop_signal (self s) -> (3 <= fuel)%nat ->
  let signalled := set_event (stop_signal (self s)) true (world s) in
  (exists pc' w',
     stop_sending fuel ignore_status s = (Ok tt, mkSys (stopped (self s)) w') /\
     procs w' !! pid = Some (at_pc pc' q) /\
     (pc' = Stopped \/ pc' = Failed) /\
     events w' = <[stop_signal (self s) := false]> (events (world s)))
  /\ (sent_by pid l signalled <= sends_left (tsp_pc q))%nat
  /\ events (schedule l signalled) = events signalled
  /\ ((3 <= turns pid l)%nat ->
      exists pc',
        procs (schedule l signalled) !! pid = Some (at_pc pc' q) /\
        (pc' = Stopped \/ pc' = Failed)).
Proof.
  intros Hactive Hthread Hq Hlaunched Hsignal Hfuel signalled.
  split.
  - destruct (stop_sending_active_world s fuel pid q ignore_status
                Hactive Hthread Hq Hlaunched Hsignal Hfuel)
      as (pc' & w' & Hstop & _ & Hprocs & Hend & Hev & _).
    exists pc', w'. split; [exact Hstop |].
    split; [rewrite Hprocs; apply lookup_insert_eq |].
    split; [exact Hend | exact Hev].
  - destruct (signalled_under_schedule l pid q signalled)
      as (pc' & Hq' & Hl' & Hsent & Hrem).
    { exact Hq. }
    { exact Hlaunched. }
    { rewrite Hsignal. apply is_set_set_event. }
    split; [lia |]. split; [apply schedule_events |].
    intros Hturns. exists pc'. split; [exact Hq' |].
    apply launched_remaining; [exact Hl' |].
    assert (remaining (tsp_pc q) <= 3)%nat by (destruct (tsp_pc q); simpl; lia).
    lia.
Qed.

Lemma stop_sending_is_prompt_witness :
  let s := mkSys (self sending_sys) (schedule [0; 0]%nat (world sending_sys)) in
  let signalled := set_event 0 true (world s) in
  pc_of 0 (world s) = Some AtSend
  /\ (exists w', stop_sending 3 false s = (Ok tt, mkSys (stopped (self s)) w'))
  /\ (sent_by 0 [0; 1; 0; 0]%nat signalled <= 1)%nat
  /\ (exists pc',
        pc_of 0 (schedule [0; 1; 0; 0]%nat signalled) = Some pc' /\
        (pc' = Stopped \/ pc' = Failed)).
Proof.
  intros s signalled. split; [reflexivity |].
  destruct (stop_sending_is_prompt s 3 0 (at_pc AtSend sample_worker) false
              [0; 1; 0; 0]%nat eq_refl eq_refl eq_refl eq_refl eq_refl (le_n 3))
    as ((pc1 & w' & Hstop & _) & Hsent & _ & Hended).
  split; [exists w'; exact Hstop |].
  split; [exact Hsent |].
  destruct Hended as (pc' & Hq' & Hend); [vm_compute; lia |].
  exists pc'. split; [| exact Hend].
  exact (f_equal (fmap tsp_pc) Hq').
Defined.

(** ** A worker does not stop by itself *)

(** The stop signal clear and every call returning: a live worker is still
    alive after its step, the signal is still clear, and every coming call
    still returns. *)
Lemma worker_step_keeps_running (pid : nat) (q : ThreadSendPacket) (w : World) :
  procs w !! pid = Some q -> alive (tsp_pc q) = true ->
  is_set (tsp_stop_signal q) w = false -> (forall j, outcome w j = None) ->
  exists pc',
    procs (worker_step pid w) !! pid = Some (at_pc pc' q) /\ alive pc' = true /\
    is_set (tsp_stop_signal q) (worker_step pid w) = false /\
    (forall j, outcome (worker_step pid w) j = None).
Proof.
  intros Hq Halive Hclear Hcalm.
  destruct (worker_step_alive pid q w Hq Halive) as (pc' & w' & Ht & ->).
  exists pc'. cbn [set_proc procs]. rewrite lookup_insert_eq.
  inversion Ht as [H|H Hset|H ?|H ?|e H He|H ?|e H He]; subst;
    unfold is_set, outcome in *; cbn [set_proc events oracle];
    try (rewrite Hclear in Hset; discriminate Hset);
    try (rewrite (Hcalm 0%nat) in He; discriminate He);
    cbn [advance events oracle]; repeat split; auto;
    try (intros j; rewrite ?lookup_drop; apply Hcalm).
Qed.

Lemma worker_steps_add (a b pid : nat) (w : World) :
  worker_steps (a + b) pid w = worker_steps b pid (worker_steps a pid w).
Proof.
  revert w. induction a as [|a IH]; intros w; [reflexivity |].
  cbn [worker_steps Nat.add]. apply IH.
Qed.

(** One turn of the loop, from the poll back to the poll. *)
Lemma worker_turn_from_poll (pid : nat) (q : ThreadSendPacket) (w : World) :
  procs w !! pid = Some q -> tsp_pc q = AtPoll ->
  is_set (tsp_stop_signal q) w = false -> (forall j, outcome w j = None) ->
  worker_steps 3 pid w =
    set_proc pid (at_pc AtPoll q)
      (advance 2 [Sleep (tsp_interval q); Sendp (tsp_packet q) (tsp_interface q)] w).
Proof.
  intros Hq Hpc Hclear Hcalm.
  cbn [worker_steps].
  rewrite (worker_step_of_transition pid q w w AtSend Hq) by now apply t_polled.
  set (w1 := set_proc pid (at_pc AtSend q) w).
  set (sent := Sendp (tsp_packet q) (tsp_interface q)).
  assert (H0 : outcome w1 0 = None) by apply Hcalm.
  rewrite (worker_step_of_transition pid (at_pc AtSend q) w1
             (advance 1 [sent] w1) AtSleep);
    [| simpl; apply lookup_insert_eq | exact (t_sent (at_pc AtSend q) w1 eq_refl H0)].
  set (w2 := set_proc pid (at_pc AtSleep (at_pc AtSend q)) (advance 1 [sent] w1)).
  assert (H1 : outcome w2 0 = None).
  { unfold outcome. simpl. rewrite lookup_drop. apply (Hcalm 1%nat). }
  rewrite (worker_step_of_transition pid (at_pc AtSleep q) w2
             (advance 1 [Sleep (tsp_interval q)] w2) AtPoll);
    [| simpl; apply lookup_insert_eq | exact (t_slept (at_pc AtSleep q) w2 eq_refl H1)].
  unfold w2, w1, set_proc, advance, at_pc. simpl.
  rewrite !insert_insert_eq, drop_drop. reflexivity.
Qed.

(** X5. The [run] loop has no exit of its own.  With the stop signal clear
    and every external call returning, a live worker is alive after any
    number of steps, [join] on it does not return however long it is
    followed, and from the poll every three steps send one more frame. *)
Theorem run_never_ends_unsignalled (pid : nat) (q : ThreadSendPacket) (w : World) :
  procs w !! pid = Some q -> alive (tsp_pc q) = true ->
  is_set (tsp_stop_signal q) w = false -> (forall j, outcome w j = None) ->
  (forall n, exists pc',
     procs (worker_steps n pid w) !! pid = Some (at_pc pc' q) /\ alive pc' = true)
  /\ (forall fuel, fst (Process_join fuel pid w) = Hang)
  /\ (tsp_pc q = AtPoll ->
      forall k, transmissions (trace (worker_steps (3 * k) pid w))
                = (transmissions (trace w) + k)%nat).
Proof.
  intros Hq Halive Hclear Hcalm. split; [| split].
  - intros n. revert q w Hq Halive Hclear Hcalm.
    induction n as [|n IH]; intros q w Hq Halive Hclear Hcalm.
    + exists (tsp_pc q). now rewrite at_pc_same.
    + destruct (worker_step_keeps_running pid q w Hq Halive Hclear Hcalm)
        as (pc1 & Hq1 & Halive1 & Hclear1 & Hcalm1).
      destruct (IH (at_pc pc1 q) _ Hq1 Halive1 Hclear1 Hcalm1) as (pc2 & Hq2 & Halive2).
      exists pc2. cbn [worker_steps]. now rewrite Hq2.
  - intros fuel. revert q w Hq Halive Hclear Hcalm.
    induction fuel as [|fuel IH]; intros q w Hq Halive Hclear Hcalm;
      rewrite Process_join_unfold, Hq.
    + destruct (tsp_pc q); try discriminate; reflexivity.
    + destruct (worker_step_keeps_running pid q w Hq Halive Hclear Hcalm)
        as (pc1 & Hq1 & Halive1 & Hclear1 & Hcalm1).
      pose proof (IH (at_pc pc1 q) _ Hq1 Halive1 Hclear1 Hcalm1) as Hhang.
      destruct (tsp_pc q); try discriminate; exact Hhang.
  - intros Hpc k. revert q w Hq Halive Hclear Hcalm Hpc.
    induction k as [|k IH]; intros q w Hq Halive Hclear Hcalm Hpc.
    + simpl. lia.
    + replace (3 * Datatypes.S k)%nat with (3 + 3 * k)%nat by lia.
      rewrite worker_steps_add, (worker_turn_from_poll pid q w) by assumption.
      rewrite (IH (at_pc AtPoll q)).
      * cbn [set_proc advance trace app]. rewrite !transmissions_cons. simpl. lia.
      * simpl. apply lookup_insert_eq.
      * reflexivity.
      * unfold is_set in *. simpl. exact Hclear.
      * intros j. unfold outcome. simpl. rewrite lookup_drop. apply Hcalm.
      * reflexivity.
Qed.

Lemma run_never_ends_unsignalled_witness :
  (forall fuel, fst (Process_join fuel 0 (world sending_sys)) = Hang)
  /\ transmissions (trace (worker_steps 1 0 (world sending_sys))) = 0%nat.
Proof.
  destruct (run_never_ends_unsignalled 0 sample_worker (world sending_sys))
    as (_ & Hhang & _).
  - reflexivity.
  - reflexivity.
  - reflexivity.
  - intros j. unfold outcome. simpl. now destruct j.
  - split; [exact Hhang | reflexivity].
Defined.

(** ** The sender and the world stay in agreement *)

(** [sender_ok] depends on the sender object, on the events and on the
    workers only as far as they stay launched. *)
Lemma sender_ok_frame (me : PacketSender) (w w' : World) :
  sender_ok (mkSys me w) -> events w' = events w ->
  (forall pid q, procs w !! pid = Some q ->
     exists pc', procs w' !! pid = Some (at_pc pc' q) /\
                 (launched (tsp_pc q) = true -> launched pc' = true)) ->
  sender_ok (mkSys me w').
Proof.
  intros [Hclear Hshape] Hev Hprocs. split.
  - unfold is_set in *. cbn [self world] in *. now rewrite Hev.
  - cbn [self world] in *.
    destruct (thread_active me), (thread_send me) as [pid|]; try assumption.
    destruct Hshape as (q & Hq & Hl & Hsig).
    destruct (Hprocs pid q Hq) as (pc' & Hq' & Hl').
    exists (at_pc pc' q). split; [exact Hq' |]. split; [now apply Hl' | exact Hsig].
Qed.

Lemma procs_kept (w : World) (pid : nat) (q : ThreadSendPacket) :
  procs w !! pid = Some q ->
  exists pc', procs w !! pid = Some (at_pc pc' q) /\
              (launched (tsp_pc q) = true -> launched pc' = true).
Proof. intros Hq. exists (tsp_pc q). now rewrite at_pc_same. Qed.

(** One action from a state in agreement: it ends, the state after it is in
    agreement, and the sender keeps its interface and its stop signal. *)
Lemma run_action_ok (fuel : nat) (c : action) (s : Sys) :
  sender_ok s -> (3 <= fuel)%nat ->
  exists r s',
    run_action fuel c s = (r, s') /\ r <> Hang /\ sender_ok s' /\
    interface (self s') = interface (self s) /\
    stop_signal (self s') = stop_signal (self s).
Proof.
  intros Hok Hfuel.
  destruct c as [pkt n i|pkt n i|pkt i|ignore_status|pid]; cbn [run_action].
  - destruct pkt as [p|].
    + rewrite send_ntimes_loop.
      destruct (for_range_frame (Sendp p (interface (self s))) i (Z.to_nat n) s)
        as (m & tr & r & -> & Hr & _).
      eexists _, _. split; [reflexivity |]. split; [exact Hr |].
      split; [| split; reflexivity].
      destruct s as [me w]. apply (sender_ok_frame me w); auto using procs_kept.
    + eexists _, _. split; [reflexivity |]. split; [discriminate |]. auto.
  - destruct pkt as [p|].
    + rewrite send_receive_ntimes_loop.
      destruct (for_range_frame (Srp1 p (interface (self s)) i) i (Z.to_nat n) s)
        as (m & tr & r & -> & Hr & _).
      eexists _, _. split; [reflexivity |]. split; [exact Hr |].
      split; [| split; reflexivity].
      destruct s as [me w]. apply (sender_ok_frame me w); auto using procs_kept.
    + eexists _, _. split; [reflexivity |]. split; [discriminate |]. auto.
  - destruct pkt as [p|].
    + destruct (thread_active (self s)) eqn:Hactive.
      * eexists _, _. split.
        { unfold start_sending, bind, gets, raise. rewrite Hactive. reflexivity. }
        split; [discriminate |]. auto.
      * rewrite (start_sending_idle s p i Hactive).
        eexists _, _. split; [reflexivity |]. split; [discriminate |].
        split; [| split; reflexivity].
        destruct Hok as [Hclear _]. split; [exact Hclear |].
        cbn [started self world thread_active thread_send procs stop_signal].
        eexists. split; [apply lookup_insert_eq |]. split; reflexivity.
    + eexists _, _. split; [reflexivity |]. split; [discriminate |]. auto.
  - destruct (thread_active (self s)) eqn:Hactive.
    + pose proof Hok as [Hclear Hshape]. rewrite Hactive in Hshape.
      destruct (thread_send (self s)) as [pid|] eqn:Hthread; [| contradiction].
      destruct Hshape as (q & Hq & Hl & Hsig).
      destruct (stop_sending_active_world s fuel pid q ignore_status
                  Hactive Hthread Hq Hl Hsig Hfuel)
        as (pc' & w' & -> & _ & _ & _ & Hev & _).
      eexists _, _. split; [reflexivity |]. split; [discriminate |].
      split; [| split; reflexivity].
      split; [| exact I].
      unfold is_set. cbn [self world stopped stop_signal].
      now rewrite Hev, lookup_insert_eq.
    + destruct ignore_status; eexists _, _;
        (split; [unfold stop_sending, bind, gets, raise, ret; rewrite Hactive;
                 reflexivity |]);
        (split; [discriminate |]); auto.
  - eexists _, _. split; [reflexivity |]. split; [discriminate |].
    split; [| split; reflexivity].
    destruct s as [me w]. cbn [self world].
    apply (sender_ok_frame me w); [exact Hok | apply worker_step_events |].
    intros pid0 q0 Hq0. apply worker_step_lookup. exact Hq0.
Qed.

(** The constructor leaves the sender in agreement with the world. *)
Lemma PacketSender_init_ok (ifname : string) (w : World) :
  exists me w',
    PacketSender_init ifname w = (Ok me, w') /\ sender_ok (mkSys me w') /\
    interface me = ifname /\ thread_active me = false /\ thread_send me = None.
Proof.
  eexists _, _. split; [reflexivity |].
  split; [| repeat split].
  split; [| exact I].
  unfold is_set. cbn. now rewrite lookup_insert_eq.
Qed.

(** X6. From a sender that agrees with the world (as the constructor leaves
    it), any sequence of calls of [send_ntimes], [send_receive_ntimes],
    [start_sending] and [stop_sending], with any arguments, interleaved
    with any steps of any workers and going on after every exception: no
    call blocks (with [join] followed for three steps or more), the sender
    agrees with the world at the end (stop signal clear; idle with no
    handle, or active with a launched worker on its own stop signal), and
    the sender still has the interface and the stop signal it was made
    with. *)
Theorem sender_stays_consistent (fuel : nat) (cs : list action) (s : Sys) :
  sender_ok s -> (3 <= fuel)%nat ->
  Forall (fun r => r <> Hang) (fst (run_actions fuel cs s))
  /\ sender_ok (snd (run_actions fuel cs s))
  /\ interface (self (snd (run_actions fuel cs s))) = interface (self s)
  /\ stop_signal (self (snd (run_actions fuel cs s))) = stop_signal (self s).
Proof.
  intros Hok Hfuel. revert s Hok.
  induction cs as [|c cs IH]; intros s Hok.
  - cbn. split; [apply Forall_nil_2 |]. split; [exact Hok |]. split; reflexivity.
  - cbn [run_actions].
    destruct (run_action_ok fuel c s Hok Hfuel) as (r & s1 & -> & Hr & Hok1 & Hif & Hsig).
    destruct (IH s1 Hok1) as (Hrs & Hok2 & Hif2 & Hsig2).
    destruct (run_actions fuel cs s1) as [rs s2]. cbn [fst snd] in *.
    split; [apply Forall_cons_2; assumption |].
    split; [exact Hok2 |]. split; congruence.
Qed.

Lemma sender_stays_consistent_witness :
  sender_ok fresh_sys /\
  sender_ok (snd (run_actions 3
    [start_sending_call (Some sample_packet) 1; worker_turn 0; worker_turn 0;
     start_sending_call (Some sample_packet) 1; stop_sending_call false;
     stop_sending_call false; send_ntimes_call (Some sample_packet) 2 1]
    fresh_sys)).
Proof.
  assert (Hok : sender_ok fresh_sys) by (split; [reflexivity | exact I]).
  split; [exact Hok |].
  apply (sender_stays_consistent 3 _ fresh_sys Hok). lia.
Defined.

(** ** [create], [get_info] and [destroy] *)

(** X7. [create] on any list of interface names, in any world: it returns
    one sender per name, [get_info] of the result gives the names back in
    order, every sender is idle with no packet and no handle, each has a
    new stop signal of its own (the handles are consecutive, hence pairwise
    distinct) that is clear, the events that were there are untouched, and
    nothing is sent, started or consumed. *)
Theorem create_get_info (configs : list string) (w : World) :
  exists senders w',
    create configs w = (Ok senders, w') /\
    get_info senders = configs /\
    map stop_signal senders = seq (next_event w) (length configs) /\
    NoDup (map stop_signal senders) /\
    Forall (fun me => thread_active me = false /\ thread_send me = None /\
                      packet me = None) senders /\
    Forall (fun me => sender_ok (mkSys me w')) senders /\
    (forall h, (h < next_event w)%nat -> events w' !! h = events w !! h) /\
    next_event w' = (next_event w + length configs)%nat /\
    procs w' = procs w /\ next_pid w' = next_pid w /\
    oracle w' = oracle w /\ trace w' = trace w.
Proof.
  revert w. induction configs as [|c configs IH]; intros w.
  - exists [], w. cbn. repeat split; auto using NoDup_nil_2, Forall_nil_2.
  - set (h := next_event w).
    set (w1 := mkWorld (<[h := false]> (events w)) (Datatypes.S h) (procs w)
                 (next_pid w) (oracle w) (trace w)).
    destruct (IH w1)
      as (senders & w' & Hcreate & Hinfo & Hsig & Hnodup & Hidle & Hok & Hold
          & Hne & Hprocs & Hnp & Horacle & Htrace).
    exists (mkSender None false None h c :: senders), w'.
    assert (Hrun : create (c :: configs) w
                   = (Ok (mkSender None false None h c :: senders), w')).
    { cbn [create]. unfold bind at 1.
      change (PacketSender_init c w) with (Ok (mkSender None false None h c), w1).
      cbn iota beta. unfold bind at 1. now rewrite Hcreate. }
    split; [exact Hrun |].
    split; [cbn; now rewrite <- Hinfo |].
    assert (Hseq : map stop_signal (mkSender None false None h c :: senders)
                   = seq h (length (c :: configs))).
    { cbn. now rewrite Hsig. }
    split; [exact Hseq |].
    split; [rewrite Hseq; apply NoDup_seq |].
    split; [apply Forall_cons_2; auto |].
    split.
    { apply Forall_cons_2; [| exact Hok].
      split; [| exact I].
      unfold is_set. cbn [self world stop_signal].
      rewrite (Hold h) by (cbn; lia). cbn. now rewrite lookup_insert_eq. }
    split.
    { intros h0 Hh0. rewrite (Hold h0) by (cbn; lia). cbn.
      apply lookup_insert_ne. unfold h. lia. }
    cbn in Hne, Hprocs, Hnp, Horacle, Htrace.
    repeat split; try assumption. cbn. unfold h in Hne. lia.
Qed.

(** Pointwise the same events, and workers that stay launched: the
    agreement is kept. *)
Lemma sender_ok_frame_set (me : PacketSender) (w w' : World) :
  sender_ok (mkSys me w) ->
  (forall h, is_set h w = false -> is_set h w' = false) ->
  (forall pid q, procs w !! pid = Some q ->
     exists pc', procs w' !! pid = Some (at_pc pc' q) /\
                 (launched (tsp_pc q) = true -> launched pc' = true)) ->
  sender_ok (mkSys me w').
Proof.
  intros [Hclear Hshape] Hev Hprocs. split.
  - cbn [self world] in *. now apply Hev.
  - cbn [self world] in *.
    destruct (thread_active me), (thread_send me) as [pid|]; try assumption.
    destruct Hshape as (q & Hq & Hl & Hsig).
    destruct (Hprocs pid q Hq) as (pc' & Hq' & Hl').
    exists (at_pc pc' q). split; [exact Hq' |]. split; [now apply Hl' | exact Hsig].
Qed.

Lemma stopped_idle (me : PacketSender) :
  thread_active me = false -> thread_send me = None -> stopped me = me.
Proof. destruct me. cbn. now intros -> ->. Qed.

(** X8. [destroy] on senders that each agree with the world (idle, or
    active with a launched worker on its own stop signal), with [join]
    followed for three steps or more: it returns without an exception;
    every sender is left idle with no handle, its interface and stop signal
    kept, and in agreement with the world; every worker that was behind one
    of the senders, and every worker that had ended, has ended; and every
    event that was clear is clear. *)
Theorem destroy_stops_all (fuel : nat) (objs : list PacketSender) (w : World) :
  Forall (fun me => sender_ok (mkSys me w)) objs -> (3 <= fuel)%nat ->
  exists w',
    destroy fuel objs w = (Ok tt, (map stopped objs, w')) /\
    Forall (fun me => sender_ok (mkSys me w')) (map stopped objs) /\
    Forall (fun me => forall pid, thread_send me = Some pid ->
              exists q, procs w' !! pid = Some q /\ alive (tsp_pc q) = false) objs /\
    (forall pid q, procs w !! pid = Some q -> alive (tsp_pc q) = false ->
       exists q', procs w' !! pid = Some q' /\ alive (tsp_pc q') = false) /\
    (forall h, is_set h w = false -> is_set h w' = false).
Proof.
  intros Hall Hfuel. revert w Hall.
  induction objs as [|me objs IH]; intros w Hall.
  - exists w. cbn. repeat split; auto using Forall_nil_2. eauto.
  - apply Forall_cons_1 in Hall as [Hme Hrest].
    pose proof Hme as [Hclear Hshape]. cbn [self world] in Hclear, Hshape.
    destruct (thread_active me) eqn:Hactive.
    + destruct (thread_send me) as [pid|] eqn:Hthread; [| contradiction].
      destruct Hshape as (q & Hq & Hl & Hsig).
      destruct (stop_sending_active_world (mkSys me w) fuel pid q true
                  Hactive Hthread Hq Hl Hsig Hfuel)
        as (pc' & w1 & Hstop & _ & Hpr1 & Hend & Hev1 & _).
      cbn [self world] in Hstop, Hpr1, Hev1.
      assert (Hdead : alive pc' = false) by (destruct Hend as [-> | ->]; reflexivity).
      assert (Hlaunched : launched pc' = true)
        by (destruct Hend as [-> | ->]; reflexivity).
      assert (Hcleared : is_set (stop_signal me) w1 = false)
        by (unfold is_set; now rewrite Hev1, lookup_insert_eq).
      assert (Hset : forall h, is_set h w = false -> is_set h w1 = false).
      { intros h0 Hh0. destruct (decide (stop_signal me = h0)) as [<-|Hne];
          [exact Hcleared |].
        unfold is_set in *. now rewrite Hev1, lookup_insert_ne. }
      assert (Hkeep : forall pid0 q0, procs w !! pid0 = Some q0 ->
                exists pc0, procs w1 !! pid0 = Some (at_pc pc0 q0) /\
                            (launched (tsp_pc q0) = true -> launched pc0 = true)).
      { intros pid0 q0 Hq0. rewrite Hpr1.
        destruct (decide (pid = pid0)) as [->|Hne].
        - rewrite lookup_insert_eq. assert (q0 = q) as -> by congruence.
          exists pc'. split; [reflexivity | auto].
        - rewrite lookup_insert_ne by assumption. now apply procs_kept. }
      destruct (IH w1) as (w' & Hdestroy & Hok & Hended & Hstay & Hclears).
      { eapply Forall_impl; [exact Hrest |].
        intros me2 Hme2. now apply (sender_ok_frame_set me2 w w1). }
      exists w'. split.
      { cbn [destroy map]. rewrite Hstop. cbn [self world]. now rewrite Hdestroy. }
      split.
      { cbn [map]. apply Forall_cons_2; [| exact Hok].
        split; [| exact I]. cbn [self world stopped stop_signal].
        now apply Hclears. }
      split.
      { apply Forall_cons_2; [| exact Hended].
        intros pid0 Hpid0. assert (pid0 = pid) as -> by congruence.
        apply (Hstay pid (at_pc pc' q)); [| exact Hdead].
        rewrite Hpr1. apply lookup_insert_eq. }
      split.
      { intros pid0 q0 Hq0 Hdead0.
        destruct (decide (pid = pid0)) as [->|Hne].
        - apply (Hstay pid0 (at_pc pc' q)); [| exact Hdead].
          rewrite Hpr1. apply lookup_insert_eq.
        - apply (Hstay pid0 q0); [| exact Hdead0].
          rewrite Hpr1. now rewrite lookup_insert_ne. }
      auto.
    + destruct (thread_send me) as [pid|] eqn:Hthread; [contradiction |].
      assert (Hstop : stop_sending fuel true (mkSys me w) = (Ok tt, mkSys me w)).
      { unfold stop_sending, bind, gets, ret. cbn [self]. now rewrite Hactive. }
      destruct (IH w Hrest) as (w' & Hdestroy & Hok & Hended & Hstay & Hclears).
      exists w'. split.
      { cbn [destroy map]. rewrite Hstop. cbn [self world].
        rewrite Hdestroy. now rewrite (stopped_idle me Hactive Hthread). }
      split.
      { cbn [map]. apply Forall_cons_2; [| exact Hok].
        rewrite (stopped_idle me Hactive Hthread).
        split; [now apply Hclears |].
        cbn [self world]. now rewrite Hactive, Hthread. }
      split.
      { apply Forall_cons_2; [| exact Hended]. intros pid0 Hpid0. congruence. }
      split; [exact Hstay | exact Hclears].
Qed.

Lemma destroy_stops_all_witness :
  Forall (fun me => sender_ok (mkSys me (world sending_sys))) [self sending_sys] /\
  exists w',
    destroy 3 [self sending_sys] (world sending_sys)
      = (Ok tt, ([stopped (self sending_sys)], w')) /\
    sender_ok (mkSys (stopped (self sending_sys)) w') /\
    exists q, procs w' !! 0%nat = Some q /\ alive (tsp_pc q) = false.
Proof.
  assert (Hok : Forall (fun me => sender_ok (mkSys me (world sending_sys)))
                  [self sending_sys]).
  { apply Forall_cons_2; [| apply Forall_nil_2].
    split; [reflexivity |].
    exists sample_worker. repeat split. }
  split; [exact Hok |].
  destruct (destroy_stops_all 3 [self sending_sys] (world sending_sys) Hok (le_n 3))
    as (w' & Hdestroy & Hidle & Hended & _).
  exists w'. split; [exact Hdestroy |].
  split; [exact (Forall_inv Hidle) |].
  exact (Forall_inv Hended 0%nat eq_refl).
Defined.

(** ** The constructors of the generators *)

(** X9. On a configuration with no ['get_local'] entry, the constructor of
    every generator class raises [KeyError] for the first key, in the order
    it reads them, that the configuration lacks; when none is lacking it
    returns a generator with an empty cache whose source MAC is the
    ['src_mac'] entry. *)
Theorem constructor_required_keys (lib : Library) (c : generator_class)
    (cfg : gmap string value) :
  explicit cfg ->
  match first_missing cfg (required_keys c) with
  | Some k => new lib c cfg = Raised (KeyError k)
  | None =>
      exists g, new lib c cfg = Ok g /\ cached g = None /\
                cfg !! "src_mac" = Some (src_mac_of g)
  end.
Proof.
  intros Hexp.
  destruct c; unfold new, required_keys; cbn [first_missing];
    [ unfold ArpGenerator.init | unfold DhcpOfferGenerator.init
    | unfold NsGenerator.init | unfold RaGenerator.init
    | unfold Ping6Generator.init | unfold Ping4Generator.init
    | unfold Mdns6Generator.init | unfold Mdns4Generator.init
    | unfold Dot3Generator.init ];
    unfold construct, bind; read_keys @local_or_getitem Hexp cfg;
    try reflexivity; eexists; repeat split.
Qed.

Lemma arp_scenario_config_explicit : explicit arp_scenario_config.
Proof.
  apply explicit_map_Forall. unfold arp_scenario_config.
  repeat (apply map_Forall_insert_2; [discriminate |]).
  apply map_Forall_empty.
Defined.

Lemma constructor_required_keys_witness :
  explicit arp_scenario_config /\
  new bare_library CArp arp_scenario_config = Raised (KeyError "interf").
Proof.
  split; [exact arp_scenario_config_explicit |].
  exact (constructor_required_keys bare_library CArp arp_scenario_config
           arp_scenario_config_explicit).
Defined.

Lemma local_or_local {S} (cfg : gmap string value) (key : string)
    (resolve : M S value) (s : S) :
  cfg !! key = Some (VStr GET_FROM_LOCAL_INTERFACE) ->
  local_or cfg key resolve s = resolve s.
Proof.
  intros H. unfold local_or, bind, getitem. rewrite H. cbn.
  now rewrite bool_decide_eq_true_2.
Qed.

Lemma local_or_getitem_at {S} (cfg : gmap string value) (key : string)
    (resolve : M S value) (s : S) :
  cfg !! key <> Some (VStr GET_FROM_LOCAL_INTERFACE) ->
  local_or cfg key resolve s = getitem cfg key s.
Proof.
  intros H. unfold local_or, bind, getitem.
  destruct (cfg !! key) as [v|] eqn:Hv; [| reflexivity].
  cbn. rewrite bool_decide_eq_false_2; [reflexivity |].
  intros ->. now apply H.
Qed.

(** X10. With ['src_mac'] set to ['get_local'], no other entry set to it
    and no key lacking, the constructor of every generator class asks the
    host for the hardware address of the interface ['interf']: the
    generator holds the address the host returns, and when the host raises,
    the constructor raises the same exception. *)
Theorem constructor_resolves_src_mac (lib : Library) (c : generator_class)
    (cfg : gmap string value) (interf : value) :
  cfg !! "interf" = Some interf ->
  cfg !! "src_mac" = Some (VStr GET_FROM_LOCAL_INTERFACE) ->
  (forall k, k <> "src_mac" -> cfg !! k <> Some (VStr GET_FROM_LOCAL_INTERFACE)) ->
  first_missing cfg (required_keys c) = None ->
  match get_if_hwaddr lib interf with
  | Ok mac => exists g, new lib c cfg = Ok g /\ src_mac_of g = mac /\ cached g = None
  | Raised e => new lib c cfg = Raised e
  | Hang => new lib c cfg = Hang
  end.
Proof.
  intros Hif Hlocal Hothers.
  destruct c; unfold new, required_keys; cbn [first_missing];
    [ unfold ArpGenerator.init | unfold DhcpOfferGenerator.init
    | unfold NsGenerator.init | unfold RaGenerator.init
    | unfold Ping6Generator.init | unfold Ping4Generator.init
    | unfold Mdns6Generator.init | unfold Mdns4Generator.init
    | unfold Dot3Generator.init ];
    unfold construct, bind;
    repeat first
      [ rewrite Hif
      | rewrite Hlocal
      | rewrite !(local_or_local _ _ _ _ Hlocal)
      | match goal with
        | |- context [local_or cfg ?k _ _] =>
            rewrite (local_or_getitem_at cfg k _ _ (Hothers k ltac:(discriminate)))
        end
      | progress (unfold getitem, ret, raise, call; cbn [fst snd map_result])
      | match goal with
        | |- context [cfg !! ?k] => destruct (cfg !! k) eqn:?
        end
      | match goal with
        | |- context [match get_if_hwaddr lib interf with _ => _ end] =>
            destruct (get_if_hwaddr lib interf)
        end ];
    try discriminate; try reflexivity; intros _; eexists; repeat split.
Qed.

Lemma arp_local_config_others (k : string) :
  k <> "src_mac" -> arp_local_config !! k <> Some (VStr GET_FROM_LOCAL_INTERFACE).
Proof.
  intros Hk H. unfold arp_local_config in H.
  repeat (rewrite lookup_insert in H;
          destruct (decide _) as [<-|_]; [try discriminate H; congruence |]).
  now rewrite lookup_empty in H.
Defined.

Lemma constructor_resolves_src_mac_witness :
  exists g, new eth0_library CArp arp_local_config = Ok g /\
            src_mac_of g = VStr "02:00:00:00:00:01".
Proof.
  destruct (constructor_resolves_src_mac eth0_library CArp arp_local_config
              (VStr "eth0") eq_refl eq_refl arp_local_config_others eq_refl)
    as (g & Hnew & Hmac & _).
  exists g. split; assumption.
Defined.

(** ** [get_if_addr6] *)

Lemma get_if_addr6_in_none (l : list (value * value * value)) (intf ty : value) :
  (forall entry, entry ∈ l -> ~ matching intf ty entry) ->
  get_if_addr6_in l intf ty = VNone.
Proof.
  induction l as [|[[addr t] i] l IH]; intros Hnone; [reflexivity |].
  cbn [get_if_addr6_in].
  destruct (bool_decide (i = intf) && bool_decide (t = ty)) eqn:Hm.
  - exfalso. apply andb_true_iff in Hm as [Hi Ht].
    apply bool_decide_eq_true in Hi, Ht.
    apply (Hnone (addr, t, i)); [apply list_elem_of_here | now split].
  - apply IH. intros entry Hentry. apply Hnone. now apply list_elem_of_further.
Qed.

Lemma get_if_addr6_in_first (before after : list (value * value * value))
    (addr intf ty : value) :
  (forall entry, entry ∈ before -> ~ matching intf ty entry) ->
  get_if_addr6_in (before ++ (addr, ty, intf) :: after) intf ty = addr.
Proof.
  induction before as [|[[a t] i] before IH]; intros Hnone.
  - cbn. now rewrite !bool_decide_eq_true_2.
  - cbn [app get_if_addr6_in].
    destruct (bool_decide (i = intf) && bool_decide (t = ty)) eqn:Hm.
    + exfalso. apply andb_true_iff in Hm as [Hi Ht].
      apply bool_decide_eq_true in Hi, Ht.
      apply (Hnone (a, t, i)); [apply list_elem_of_here | now split].
    + apply IH. intros entry Hentry. apply Hnone. now apply list_elem_of_further.
Qed.

(** X11. [get_if_addr6(intf, address_type)] returns the address of the
    first entry of [scapy.in6_getifaddr()] that has this interface and this
    type, whatever comes after it, and returns [None] when no entry has
    both: an entry of the interface with another type, or of the type on
    another interface, does not count. *)
Theorem get_if_addr6_first_match (lib : Library) (intf ty : value) :
  ((forall entry, entry ∈ in6_getifaddr lib -> ~ matching intf ty entry) ->
   get_if_addr6 lib intf ty = VNone)
  /\ (forall before after addr,
        in6_getifaddr lib = (before ++ (addr, ty, intf) :: after)%list ->
        (forall entry, entry ∈ before -> ~ matching intf ty entry) ->
        get_if_addr6 lib intf ty = addr).
Proof.
  split.
  - apply get_if_addr6_in_none.
  - intros before after addr Hl Hnone. unfold get_if_addr6. rewrite Hl.
    now apply get_if_addr6_in_first.
Qed.

Lemma get_if_addr6_first_match_witness :
  get_if_addr6 ipv6_library (VStr "eth0") (VInt 32) = VStr "fe80::1"
  /\ get_if_addr6 eth0_library (VStr "eth0") (VInt 32) = VNone.
Proof.
  destruct (get_if_addr6_first_match ipv6_library (VStr "eth0") (VInt 32))
    as [_ Hfirst].
  destruct (get_if_addr6_first_match eth0_library (VStr "eth0") (VInt 32))
    as [Hnone _].
  split.
  - apply (Hfirst [(VStr "2001:db8::1", VInt 0, VStr "eth0");
                   (VStr "fe80::9", VInt 32, VStr "wlan0")]
                  [(VStr "fe80::2", VInt 32, VStr "eth0")]); [reflexivity |].
    intros entry Hentry [Hi Ht].
    apply elem_of_cons in Hentry as [-> | Hentry]; [discriminate Ht |].
    apply elem_of_cons in Hentry as [-> | Hentry]; [discriminate Hi |].
    now apply elem_of_nil in Hentry.
  - apply Hnone. intros entry Hentry. now apply elem_of_nil in Hentry.
Defined.

(** X12. With ['src_ipv6'] set to ['get_local'], no other entry set to it
    and no key lacking, the constructor of each class that has a source
    IPv6 address (neighbour solicitation, router advertisement, ping6,
    mDNS6) does not fail: the generator holds what [get_if_addr6] returns
    for the interface ['interf'] and the type ['src_ipv6_type'], which is
    [None] when the interface has no address of that type. *)
Theorem constructor_resolves_src_ipv6 (lib : Library) (c : generator_class)
    (cfg : gmap string value) (interf ty : value) :
  "src_ipv6" ∈ required_keys c ->
  cfg !! "interf" = Some interf -> cfg !! "src_ipv6_type" = Some ty ->
  cfg !! "src_ipv6" = Some (VStr GET_FROM_LOCAL_INTERFACE) ->
  (forall k, k <> "src_ipv6" -> cfg !! k <> Some (VStr GET_FROM_LOCAL_INTERFACE)) ->
  first_missing cfg (required_keys c) = None ->
  exists g,
    new lib c cfg = Ok g /\ cached g = None /\
    src_ipv6_of g = Some (get_if_addr6 lib interf ty) /\
    ((forall entry, entry ∈ in6_getifaddr lib -> ~ matching interf ty entry) ->
     src_ipv6_of g = Some VNone).
Proof.
  intros Hclass Hif Hty Hlocal Hothers.
  assert (Hnone : (forall entry, entry ∈ in6_getifaddr lib -> ~ matching interf ty entry) ->
                  Some (get_if_addr6 lib interf ty) = Some VNone)
    by (intros H; f_equal; now apply get_if_addr6_in_none).
  destruct c; unfold required_keys in Hclass;
    try (exfalso; repeat (apply elem_of_cons in Hclass as [Hclass | Hclass];
                          [discriminate Hclass |]);
         now apply elem_of_nil in Hclass);
    clear Hclass;
    unfold new, required_keys; cbn [first_missing];
    [ unfold NsGenerator.init | unfold RaGenerator.init
    | unfold Ping6Generator.init | unfold Mdns6Generator.init ];
    unfold construct, bind;
    repeat first
      [ rewrite Hif
      | rewrite Hty
      | rewrite Hlocal
      | rewrite !(local_or_local _ _ _ _ Hlocal)
      | match goal with
        | |- context [local_or cfg ?k _ _] =>
            rewrite (local_or_getitem_at cfg k _ _ (Hothers k ltac:(discriminate)))
        end
      | progress (unfold getitem, ret, raise, call; cbn [fst snd map_result])
      | match goal with
        | |- context [cfg !! ?k] => destruct (cfg !! k) eqn:?
        end ];
    try discriminate; intros _; eexists;
    (split; [reflexivity |]); (split; [reflexivity |]);
    (split; [reflexivity | exact Hnone]).
Qed.

Lemma ns_local_config_others (k : string) :
  k <> "src_ipv6" -> ns_local_config !! k <> Some (VStr GET_FROM_LOCAL_INTERFACE).
Proof.
  intros Hk H. unfold ns_local_config in H.
  repeat (rewrite lookup_insert in H;
          destruct (decide _) as [<-|_]; [try discriminate H; congruence |]).
  now rewrite lookup_empty in H.
Defined.

Lemma src_ipv6_required_by_ns : "src_ipv6" ∈ required_keys CNs.
Proof.
  unfold required_keys.
  repeat first [apply list_elem_of_here | apply list_elem_of_further].
Defined.

Lemma constructor_resolves_src_ipv6_witness :
  exists g, new eth0_library CNs ns_local_config = Ok g /\
            src_ipv6_of g = Some VNone.
Proof.
  destruct (constructor_resolves_src_ipv6 eth0_library CNs ns_local_config
              (VStr "eth0") (VInt 32) src_ipv6_required_by_ns eq_refl eq_refl eq_refl
              ns_local_config_others eq_refl)
    as (g & Hnew & _ & _ & Hnone).
  exists g. split; [exact Hnew |].
  apply Hnone. intros entry Hentry. now apply elem_of_nil in Hentry.
Defined.

(** ** Calls of the generating methods with any arguments *)

(** What a generating method returns does not depend on the cached packet. *)
Lemma generate0_with_cached (lib : Library) (lifetime : value) (meth : dot3_method)
    (c : option Packet) (g : generator) :
  fst (generate0 lib lifetime meth (with_cached c g))
  = fst (generate0 lib lifetime meth g).
Proof.
  destruct g as [a|a|a|a|a|a|a|a|a]; destruct a;
    try solve [reflexivity | destruct meth; reflexivity].
  - run_generate. now destruct (mac2str lib dst_mac).
  - run_generate.
    destruct (inet_pton6 lib dst_ipv6) as [v1| |]; run_generate; try reflexivity.
    destruct (in6_getnsma lib v1) as [v2| |]; run_generate; try reflexivity.
    destruct (inet_ntop6 lib v2) as [v3| |]; run_generate; try reflexivity.
    now destruct (in6_getnsmac lib v2).
Qed.

(** A call of a generating method changes the cached packet when it returns
    and nothing when it raises. *)
Lemma invoke_frame (lib : Library) (i : invocation) :
  match fst (invoke lib i) with
  | Ok p => snd (invoke lib i) = with_cached (Some p) (receiver i)
  | _ => snd (invoke lib i) = receiver i
  end.
Proof.
  destruct i as [g ? ? ? ? ? ?|g ? ?|g ? ?|g ? ? ? ? ?|g ? ?|g ? ?|g ? ?|g ? ?
                |g ?|g ? ? ? ?|g ? ? ? ? ? ?];
    destruct g; try reflexivity.
  - run_invoke.
    match goal with |- context [mac2str lib ?x] => destruct (mac2str lib x) end;
      reflexivity.
  - run_invoke.
    match goal with |- context [inet_pton6 lib ?x] =>
      destruct (inet_pton6 lib x) as [v1| |] end; run_invoke; try reflexivity.
    destruct (in6_getnsma lib v1) as [v2| |]; run_invoke; try reflexivity.
    destruct (inet_ntop6 lib v2) as [v3| |]; run_invoke; try reflexivity.
    destruct eth_dst; run_invoke; try reflexivity.
    destruct (in6_getnsmac lib v2); reflexivity.
Qed.

(** X13. Overrides do not stick.  A call of any generating method of any
    class, with any arguments, changes the cached packet when it returns and
    nothing at all when it raises: the addressing fields of the generator
    are the ones it was built with.  So the next call with no override
    returns what it would have returned before. *)
Theorem overrides_do_not_stick (lib : Library) (i : invocation)
    (lifetime : value) (meth : dot3_method) :
  match fst (invoke lib i) with
  | Ok p => snd (invoke lib i) = with_cached (Some p) (receiver i)
  | _ => snd (invoke lib i) = receiver i
  end
  /\ src_mac_of (snd (invoke lib i)) = src_mac_of (receiver i)
  /\ fst (generate0 lib lifetime meth (snd (invoke lib i)))
     = fst (generate0 lib lifetime meth (receiver i)).
Proof.
  pose proof (invoke_frame lib i) as Hframe.
  split; [exact Hframe |].
  destruct (fst (invoke lib i)); rewrite Hframe;
    try (split; reflexivity).
  split; [now destruct (receiver i) | apply generate0_with_cached].
Qed.

(** X14. Every packet that any generating method of any class returns, with
    any arguments, starts with the link layer (Ethernet, or 802.3 for the
    802.3 generator), and the source address of that layer is the
    generator's source MAC: no argument overrides it, not even [hwsrc] of
    the ARP generator, and no layer below it is a link layer. *)
Theorem frames_carry_src_mac (lib : Library) (i : invocation) (p : Packet) :
  fst (invoke lib i) = Ok p ->
  exists l rest,
    p = l :: rest /\ link_source l = Some (src_mac_of (receiver i)) /\
    Forall (fun l' => link_source l' = None) rest.
Proof.
  destruct i as [g ? ? ? ? ? ?|g ? ?|g ? ?|g ? enableDNS ? ? ?|g ? ?|g ? ?
                |g ? ?|g ? ?|g ?|g ? ? ? ?|g ? ? ? ? ? ?];
    destruct g; try destruct enableDNS; run_invoke.
  all: repeat match goal with
         | |- context [match ?r with Ok _ => _ | Raised _ => _ | Hang => _ end] =>
             destruct r; run_invoke
         | |- context [match ?v with VNone => _ | VStr _ => _ | VInt _ => _ end] =>
             is_var v; destruct v; run_invoke
         end.
  all: try discriminate.
  all: intros [= <-]; eexists _, _; split; [reflexivity |];
    split; [reflexivity |]; repeat constructor.
Qed.

Lemma frames_carry_src_mac_witness :
  exists l rest,
    [Ether (VStr "aa:bb:cc:dd:ee:ff") (VStr "01:02:03:04:05:06");
     ARP (VStr "is-at") (VStr "10.0.0.2") (VStr "10.0.0.1") (VStr ARP_DST)
         (VStr "de:ad:be:ef:00:00")] = l :: rest /\
    link_source l = Some (VStr "aa:bb:cc:dd:ee:ff").
Proof.
  destruct (frames_carry_src_mac bare_library
              (ArpGenerate (ArpGenerator.mk None (VStr "aa:bb:cc:dd:ee:ff")
                              (VStr "10.0.0.1") (VStr "10.0.0.2"))
                 (VStr "is-at") VNone VNone (VStr "de:ad:be:ef:00:00") VNone
                 (VStr "01:02:03:04:05:06"))
              _ eq_refl) as (l & rest & Hp & Hsrc & _).
  exists l, rest. split; [exact Hp | exact Hsrc].
Defined.

(** X15. Every frame that one of the three methods of the 802.3 generator
    returns, whatever the arguments: it starts with the 802.3 layer, whose
    length field is [PAD_LEN_BYTES] (128) whether or not an LLC or SNAP
    header follows, it ends with a padding of 128 zero bytes, and the
    headers between the two are the ones of the method, built from the
    arguments as they were given. *)
Theorem dot3_frames_are_padded (lib : Library) (i : invocation) (p : Packet) :
  is_dot3_call i = true -> fst (invoke lib i) = Ok p ->
  let headers :=
    match i with
    | Dot3GenerateLlc _ _ dsap ssap ctrl => [LLC dsap ssap ctrl]
    | Dot3GenerateSnap _ _ dsap ssap ctrl oui code =>
        [LLC dsap ssap ctrl; SNAP oui code]
    | _ => []
    end in
  exists dst,
    p = (Dot3 (src_mac_of (receiver i)) dst (Some PAD_LEN_BYTES)
           :: headers ++ [Padding (replicate 128 0)])%list.
Proof.
  destruct i as [g ? ? ? ? ? ?|g ? ?|g ? ?|g ? ? ? ? ?|g ? ?|g ? ?|g ? ?|g ? ?
                |g ?|g ? ? ? ?|g ? ? ? ? ? ?];
    try discriminate; intros _; destruct g; intros [= <-];
    eexists; reflexivity.
Qed.

Lemma dot3_frames_are_padded_witness :
  exists dst,
    [Dot3 (VStr "aa:bb:cc:dd:ee:ff") (VStr "11:22:33:44:55:66") (Some 128);
     LLC (VInt 170) (VInt 170) (VInt 3); SNAP (VInt 12) (VInt 2048);
     Padding (replicate 128 0)]
    = [Dot3 (VStr "aa:bb:cc:dd:ee:ff") dst (Some PAD_LEN_BYTES);
       LLC (VInt 170) (VInt 170) (VInt 3); SNAP (VInt 12) (VInt 2048);
       Padding (replicate 128 0)].
Proof.
  exact (dot3_frames_are_padded bare_library
           (Dot3GenerateSnap (Dot3Generator.mk None (VStr "11:22:33:44:55:66")
                                (VStr "aa:bb:cc:dd:ee:ff"))
              VNone (VInt 170) (VInt 170) (VInt 3) (VInt 12) (VInt 2048))
           _ eq_refl eq_refl).
Defined.

(** X16. With [eth_dst] given, the neighbour solicitation generator does
    not compute the multicast MAC of the target: whatever [in6_getnsmac]
    would do, also raise, the call ends the same way, and the Ethernet
    destination of a returned packet is [eth_dst]. *)
Theorem ns_eth_dst_skips_nsmac (lib : Library) (f : value -> result value)
    (g : NsGenerator.t) (ip_dst eth_dst : value) :
  eth_dst <> VNone ->
  NsGenerator.generate (with_in6_getnsmac f lib) ip_dst eth_dst g
  = NsGenerator.generate lib ip_dst eth_dst g
  /\ (forall p, fst (NsGenerator.generate lib ip_dst eth_dst g) = Ok p ->
        head p = Some (Ether (NsGenerator.src_mac g) eth_dst)).
Proof.
  intros Hgiven. destruct g.
  unfold NsGenerator.generate, bind, gets, call. cbn.
  destruct (inet_pton6 lib _) as [v1| |]; cbn; [| split; [reflexivity | discriminate] ..].
  destruct (in6_getnsma lib v1) as [v2| |]; cbn; [| split; [reflexivity | discriminate] ..].
  destruct (inet_ntop6 lib v2) as [v3| |]; cbn; [| split; [reflexivity | discriminate] ..].
  destruct eth_dst; [contradiction | ..]; cbn; (split; [reflexivity |]);
    intros p [= <-]; reflexivity.
Qed.

Lemma ns_eth_dst_skips_nsmac_witness :
  VStr "33:33:00:00:00:02" <> VNone /\
  fst (NsGenerator.generate
         (with_in6_getnsmac (fun _ => Raised (ValueError "bad address")) bare_library)
         VNone (VStr "33:33:00:00:00:02")
         (NsGenerator.mk None (VStr "aa:bb:cc:dd:ee:ff") (VStr "fe80::2") (VInt 32)
            (VStr "fe80::1")))
  = fst (NsGenerator.generate bare_library VNone (VStr "33:33:00:00:00:02")
           (NsGenerator.mk None (VStr "aa:bb:cc:dd:ee:ff") (VStr "fe80::2") (VInt 32)
              (VStr "fe80::1"))).
Proof.
  split; [discriminate |].
  destruct (ns_eth_dst_skips_nsmac bare_library
              (fun _ => Raised (ValueError "bad address"))
              (NsGenerator.mk None (VStr "aa:bb:cc:dd:ee:ff") (VStr "fe80::2")
                 (VInt 32) (VStr "fe80::1"))
              VNone (VStr "33:33:00:00:00:02")) as [Hsame _]; [discriminate |].
  now rewrite Hsame.
Defined.

(** ** The checks of [hostapd_utils] *)

(** X17. [verify_interface] returns exactly when the interface is a
    non-empty name of the list.  A missing or empty name is refused as
    missing even when the empty name is in the list, and a name that is not
    in the list is refused as invalid, with the name in the message. *)
Theorem verify_interface_passes (interface : option string)
    (valid_interfaces : list string) :
  (verify_interface interface valid_interfaces = Passes <->
   exists name, interface = Some name /\ name <> "" /\ name ∈ valid_interfaces)
  /\ (interface = None \/ interface = Some "" ->
      verify_interface interface valid_interfaces
      = RaisesValueError "Required wlan interface is missing." [])
  /\ (forall name, interface = Some name -> name <> "" -> name ∉ valid_interfaces ->
      verify_interface interface valid_interfaces
      = RaisesValueError "Invalid interface name was passed: %s" [FVal (VStr name)]).
Proof.
  unfold verify_interface. split; [| split].
  - destruct interface as [[|c name]|]; cbn [truthy_str negb default from_option id].
    + split; [discriminate |]. intros (name & [= <-] & Hne & _). congruence.
    + destruct (bool_decide (String c name ∈ valid_interfaces)) eqn:Hin; cbn [negb].
      * apply bool_decide_eq_true in Hin. split; [| reflexivity].
        intros _. exists (String c name). repeat split; [discriminate | exact Hin].
      * apply bool_decide_eq_false in Hin. split; [discriminate |].
        intros (name' & [= <-] & _ & Hin'). contradiction.
    + split; [discriminate |]. intros (name & Hname & _). discriminate Hname.
  - intros [-> | ->]; reflexivity.
  - intros name -> Hne Hout. destruct name as [|c name]; [congruence |].
    cbn [truthy_str negb default from_option id]. now rewrite bool_decide_eq_false_2.
Qed.

(** X18. [verify_security_mode] returns exactly when the security mode of
    the profile, or [None] for an open network (no profile), is in the list
    of valid modes; the two refusals carry different messages. *)
Theorem verify_security_mode_passes (security_profile : option Security)
    (valid_security_modes : list value) :
  (verify_security_mode security_profile valid_security_modes = Passes <->
   mode_of security_profile ∈ valid_security_modes)
  /\ (security_profile = None -> VNone ∉ valid_security_modes ->
      verify_security_mode security_profile valid_security_modes
      = RaisesValueError "Open security is not allowed for this profile." [])
  /\ (forall profile, security_profile = Some profile ->
      security_mode profile ∉ valid_security_modes ->
      verify_security_mode security_profile valid_security_modes
      = RaisesValueError
          "Invalid Security Mode: %s. Valid Security Modes for this profile: %s."
          [FVal (security_mode profile); FList valid_security_modes]).
Proof.
  unfold verify_security_mode, mode_of. split; [| split].
  - destruct security_profile as [profile|].
    + destruct (bool_decide (security_mode profile ∈ valid_security_modes)) eqn:Hin;
        cbn [negb].
      * apply bool_decide_eq_true in Hin. now split.
      * apply bool_decide_eq_false in Hin. split; [discriminate | contradiction].
    + destruct (bool_decide (VNone ∈ valid_security_modes)) eqn:Hin; cbn [negb].
      * apply bool_decide_eq_true in Hin. now split.
      * apply bool_decide_eq_false in Hin. split; [discriminate | contradiction].
  - intros -> Hout. now rewrite bool_decide_eq_false_2.
  - intros profile -> Hout. now rewrite bool_decide_eq_false_2.
Qed.

(** X19. [verify_cipher], for any values of the constants [WPA1] and
    [WPA2]: it returns exactly when there is a profile and either its mode
    is [WPA1] and its [wpa_cipher] is in the list, or its mode is not [WPA1]
    but [WPA2] and its [wpa2_cipher] is in the list.  So an open network and
    every other mode are refused whatever the list, and in mode [WPA1] the
    [wpa2_cipher] is not looked at. *)
Theorem verify_cipher_passes (WPA1 WPA2 : value) (security_profile : option Security)
    (valid_ciphers : list value) :
  (verify_cipher WPA1 WPA2 security_profile valid_ciphers = Passes <->
   exists profile,
     security_profile = Some profile /\
     ((security_mode profile = WPA1 /\ wpa_cipher profile ∈ valid_ciphers) \/
      (security_mode profile <> WPA1 /\ security_mode profile = WPA2 /\
       wpa2_cipher profile ∈ valid_ciphers)))
  /\ (security_profile = None ->
      verify_cipher WPA1 WPA2 security_profile valid_ciphers
      = RaisesValueError "Security mode is open." [])
  /\ (forall profile, security_profile = Some profile ->
      security_mode profile <> WPA1 -> security_mode profile <> WPA2 ->
      verify_cipher WPA1 WPA2 security_profile valid_ciphers
      = RaisesValueError "Invalid Security Mode: %s" [FVal (security_mode profile)])
  /\ (forall mode c c2 c2',
      verify_cipher WPA1 WPA2 (Some (mkSecurity mode c c2)) valid_ciphers = Passes ->
      mode = WPA1 ->
      verify_cipher WPA1 WPA2 (Some (mkSecurity mode c c2')) valid_ciphers = Passes).
Proof.
  unfold verify_cipher. split; [| split; [| split]].
  - destruct security_profile as [profile|].
    + destruct (bool_decide (security_mode profile = WPA1)) eqn:H1.
      * apply bool_decide_eq_true in H1.
        destruct (bool_decide (wpa_cipher profile ∈ valid_ciphers)) eqn:Hin;
          cbn [negb].
        -- apply bool_decide_eq_true in Hin. split; [| reflexivity].
           intros _. exists profile. split; [reflexivity |]. now left.
        -- apply bool_decide_eq_false in Hin. split; [discriminate |].
           intros (profile' & [= <-] & [[_ Hin'] | [Hne _]]); contradiction.
      * apply bool_decide_eq_false in H1.
        destruct (bool_decide (security_mode profile = WPA2)) eqn:H2.
        -- apply bool_decide_eq_true in H2.
           destruct (bool_decide (wpa2_cipher profile ∈ valid_ciphers)) eqn:Hin;
             cbn [negb].
           ++ apply bool_decide_eq_true in Hin. split; [| reflexivity].
              intros _. exists profile. split; [reflexivity |]. now right.
           ++ apply bool_decide_eq_false in Hin. split; [discriminate |].
              intros (profile' & [= <-] & [[Heq _] | (_ & _ & Hin')]); contradiction.
        -- apply bool_decide_eq_false in H2. split; [discriminate |].
           intros (profile' & [= <-] & [[Heq _] | (_ & Heq & _)]); contradiction.
    + split; [discriminate |]. intros (profile & Hp & _). discriminate Hp.
  - intros ->. reflexivity.
  - intros profile -> H1 H2. now rewrite !bool_decide_eq_false_2.
  - intros mode c c2 c2' Hpass ->. cbn in *.
    rewrite bool_decide_eq_true_2 in * by reflexivity. exact Hpass.
Qed.

(** X20. Given string generators that return a string of the length asked
    for: with no length, or the length 0, and a security mode that is
    absent, empty or does not lower to ["wep"], the password has the minimum
    WPA-PSK length (8), with the hexadecimal generator as with the ASCII
    one. *)
Theorem generate_random_password_default {Rng}
    (rand_ascii_str rand_hex_str : Z -> Rng -> string * Rng)
    (security_mode : option string) (length hex : option Z) (r : Rng) :
  returns_length rand_ascii_str -> returns_length rand_hex_str ->
  length = None \/ length = Some 0 ->
  (forall mode, security_mode = Some mode -> lower mode <> "wep") ->
  String.length
    (fst (generate_random_password rand_ascii_str rand_hex_str
            security_mode length hex r))
  = Z.to_nat hostapd_constants.MIN_WPA_PSK_LENGTH.
Proof.
  intros Hascii Hhex Hlen Hmode.
  assert (Hfalsy : truthy_int length = false) by (destruct Hlen as [-> | ->]; reflexivity).
  unfold generate_random_password. rewrite Hfalsy.
  assert (Hnot : truthy_str security_mode
                 && bool_decide (lower (default "" security_mode)
                                 = hostapd_constants.WEP_STRING) = false).
  { destruct security_mode as [mode|]; [| reflexivity].
    rewrite bool_decide_eq_false_2; [apply andb_false_r |].
    cbn [default from_option id]. now apply Hmode. }
  rewrite Hnot.
  destruct (truthy_int hex); [apply Hhex | apply Hascii].
Qed.

Lemma generate_random_password_default_witness :
  String.length
    (fst (generate_random_password (const_str "a") (const_str "f")
            (Some "WPA2") (Some 0) (Some 1) tt)) = 8%nat.
Proof.
  apply (generate_random_password_default (const_str "a") (const_str "f")
           (Some "WPA2") (Some 0) (Some 1) tt
           (const_str_returns_length "a") (const_str_returns_length "f")).
  - now right.
  - intros mode [= <-]. discriminate.
Defined.

(** ** A worker started with the stop signal set *)

(** X21. A worker that is started while its stop signal is set logs that
    it started and that it stopped, and ends at [Stopped]: however long it
    is scheduled it sends nothing and makes no external call. *)
Theorem started_with_signal_set_sends_nothing (pid : nat) (q : ThreadSendPacket)
    (w : World) (n : nat) :
  procs w !! pid = Some q -> tsp_pc q = AtStart ->
  is_set (tsp_stop_signal q) w = true -> (2 <= n)%nat ->
  worker_steps n pid w =
    set_proc pid (at_pc Stopped q)
      (advance 0 [Log INFO "Packet Sending Stopped." None;
                  Log INFO "Packet Sending Started." None] w)
  /\ transmissions (trace (worker_steps n pid w)) = transmissions (trace w)
  /\ oracle (worker_steps n pid w) = oracle w.
Proof.
  intros Hq Hpc Hset Hn.
  assert (Hsteps : worker_steps n pid w =
    set_proc pid (at_pc Stopped q)
      (advance 0 [Log INFO "Packet Sending Stopped." None;
                  Log INFO "Packet Sending Started." None] w)).
  { destruct n as [|[|n]]; try lia. cbn [worker_steps].
    rewrite (worker_step_of_transition pid q w
               (advance 0 [Log INFO "Packet Sending Started." None] w) AtPoll Hq)
      by now apply t_started.
    set (w1 := set_proc pid (at_pc AtPoll q)
                 (advance 0 [Log INFO "Packet Sending Started." None] w)).
    assert (Hset1 : is_set (tsp_stop_signal (at_pc AtPoll q)) w1 = true) by exact Hset.
    rewrite (worker_step_of_transition pid (at_pc AtPoll q) w1
               (advance 0 [Log INFO "Packet Sending Stopped." None] w1) Stopped);
      [| simpl; apply lookup_insert_eq
       | exact (t_signaled (at_pc AtPoll q) w1 eq_refl Hset1)].
    rewrite (worker_steps_ended n pid (at_pc Stopped q));
      [| simpl; apply lookup_insert_eq | reflexivity].
    unfold w1, set_proc, advance, at_pc. simpl.
    now rewrite insert_insert_eq. }
  rewrite Hsteps. split; [reflexivity |]. split.
  - cbn [set_proc advance trace app]. now rewrite !transmissions_cons.
  - reflexivity.
Qed.

Lemma started_with_signal_set_sends_nothing_witness :
  let w := set_event 0 true (world sending_sys) in
  transmissions (trace (worker_steps 5 0 w)) = 0%nat
  /\ pc_of 0 (worker_steps 5 0 w) = Some Stopped.
Proof.
  intros w.
  destruct (started_with_signal_set_sends_nothing 0 sample_worker w 5)
    as (Hsteps & Htr & _); try reflexivity.
  - lia.
  - split; [exact Htr |]. rewrite Hsteps. reflexivity.
Defined.
